(** * Session, local cache, pending-operation log and cloud synchronisation
      of the sales-data comparator

    A shallow embedding of the browser modules [AuthManager],
    [CloudSyncManager], [LocalCacheManager], [AuthUI], [StorageManager] and
    [StateManager] of [app.js], of the Express routes [routes/auth.js] and
    [routes/data.js], and of the middleware [middleware/auth.js].

    Conventions.
    - JavaScript values are the type [JV]; numbers are integers ([Z]), which
      covers the ids, counters and timestamps the code computes with.
    - A function that can throw returns [Exc]; a method of one of the browser
      singletons is a computation [JS A] over the state [App], and keeps the
      state it reached when it throws.  [try_catch] is the [try]/[catch]
      statement.
    - [localStorage] is the key/value store of the repository's test mock.
      A stored string is kept as a [Text]: what [JSON.parse] makes of it.
    - An asynchronous call is modelled by its outcome: every method that
      awaits [fetch] receives a [Net], the state of the network at that call.
    - String primitives of the host ([trim], the [Date] conversions),
      [bcrypt.compare], [jwt.sign] and what a TEXT column makes of a double
      or a blob are the fields of the class [Runtime];
      [jwt.verify] and the text of a timestamp are those of [Backend], the
      text [JSON.stringify] writes is that of [JsonWriter].
    - The months on the page are the state [Months] of [StateManager]; its
      methods are computations [Page A] over that state and [App].
    - A table of the SQLite database is the list of its rows in rowid order.
      What [run] of db.js reports as [lastInsertRowid] is read after the
      database was exported, and is 0. *)

From stdpp Require Import gmap strings list fin_maps pretty.
From Stdlib Require Import ZArith Lia Sorted.

#[local] Open Scope string_scope.
#[local] Open Scope Z_scope.

(** ** JavaScript values *)

#[local] Unset Elimination Schemes.
Inductive JV : Type :=
| VUndef
| VNull
| VBool (b : bool)
| VNum (n : Z)
| VStr (s : string)
| VDate (t : option Z)            (* milliseconds since the epoch; [None] is Invalid Date *)
| VArr (l : list JV)
| VObj (fs : list (string * JV)). (* own properties, in insertion order *)
#[local] Set Elimination Schemes.

Inductive Exc (A : Type) : Type :=
| Ok (a : A)
| Throw (e : string).
Arguments Ok {A} a.
Arguments Throw {A} e.

#[global] Instance Exc_ret : MRet Exc := λ A a, Ok a.
#[global] Instance Exc_bind : MBind Exc :=
  λ A B f m, match m with Ok a => f a | Throw e => Throw e end.

Class Runtime := {
  trim : string → string;               (* String.prototype.trim *)
  toISOString : Z → string;             (* Date.prototype.toISOString of a valid date *)
  Date_parse : string → option Z;       (* Date.parse; [None] is NaN *)
  Date_toString : option Z → string;    (* Date.prototype.toString *)
  bcrypt_compare : string → string → bool;  (* bcrypt.compare(password, hash) *)
  jwt_sign : Z → string → Z → string;   (* jwt.sign({ id, username }, ...) at a given time *)
  column_text : JV → Exc JV             (* a TEXT column after sql.js bound a double or a
                                           blob to it, as a query reads it; it may refuse *)
}.

(** [s.length] of a string: its number of UTF-16 code units.  A [string]
    holds the UTF-8 bytes of the text: the byte that starts a character
    counts one, or two when the character lies outside the basic plane (a
    sequence of four bytes), and a continuation byte counts nothing. *)
Definition utf16_units (c : Ascii.ascii) : nat :=
  let n := Ascii.nat_of_ascii c in
  if (n <? 128)%nat then 1%nat
  else if (n <? 192)%nat then 0%nat
  else if (n <? 240)%nat then 1%nat
  else 2%nat.

Fixpoint js_length (s : string) : nat :=
  match s with
  | EmptyString => 0%nat
  | String c r => (utf16_units c + js_length r)%nat
  end.

(** An integer as a double: the nearest one, ties to the even mantissa.
    Every integer up to 2^53 in size is a double. *)
Definition to_double (z : Z) : Z :=
  let a := Z.abs z in
  if a <=? 2 ^ 53 then z else
  let e := Z.log2 a - 52 in
  let q := a / 2 ^ e in
  let r := a mod 2 ^ e in
  let q' := if 2 * r <? 2 ^ e then q
            else if 2 ^ e <? 2 * r then q + 1
            else if Z.even q then q else q + 1 in
  Z.sgn z * (q' * 2 ^ e).

(** [!v] is [negb (truthy v)]. *)
Definition truthy (v : JV) : bool :=
  match v with
  | VUndef | VNull => false
  | VBool b => b
  | VNum n => negb (n =? 0)
  | VStr s => negb (String.eqb s "")
  | VDate _ | VArr _ | VObj _ => true
  end.

(** [a || b] *)
Definition js_or (a b : JV) : JV := if truthy a then a else b.

(** [typeof v === 'string'] *)
Definition typeof_string (v : JV) : bool :=
  match v with VStr _ => true | _ => false end.

(** The string [v], where [typeof v === 'string'] has been checked. *)
Definition as_string (v : JV) : string :=
  match v with VStr s => s | _ => "" end.

(** [v === s] for a string literal [s] *)
Definition is_str (v : JV) (s : string) : bool :=
  match v with VStr s' => String.eqb s' s | _ => false end.

Fixpoint get_field (fs : list (string * JV)) (k : string) : JV :=
  match fs with
  | [] => VUndef
  | (k', v) :: r => if String.eqb k' k then v else get_field r k
  end.

(** Assignment of a property: an existing key keeps its place. *)
Fixpoint set_field (fs : list (string * JV)) (k : string) (v : JV)
  : list (string * JV) :=
  match fs with
  | [] => [(k, v)]
  | (k', v') :: r =>
      if String.eqb k' k then (k, v) :: r else (k', v') :: set_field r k v
  end.

(** [v.k]: a TypeError on [undefined] and [null]. *)
Definition prop (v : JV) (k : string) : Exc JV :=
  match v with
  | VUndef | VNull => Throw "TypeError"
  | VObj fs => Ok (get_field fs k)
  | VArr l => Ok (if String.eqb k "length" then VNum (Z.of_nat (length l)) else VUndef)
  | VStr s => Ok (if String.eqb k "length" then VNum (Z.of_nat (String.length s)) else VUndef)
  | _ => Ok VUndef
  end.

(** [v?.k] *)
Definition opt_prop (v : JV) (k : string) : JV :=
  match prop v k with Ok x => x | Throw _ => VUndef end.

Definition chars (s : string) : list JV :=
  (λ c, VStr (String c EmptyString)) <$> String.list_ascii_of_string s.

Definition indexed (l : list JV) : list (string * JV) :=
  imap (λ i v, (pretty i, v)) l.

(** The own enumerable properties copied by [{...v}]. *)
Definition spread (v : JV) : list (string * JV) :=
  match v with
  | VObj fs => fs
  | VArr l => indexed l
  | VStr s => indexed (chars s)
  | _ => []
  end.

(** The elements visited by [for (const x of v)]. *)
Definition iterate (v : JV) : Exc (list JV) :=
  match v with
  | VArr l => Ok l
  | VStr s => Ok (chars s)
  | _ => Throw "TypeError: not iterable"
  end.

Fixpoint exc_mapM {A B : Type} (f : A → Exc B) (l : list A) : Exc (list B) :=
  match l with
  | [] => Ok []
  | x :: r => y ← f x; ys ← exc_mapM f r; Ok (y :: ys)
  end.

(** [v.map(f)] *)
Definition js_map (f : JV → Exc JV) (v : JV) : Exc JV :=
  match v with
  | VArr l => l' ← exc_mapM f l; Ok (VArr l')
  | _ => Throw "TypeError: map is not a function"
  end.

(** [v.push(x)], returning the array after the push. *)
Definition js_push (v x : JV) : Exc JV :=
  match v with
  | VArr l => Ok (VArr (l ++ [x]))
  | _ => Throw "TypeError: push is not a function"
  end.

Section Values.
Context `{Runtime}.

(** String conversion, as in ['prefix' + v]. *)
Fixpoint js_to_string (v : JV) : string :=
  match v with
  | VUndef => "undefined"
  | VNull => "null"
  | VBool b => if b then "true" else "false"
  | VNum n => pretty n
  | VStr s => s
  | VDate t => Date_toString t
  | VArr l =>
      (fix join (l : list JV) : string :=
         match l with
         | [] => ""
         | x :: r =>
             let sx := match x with VUndef | VNull => "" | _ => js_to_string x end in
             match r with [] => sx | _ => sx +:+ "," +:+ join r end
         end) l
  | VObj _ => "[object Object]"
  end.

(** [new Date(v)] *)
Definition new_Date (v : JV) : JV :=
  VDate
    match v with
    | VUndef => None
    | VNull => Some 0
    | VBool b => Some (if b then 1 else 0)
    | VNum n => if Z.abs n <=? 8640000000000000 then Some n else None
    | VStr s => Date_parse s
    | VDate t => t
    | VArr _ | VObj _ => Date_parse (js_to_string v)
    end.

(** The value [JSON.parse(JSON.stringify(v))]: [undefined] properties are
    dropped, [undefined] array elements become [null], dates become their
    ISO string. *)
Fixpoint jsonify (v : JV) : JV :=
  match v with
  | VUndef => VNull
  | VDate (Some t) => VStr (toISOString t)
  | VDate None => VNull
  | VArr l => VArr (map jsonify l)
  | VObj fs =>
      VObj ((fix fields (fs : list (string * JV)) : list (string * JV) :=
               match fs with
               | [] => []
               | (k, VUndef) :: r => fields r
               | (k, x) :: r => (k, jsonify x) :: fields r
               end) fs)
  | _ => v
  end.

End Values.

(** A JSON value: no [undefined], no [Date]. *)
Fixpoint is_json (v : JV) : bool :=
  match v with
  | VUndef | VDate _ => false
  | VArr l => forallb is_json l
  | VObj fs => forallb (λ kv, is_json kv.2) fs
  | _ => true
  end.

(** ** Stored strings *)

Inductive Text : Type :=
| JsonText (v : JV)     (* the JSON text of [v] *)
| Raw (s : string).     (* a string that is not JSON text, e.g. a bearer token *)

Definition JSON_parse (t : Text) : Exc JV :=
  match t with
  | JsonText v => Ok v
  | Raw _ => Throw "SyntaxError"
  end.

(** [JSON.stringify(v)] as it is stored: [JSON.stringify(undefined)] is
    [undefined], which [setItem] stores as the string "undefined". *)
Definition JSON_stringify `{Runtime} (v : JV) : Text :=
  match v with
  | VUndef => Raw "undefined"
  | _ => JsonText (jsonify v)
  end.

(** [!serialized] for a string read from the store *)
Definition text_empty (t : Text) : bool :=
  match t with Raw s => String.eqb s "" | JsonText _ => false end.

(** ** The browser state *)

Inductive SyncStatus : Type := idle | syncing | error | offline.

Definition status_name (st : SyncStatus) : string :=
  match st with
  | idle => "idle" | syncing => "syncing" | error => "error" | offline => "offline"
  end.

(** The elements [#sync-status], [#sync-icon] and [#sync-text] of the page. *)
Record SyncIndicator : Type := mkIndicator {
  display : string;
  className : string;
  icon : string;
  text : string
}.

Record App : Type := mkApp {
  token : JV;                          (* AuthManager.token *)
  currentUser : JV;                    (* AuthManager.currentUser *)
  syncStatus : SyncStatus;             (* CloudSyncManager.syncStatus *)
  lastSyncTime : option Z;             (* CloudSyncManager.lastSyncTime *)
  localStorage : gmap string Text;
  indicator : option SyncIndicator;    (* [None]: the page has no indicator *)
  listening : bool                     (* the 'syncStatusChange' listener is installed *)
}.

Definition set_token (v : JV) (a : App) : App :=
  mkApp v (currentUser a) (syncStatus a) (lastSyncTime a) (localStorage a)
        (indicator a) (listening a).
Definition set_currentUser (v : JV) (a : App) : App :=
  mkApp (token a) v (syncStatus a) (lastSyncTime a) (localStorage a)
        (indicator a) (listening a).
Definition set_syncStatus (st : SyncStatus) (a : App) : App :=
  mkApp (token a) (currentUser a) st (lastSyncTime a) (localStorage a)
        (indicator a) (listening a).
Definition set_lastSyncTime (t : option Z) (a : App) : App :=
  mkApp (token a) (currentUser a) (syncStatus a) t (localStorage a)
        (indicator a) (listening a).
Definition set_localStorage (m : gmap string Text) (a : App) : App :=
  mkApp (token a) (currentUser a) (syncStatus a) (lastSyncTime a) m
        (indicator a) (listening a).
Definition set_indicator (i : option SyncIndicator) (a : App) : App :=
  mkApp (token a) (currentUser a) (syncStatus a) (lastSyncTime a) (localStorage a)
        i (listening a).

(** A computation over the browser state that may throw. *)
Definition JS (A : Type) : Type := App → Exc A * App.

#[global] Instance JS_ret : MRet JS := λ A x a, (Ok x, a).
#[global] Instance JS_bind : MBind JS :=
  λ A B f m a,
    match m a with
    | (Ok x, a') => f x a'
    | (Throw e, a') => (Throw e, a')
    end.

Definition get_app : JS App := λ a, (Ok a, a).
Definition modify (f : App → App) : JS unit := λ a, (Ok tt, f a).
Definition lift {A : Type} (x : Exc A) : JS A := λ a, (x, a).

Definition try_catch {A : Type} (body : JS A) (handler : string → JS A) : JS A :=
  λ a,
    match body a with
    | (Ok x, a') => (Ok x, a')
    | (Throw e, a') => handler e a'
    end.

(** [console.error(...)] *)
Definition console_error : JS unit := mret tt.

(** *** localStorage *)

Definition getItem (key : string) : JS (option Text) :=
  a ← get_app; mret (localStorage a !! key).
Definition setItem (key : string) (t : Text) : JS unit :=
  modify (λ a, set_localStorage (<[key := t]> (localStorage a)) a).
Definition removeItem (key : string) : JS unit :=
  modify (λ a, set_localStorage (delete key (localStorage a)) a).
(** [localStorage.key(0)], ..., [localStorage.key(localStorage.length - 1)] *)
Definition storage_keys : JS (list string) :=
  a ← get_app; mret (fst <$> map_to_list (localStorage a)).

(** *** The network, as one call sees it *)

Inductive FetchResult : Type :=
| Response (data : JV)    (* [await response.json()] *)
| NetworkError.           (* [fetch] rejects, or the body is not JSON *)

Record Net : Type := mkNet {
  onLine : bool;          (* navigator.onLine *)
  reply : FetchResult;    (* what the request of this call resolves to *)
  now : Z                 (* Date.now() *)
}.

Definition fetch_json (net : Net) : JS JV :=
  match reply net with
  | Response data => mret data
  | NetworkError => lift (Throw "TypeError: Failed to fetch")
  end.

Definition failure (e : JV) : JV := VObj [("success", VBool false); ("error", e)].

Definition STORAGE_KEY : string := "sales_data_comparator_data".
Definition AUTH_TOKEN_KEY : string := "sales_data_auth_token".
Definition AUTH_USER_KEY : string := "sales_data_auth_user".

(** The text [JSON.stringify] writes for a JSON value. *)
Class JsonWriter := {
  JSON_text : JV → string
}.

(** The string [getItem] returns for a stored [Text]. *)
Definition stored_string `{JsonWriter} (t : Text) : string :=
  match t with
  | Raw s => s
  | JsonText v => JSON_text v
  end.

(** What the request GET /auth/me of [restoreSession] comes to. *)
Inductive MeReply : Type :=
| Rejected                             (* [fetch] rejects *)
| Answered (ok : bool) (json : Exc JV). (* [response.ok]; what [response.json()] gives *)

(** ** AuthManager *)

Module AuthManager.
Section WithRuntime.
Context `{Runtime}.

Definition validateUsername (username : JV) : JV :=
  if negb (truthy username) || negb (typeof_string username) then
    VObj [("valid", VBool false); ("error", VStr "请输入有效用户名")]
  else
    let trimmed := trim (as_string username) in
    if Z.of_nat (String.length trimmed) =? 0 then
      VObj [("valid", VBool false); ("error", VStr "请输入有效用户名")]
    else VObj [("valid", VBool true)].

Definition validatePassword (password : JV) : JV :=
  if negb (truthy password) || negb (typeof_string password) then
    VObj [("valid", VBool false); ("error", VStr "密码长度至少6位")]
  else
    if Z.of_nat (js_length (as_string password)) <? 6 then
      VObj [("valid", VBool false); ("error", VStr "密码长度至少6位")]
    else VObj [("valid", VBool true)].

Definition _saveSession : JS unit :=
  a ← get_app;
  (if truthy (token a) then setItem AUTH_TOKEN_KEY (Raw (js_to_string (token a)))
   else mret tt) ;;
  (if truthy (currentUser a) then setItem AUTH_USER_KEY (JSON_stringify (currentUser a))
   else mret tt).

Definition _clearSession : JS unit :=
  removeItem AUTH_TOKEN_KEY ;; removeItem AUTH_USER_KEY.

(** [login(username, password)]; [net] answers the POST to /auth/login. *)
Definition login (net : Net) (username password : JV) : JS JV :=
  let usernameValidation := validateUsername username in
  if negb (truthy (opt_prop usernameValidation "valid")) then
    mret (failure (opt_prop usernameValidation "error"))
  else
  let passwordValidation := validatePassword password in
  if negb (truthy (opt_prop passwordValidation "valid")) then
    mret (failure (opt_prop passwordValidation "error"))
  else
  try_catch
    (data ← fetch_json net;
     success ← lift (prop data "success");
     tok ← (if truthy success then lift (prop data "token") else mret success);
     if truthy tok then
       user ← lift (prop data "user");
       modify (set_token tok) ;;
       modify (set_currentUser user) ;;
       _saveSession ;;
       mret (VObj [("success", VBool true)])
     else
       e ← lift (prop data "error");
       mret (failure (js_or e (VStr "登录失败"))))
    (λ _, console_error ;; mret (failure (VStr "网络错误，请稍后重试"))).

Definition logout : JS unit :=
  modify (set_token VNull) ;;
  modify (set_currentUser VNull) ;;
  _clearSession.

(** [token !== null && currentUser !== null] *)
Definition isLoggedIn : JS bool :=
  a ← get_app;
  mret (match token a, currentUser a with
        | VNull, _ | _, VNull => false
        | _, _ => true
        end).

Definition getCurrentUser : JS JV := a ← get_app; mret (currentUser a).
Definition getToken : JS JV := a ← get_app; mret (token a).

(** [register(username, password)]; [net] answers the POST to /auth/register. *)
Definition register (net : Net) (username password : JV) : JS JV :=
  let usernameValidation := validateUsername username in
  if negb (truthy (opt_prop usernameValidation "valid")) then
    mret (failure (opt_prop usernameValidation "error"))
  else
  let passwordValidation := validatePassword password in
  if negb (truthy (opt_prop passwordValidation "valid")) then
    mret (failure (opt_prop passwordValidation "error"))
  else
  try_catch
    (data ← fetch_json net;
     success ← lift (prop data "success");
     tok ← (if truthy success then lift (prop data "token") else mret success);
     if truthy tok then
       user ← lift (prop data "user");
       modify (set_token tok) ;;
       modify (set_currentUser
                 (js_or user (VObj [("username", VStr (trim (as_string username)))]))) ;;
       _saveSession ;;
       mret (VObj [("success", VBool true)])
     else
       e ← lift (prop data "error");
       mret (failure (js_or e (VStr "注册失败"))))
    (λ _, console_error ;; mret (failure (VStr "网络错误，请稍后重试"))).

End WithRuntime.

Section Restore.
Context `{Runtime} `{JsonWriter}.

(** [restoreSession()]; [me] is what the request to /auth/me comes to. *)
Definition restoreSession (me : MeReply) : JS bool :=
  try_catch
    (savedToken ← getItem AUTH_TOKEN_KEY;
     savedUser ← getItem AUTH_USER_KEY;
     match savedToken, savedUser with
     | Some tokenText, Some userText =>
         if text_empty tokenText || text_empty userText then mret false else
         match me with
         | Rejected => lift (Throw "TypeError: Failed to fetch")
         | Answered true json =>
             data ← lift json;
             modify (set_token (VStr (stored_string tokenText))) ;;
             user ← lift (prop data "user");
             restored ← (if truthy user then mret user else lift (JSON_parse userText));
             modify (set_currentUser restored) ;;
             mret true
         | Answered false _ => _clearSession ;; mret false
         end
     | _, _ => mret false
     end)
    (λ _, console_error ;; _clearSession ;; mret false).

End Restore.
End AuthManager.

(** ** LocalCacheManager *)

Module LocalCacheManager.
Section WithRuntime.
Context `{Runtime}.

Definition CACHE_KEY_PREFIX : string := "sales_data_cache_".
Definition PENDING_OPS_KEY : string := "sales_data_pending_ops".

(** [d => ({ ...d, importedAt: d.importedAt instanceof Date
                   ? d.importedAt.toISOString() : d.importedAt })] *)
Definition with_iso_date (d : JV) : Exc JV :=
  importedAt ← prop d "importedAt";
  v ← match importedAt with
      | VDate (Some t) => Ok (VStr (toISOString t))
      | VDate None => Throw "RangeError: Invalid time value"
      | _ => Ok importedAt
      end;
  Ok (VObj (set_field (spread d) "importedAt" v)).

Definition cacheData (userId data : JV) : JS unit :=
  if negb (truthy userId) then mret tt else
  try_catch
    (let key := CACHE_KEY_PREFIX +:+ js_to_string userId in
     mapped ← lift (js_map with_iso_date data);
     let serialized := JSON_stringify mapped in
     setItem key serialized)
    (λ _, console_error).

(** [d => ({ ...d, importedAt: new Date(d.importedAt) })] *)
Definition with_date (d : JV) : Exc JV :=
  importedAt ← prop d "importedAt";
  Ok (VObj (set_field (spread d) "importedAt" (new_Date importedAt))).

Definition getCachedData (userId : JV) : JS JV :=
  if negb (truthy userId) then mret (VArr []) else
  try_catch
    (let key := CACHE_KEY_PREFIX +:+ js_to_string userId in
     serialized ← getItem key;
     match serialized with
     | None => mret (VArr [])
     | Some t =>
         if text_empty t then mret (VArr []) else
         data ← lift (JSON_parse t);
         lift (js_map with_date data)
     end)
    (λ _, console_error ;; mret (VArr [])).

Definition getPendingOperations : JS JV :=
  try_catch
    (serialized ← getItem PENDING_OPS_KEY;
     match serialized with
     | None => mret (VArr [])
     | Some t => if text_empty t then mret (VArr []) else lift (JSON_parse t)
     end)
    (λ _, console_error ;; mret (VArr [])).

Definition addPendingOperation (operation : JV) : JS unit :=
  try_catch
    (ops ← getPendingOperations;
     ops' ← lift (js_push ops operation);
     setItem PENDING_OPS_KEY (JSON_stringify ops'))
    (λ _, console_error).

Definition clearPendingOperations : JS unit :=
  try_catch (removeItem PENDING_OPS_KEY) (λ _, console_error).

Definition clearUserCache (userId : JV) : JS unit :=
  if negb (truthy userId) then mret tt else
  try_catch
    (let key := CACHE_KEY_PREFIX +:+ js_to_string userId in
     removeItem key)
    (λ _, console_error).

Fixpoint forEach {A : Type} (f : A → JS unit) (l : list A) : JS unit :=
  match l with
  | [] => mret tt
  | x :: r => f x ;; forEach f r
  end.

Definition clearAllCache : JS unit :=
  try_catch
    (keys ← storage_keys;
     let keysToRemove :=
       filter (λ key, negb (String.eqb key "") && String.prefix CACHE_KEY_PREFIX key = true)
              keys in
     forEach removeItem keysToRemove ;;
     clearPendingOperations)
    (λ _, console_error).

End WithRuntime.
End LocalCacheManager.

(** ** AuthUI: the sync indicator and the logout handler *)

Module AuthUI.
Section WithRuntime.
Context `{Runtime}.

(** [updateSyncStatus(status)] repaints the indicator; it reads
    [AuthManager.isLoggedIn()] and writes nothing but the page. *)
Definition updateSyncStatus (status : string) : JS unit :=
  a ← get_app;
  match indicator a with
  | None => mret tt
  | Some el =>
      loggedIn ← AuthManager.isLoggedIn;
      if negb loggedIn then
        modify (set_indicator (Some (mkIndicator "none" (className el) (icon el) (text el))))
      else
        let cls := "sync-status " +:+ status in
        modify (set_indicator (Some
          (if String.eqb status "syncing" then mkIndicator "flex" cls "🔄" "同步中..."
           else if String.eqb status "synced" || String.eqb status "idle" then
             mkIndicator "flex" "sync-status synced" "✓" "已同步"
           else if String.eqb status "error" then mkIndicator "flex" cls "⚠" "同步失败"
           else if String.eqb status "offline" then mkIndicator "flex" cls "📴" "离线"
           else mkIndicator "none" cls (icon el) (text el))))
  end.

(** [handleLogout()], from its first statement to [updateSyncStatus('idle')]:
    what the handler does to the session, the cache, the log and the
    indicator.  The call of [StateManager.init()] that follows reads the
    saved months and, through [StorageManager.isAvailable], writes and
    removes the probe key of the store; [handleLogout_page] below is this
    part followed by that call.  [updateHeaderUserStatus],
    [UI.renderMonthsData] and [UI.showMessage] repaint the page only. *)
Definition handleLogout : JS unit :=
  user ← AuthManager.getCurrentUser;
  let userId := opt_prop user "id" in
  AuthManager.logout ;;
  (if truthy userId then LocalCacheManager.clearUserCache userId else mret tt) ;;
  LocalCacheManager.clearAllCache ;;
  updateSyncStatus "idle".

End WithRuntime.
End AuthUI.

(** ** CloudSyncManager *)

Module CloudSyncManager.
Section WithRuntime.
Context `{Runtime}.

Definition getSyncStatus : JS SyncStatus := a ← get_app; mret (syncStatus a).

(** [_setSyncStatus(status)]: the assignment, then the 'syncStatusChange'
    event, which the listener of [AuthUI.initEventListeners] answers. *)
Definition _setSyncStatus (status : SyncStatus) : JS unit :=
  modify (set_syncStatus status) ;;
  a ← get_app;
  if listening a then AuthUI.updateSyncStatus (status_name status) else mret tt.

Definition isOnline (net : Net) : bool := onLine net.

(** [cachedData && cachedData.length > 0] *)
Definition has_items (v : JV) : bool :=
  truthy v &&
  match prop v "length" with
  | Ok (VNum n) => 0 <? n
  | _ => false
  end.

Definition uploadData (net : Net) (monthData : JV) : JS JV :=
  loggedIn ← AuthManager.isLoggedIn;
  if negb loggedIn then mret (failure (VStr "请先登录")) else
  if negb (isOnline net) then
    _setSyncStatus offline ;;
    LocalCacheManager.addPendingOperation
      (VObj [("type", VStr "upload"); ("data", monthData); ("timestamp", VNum (now net))]) ;;
    mret (failure (VStr "网络离线，数据已保存到本地"))
  else
  _setSyncStatus syncing ;;
  try_catch
    (data ← fetch_json net;
     success ← lift (prop data "success");
     if truthy success then
       _setSyncStatus idle ;;
       modify (set_lastSyncTime (Some (now net))) ;;
       id ← lift (prop data "id");
       mret (VObj [("success", VBool true); ("id", id)])
     else
       _setSyncStatus error ;;
       e ← lift (prop data "error");
       mret (failure (js_or e (VStr "上传失败"))))
    (λ _,
       console_error ;;
       _setSyncStatus error ;;
       LocalCacheManager.addPendingOperation
         (VObj [("type", VStr "upload"); ("data", monthData); ("timestamp", VNum (now net))]) ;;
       mret (failure (VStr "网络错误，数据已保存到本地"))).

Definition deleteData (net : Net) (monthId : JV) : JS JV :=
  loggedIn ← AuthManager.isLoggedIn;
  if negb loggedIn then mret (failure (VStr "请先登录")) else
  if negb (isOnline net) then
    _setSyncStatus offline ;;
    LocalCacheManager.addPendingOperation
      (VObj [("type", VStr "delete"); ("monthId", monthId); ("timestamp", VNum (now net))]) ;;
    mret (failure (VStr "网络离线，操作已保存到本地"))
  else
  _setSyncStatus syncing ;;
  try_catch
    (data ← fetch_json net;
     success ← lift (prop data "success");
     if truthy success then
       _setSyncStatus idle ;;
       modify (set_lastSyncTime (Some (now net))) ;;
       mret (VObj [("success", VBool true)])
     else
       _setSyncStatus error ;;
       e ← lift (prop data "error");
       mret (failure (js_or e (VStr "删除失败"))))
    (λ _,
       console_error ;;
       _setSyncStatus error ;;
       LocalCacheManager.addPendingOperation
         (VObj [("type", VStr "delete"); ("monthId", monthId); ("timestamp", VNum (now net))]) ;;
       mret (failure (VStr "网络错误，操作已保存到本地"))).

(** The cache fallback shared by the offline branch and the [catch] block of
    [downloadAllData]; [msg] is the error of the empty case. *)
Definition cached_or (msg : string) : JS JV :=
  user ← AuthManager.getCurrentUser;
  cachedData ← LocalCacheManager.getCachedData (opt_prop user "id");
  if has_items cachedData then
    mret (VObj [("success", VBool true); ("data", cachedData)])
  else mret (failure (VStr msg)).

Definition downloadAllData (net : Net) : JS JV :=
  loggedIn ← AuthManager.isLoggedIn;
  if negb loggedIn then mret (failure (VStr "请先登录")) else
  if negb (isOnline net) then
    _setSyncStatus offline ;;
    cached_or "网络离线，无本地缓存数据"
  else
  _setSyncStatus syncing ;;
  try_catch
    (result ← fetch_json net;
     success ← lift (prop result "success");
     if truthy success then
       _setSyncStatus idle ;;
       modify (set_lastSyncTime (Some (now net))) ;;
       user ← AuthManager.getCurrentUser;
       let userId := opt_prop user "id" in
       data ← lift (prop result "data");
       (if truthy userId then LocalCacheManager.cacheData userId (js_or data (VArr []))
        else mret tt) ;;
       mret (VObj [("success", VBool true); ("data", js_or data (VArr []))])
     else
       _setSyncStatus error ;;
       e ← lift (prop result "error");
       mret (failure (js_or e (VStr "下载失败"))))
    (λ _,
       console_error ;;
       _setSyncStatus error ;;
       cached_or "网络错误").

(** One turn of the [for (const op of pendingOps)] loop; [c] is
    [(synced, failed)]. *)
Definition replay_op (net : Net) (op : JV) (c : Z * Z) : JS (Z * Z) :=
  try_catch
    (type ← lift (prop op "type");
     if is_str type "upload" then
       data ← lift (prop op "data");
       result ← uploadData net data;
       success ← lift (prop result "success");
       mret (if truthy success then (c.1 + 1, c.2) else (c.1, c.2 + 1))
     else if is_str type "delete" then
       monthId ← lift (prop op "monthId");
       result ← deleteData net monthId;
       success ← lift (prop result "success");
       mret (if truthy success then (c.1 + 1, c.2) else (c.1, c.2 + 1))
     else mret c)
    (λ _, mret (c.1, c.2 + 1)).

(** The loop; [nets i] is the network as the [i]-th replayed call finds it. *)
Fixpoint replay (nets : nat → Net) (i : nat) (ops : list JV) (c : Z * Z)
  : JS (Z * Z) :=
  match ops with
  | [] => mret c
  | op :: rest => c' ← replay_op (nets i) op c; replay nets (S i) rest c'
  end.

Definition sync_result (success : bool) (synced failed : Z) : JV :=
  VObj [("success", VBool success); ("synced", VNum synced); ("failed", VNum failed)].

Definition syncPendingOperations (net : Net) (nets : nat → Net) : JS JV :=
  if negb (isOnline net) then mret (sync_result false 0 0) else
  pendingOps ← LocalCacheManager.getPendingOperations;
  len ← lift (prop pendingOps "length");
  if match len with VNum n => n =? 0 | _ => false end then
    mret (sync_result true 0 0)
  else
  _setSyncStatus syncing ;;
  ops ← lift (iterate pendingOps);
  c ← replay nets 0 ops (0, 0);
  let synced := c.1 in
  let failed := c.2 in
  (if 0 <? synced then LocalCacheManager.clearPendingOperations else mret tt) ;;
  _setSyncStatus (if 0 <? failed then error else idle) ;;
  mret (sync_result (failed =? 0) synced failed).

(** [_getAuthHeaders()] *)
Definition _getAuthHeaders : JS JV :=
  token ← AuthManager.getToken;
  mret (VObj [("Content-Type", VStr "application/json");
              ("Authorization",
               VStr (if truthy token then "Bearer " +:+ js_to_string token else ""))]).

(** The two listeners of [initNetworkListener].  The 'online' listener does
    not await [syncPendingOperations]: a rejection stays unhandled. *)
Definition on_online (net : Net) (nets : nat → Net) : JS unit :=
  _setSyncStatus idle ;;
  try_catch (syncPendingOperations net nets ;; mret tt) (λ _, mret tt).

Definition on_offline : JS unit := _setSyncStatus offline.

End WithRuntime.
End CloudSyncManager.

(** ** StorageManager: the months kept for a visitor who is not logged in *)

Module StorageManager.
Section WithRuntime.
Context `{Runtime}.

Definition isAvailable : JS bool :=
  try_catch
    (let test := "__storage_test__" in
     setItem test (Raw test) ;;
     removeItem test ;;
     mret true)
    (λ _, mret false).

(** [d => ({ ...d, importedAt: d.importedAt.toISOString() })] *)
Definition with_iso_string (d : JV) : Exc JV :=
  importedAt ← prop d "importedAt";
  v ← match importedAt with
      | VDate (Some t) => Ok (VStr (toISOString t))
      | VDate None => Throw "RangeError: Invalid time value"
      | VUndef | VNull => Throw "TypeError: Cannot read properties"
      | _ => Throw "TypeError: d.importedAt.toISOString is not a function"
      end;
  Ok (VObj (set_field (spread d) "importedAt" v)).

Definition saveData (data : JV) : JS bool :=
  available ← isAvailable;
  if negb available then mret false else
  try_catch
    (mapped ← lift (js_map with_iso_string data);
     let serialized := JSON_stringify mapped in
     setItem STORAGE_KEY serialized ;;
     mret true)
    (λ _, console_error ;; mret false).

Definition loadData : JS JV :=
  available ← isAvailable;
  if negb available then mret (VArr []) else
  try_catch
    (serialized ← getItem STORAGE_KEY;
     match serialized with
     | None => mret (VArr [])
     | Some t =>
         if text_empty t then mret (VArr []) else
         data ← lift (JSON_parse t);
         lift (js_map LocalCacheManager.with_date data)
     end)
    (λ _, console_error ;; mret (VArr [])).

Definition clearData : JS unit :=
  available ← isAvailable;
  if negb available then mret tt else removeItem STORAGE_KEY.

End WithRuntime.
End StorageManager.

(** ** StateManager: the months on the page *)

Record Months : Type := mkMonths {
  monthsData : JV;       (* StateManager.monthsData *)
  colorIndex : Z         (* StateManager.colorIndex *)
}.

(** A computation over [StateManager] and the rest of the browser state; like
    [JS], it keeps the state it reached when it throws. *)
Definition Page (A : Type) : Type := Months → App → Exc A * Months * App.

#[global] Instance Page_ret : MRet Page := λ A x s a, (Ok x, s, a).
#[global] Instance Page_bind : MBind Page :=
  λ A B f m s a,
    match m s a with
    | (Ok x, s', a') => f x s' a'
    | (Throw e, s', a') => (Throw e, s', a')
    end.

Definition browser {A : Type} (m : JS A) : Page A :=
  λ s a, let r := m a in (r.1, s, r.2).
Definition get_months : Page Months := λ s a, (Ok s, s, a).
Definition put_months (s' : Months) : Page unit := λ _ a, (Ok tt, s', a).

Definition page_try {A : Type} (body : Page A) (handler : string → Page A) : Page A :=
  λ s a,
    match body s a with
    | (Ok x, s', a') => (Ok x, s', a')
    | (Throw e, s', a') => handler e s' a'
    end.

Definition COLOR_PALETTE : list string :=
  ["#E3F2FD"; "#FFF3E0"; "#E8F5E9"; "#FCE4EC";
   "#F3E5F5"; "#E0F7FA"; "#FFF8E1"; "#EFEBE9"].

Module StateManager.
Section WithRuntime.
Context `{Runtime}.

Definition init : Page unit :=
  savedData ← browser StorageManager.loadData;
  len ← browser (lift (prop savedData "length"));
  match len with
  | VNum n => if 0 <? n then put_months (mkMonths savedData n) else mret tt
  | _ => mret tt
  end.

(** The record [initFromCloud] makes of a listed item; [now] is the clock,
    read by [Date.now()] and [new Date()]. *)
Definition from_cloud (now : Z) (item : JV) : Exc JV :=
  id ← prop item "id";
  monthId ← prop item "monthId";
  monthName ← prop item "monthName";
  month ← prop item "month";
  color ← prop item "color";
  importedAt ← prop item "importedAt";
  config ← prop item "config";
  groupedData ← prop item "groupedData";
  rawData ← prop item "rawData";
  Ok (VObj
    [("id", js_or (js_or (match id with
                          | VUndef | VNull => VUndef
                          | _ => VStr (js_to_string id)
                          end) monthId)
                  (VStr (pretty now)));
     ("month", js_or monthName month);
     ("color", js_or color (VStr "#E3F2FD"));
     ("importedAt", if truthy importedAt then new_Date importedAt else VDate (Some now));
     ("config", js_or config (VObj []));
     ("groupedData", js_or groupedData (VObj []));
     ("rawData", js_or rawData (VArr []))]).

Definition initFromCloud (net : Net) : Page bool :=
  loggedIn ← browser AuthManager.isLoggedIn;
  if negb loggedIn then mret false else
  page_try
    (result ← browser (CloudSyncManager.downloadAllData net);
     success ← browser (lift (prop result "success"));
     data ← (if truthy success then browser (lift (prop result "data")) else mret success);
     if truthy data then
       mapped ← browser (lift (match data with
                               | VArr l => exc_mapM (from_cloud (now net)) l
                               | _ => Throw "TypeError: map is not a function"
                               end));
       put_months (mkMonths (VArr mapped) (Z.of_nat (length mapped))) ;;
       mret true
     else mret false)
    (λ _, browser console_error ;; mret false).

Definition addMonthData (net : Net) (monthData : JV) : Page unit :=
  s ← get_months;
  months ← browser (lift (js_push (monthsData s) monthData));
  put_months (mkMonths months (colorIndex s)) ;;
  browser (StorageManager.saveData months) ;;
  loggedIn ← browser AuthManager.isLoggedIn;
  if negb loggedIn then mret tt else
  id ← browser (lift (prop monthData "id"));
  month ← browser (lift (prop monthData "month"));
  color ← browser (lift (prop monthData "color"));
  config ← browser (lift (prop monthData "config"));
  groupedData ← browser (lift (prop monthData "groupedData"));
  rawData ← browser (lift (prop monthData "rawData"));
  let cloudData :=
    VObj [("monthId", id); ("monthName", month); ("color", color); ("config", config);
          ("groupedData", groupedData); ("rawData", rawData)] in
  result ← browser (CloudSyncManager.uploadData net cloudData);
  browser (lift (prop result "success")) ;;
  mret tt.

(** [getNextColor()]; [this.colorIndex++] adds one in double arithmetic. *)
Definition getNextColor : Page JV :=
  s ← get_months;
  let i := Z.rem (colorIndex s) (Z.of_nat (length COLOR_PALETTE)) in
  let color :=
    if i <? 0 then VUndef
    else match COLOR_PALETTE !! Z.to_nat i with Some c => VStr c | None => VUndef end in
  put_months (mkMonths (monthsData s) (to_double (colorIndex s + 1))) ;;
  mret color.

End WithRuntime.
End StateManager.

(** What [jwt.verify(token, JWT_SECRET)] comes to. *)
Inductive JwtVerdict : Type :=
| Verified (payload : JV)
| TokenExpired               (* it throws a TokenExpiredError *)
| JwtInvalid.                (* it throws any other error *)

(** Primitives of the server's libraries besides those of [Runtime]. *)
Class Backend := {
  jwt_verify : string → Z → JwtVerdict;   (* jwt.verify at a given time *)
  datetime : Z → string                   (* the text CURRENT_TIMESTAMP stores at that time *)
}.

(** The character [' '] *)
Definition space : Ascii.ascii := Ascii.ascii_of_nat 32.

(** [s.split(sep)] for a separator of one character *)
Fixpoint split_on (sep : Ascii.ascii) (s : string) : list string :=
  match s with
  | EmptyString => [EmptyString]
  | String c r =>
      if Ascii.eqb c sep then EmptyString :: split_on sep r
      else match split_on sep r with
           | x :: xs => String c x :: xs
           | [] => [String c EmptyString]
           end
  end.

(** ** The server: routes/auth.js and routes/data.js over the database *)

Module Server.

Record UserRow : Type := mkUser {
  u_id : Z;
  u_username : string;
  u_password_hash : string
}.

(** A row of [sales_data]; [s_color] is the value a query reads from the
    column. *)
Record SalesRow : Type := mkSales {
  s_id : Z;
  s_user_id : Z;
  s_month_id : string;
  s_month_name : string;
  s_color : JV;
  s_config : Text;
  s_grouped_data : Text;
  s_raw_data : Text;
  s_created_at : Z;
  s_updated_at : Z
}.

Record DB : Type := mkDB {
  users : list UserRow;
  sales_data : list SalesRow;
  sales_seq : Z            (* sqlite_sequence of sales_data (AUTOINCREMENT) *)
}.

Record HttpResponse : Type := mkResponse {
  status : Z;
  body : JV
}.

Section WithRuntime.
Context `{Runtime}.

Definition server_error : HttpResponse :=
  mkResponse 500 (failure (VStr "服务器错误")).

(** [queryOne('SELECT id, username, password_hash FROM users WHERE username = ?')] *)
Definition find_user (name : string) (db : DB) : option UserRow :=
  head (filter (λ u, u_username u = name) (users db)).

(** [verifyPassword(password, hash)]: [bcrypt.compare] rejects a password
    that is not a string. *)
Definition verifyPassword (password : JV) (hash : string) : Exc bool :=
  match password with
  | VStr p => Ok (bcrypt_compare p hash)
  | _ => Throw "Error: Illegal arguments"
  end.

Definition invalid_credentials : HttpResponse :=
  mkResponse 401 (failure (VStr "用户名或密码错误")).

(** [router.post('/login')] *)
Definition post_login (req_body : JV) (now : Z) (db : DB) : HttpResponse :=
  match
    (username ← prop req_body "username";
     password ← prop req_body "password";
     if negb (truthy username) || negb (truthy password) then Ok invalid_credentials else
     let trimmedUsername := match username with VStr s => trim s | _ => "" end in
     match find_user trimmedUsername db with
     | None => Ok invalid_credentials
     | Some user =>
         isPasswordValid ← verifyPassword password (u_password_hash user);
         if negb isPasswordValid then Ok invalid_credentials else
         let token := jwt_sign (u_id user) (u_username user) now in
         Ok (mkResponse 200
               (VObj [("success", VBool true); ("token", VStr token);
                      ("user", VObj [("id", VNum (u_id user));
                                     ("username", VStr (u_username user))])]))
     end)
  with
  | Ok r => r
  | Throw _ => server_error
  end.

(** [queryOne('SELECT id FROM sales_data WHERE user_id = ? AND month_id = ?')] *)
Definition find_month (userId : Z) (monthId : string) (db : DB) : option SalesRow :=
  head (filter (λ r, s_user_id r = userId ∧ s_month_id r = monthId) (sales_data db)).

(** [queryOne('SELECT id FROM sales_data WHERE id = ? AND user_id = ?')] *)
Definition find_owned (dataId userId : Z) (db : DB) : option SalesRow :=
  head (filter (λ r, s_id r = dataId ∧ s_user_id r = userId) (sales_data db)).

(** [run(sql, params).lastInsertRowid] of db.js.  [run] asks
    [last_insert_rowid()] after [saveDatabase()], and the [db.export()] in
    there closes the connection of sql.js and opens the file again: the
    connection that is asked has inserted nothing and answers 0, whatever
    rowid the row took. *)
Definition lastInsertRowid : Z := 0.

(** What [stmt.bind] of sql.js and the TEXT affinity of the column make of a
    parameter, as the value a query reads back.  A string is stored as it
    is.  A number that fits 32 bits is bound as an integer, a boolean as 0
    or 1, and the column stores the decimal text.  [null] is bound as NULL,
    which NOT NULL refuses; [undefined] and an object without a [length] are
    refused by [bindValue].  The rest, a number bound as a double and a
    value with a [length] bound as a blob, is [column_text]. *)
Definition bound_text (v : JV) : Exc JV :=
  match v with
  | VStr s => Ok (VStr s)
  | VNum n =>
      if (- 2 ^ 31 <=? n) && (n <? 2 ^ 31) then Ok (VStr (pretty n)) else column_text v
  | VBool b => Ok (VStr (if b then "1" else "0"))
  | VNull => Throw "Error: NOT NULL constraint failed"
  | VUndef | VDate _ => Throw "Wrong API use : tried to bind a value of an unknown type"
  | VArr _ => column_text v
  | VObj fs =>
      match get_field fs "length" with
      | VUndef | VNull => Throw "Wrong API use : tried to bind a value of an unknown type"
      | _ => column_text v
      end
  end.

(** The rowid an AUTOINCREMENT insert takes. *)
Definition next_id (db : DB) : Z :=
  Z.max (sales_seq db) (foldr Z.max 0 (s_id <$> sales_data db)) + 1.

(** [UPDATE sales_data SET month_name = ?, color = ?, config = ?,
    grouped_data = ?, raw_data = ?, updated_at = CURRENT_TIMESTAMP WHERE id = ?];
    [color] is the colour as stored. *)
Definition update_row (id : Z) (name : string) (color : JV) (config grouped raw : Text)
    (now : Z) (db : DB) : DB :=
  mkDB (users db)
       ((λ r, if bool_decide (s_id r = id)
              then mkSales (s_id r) (s_user_id r) (s_month_id r) name color
                           config grouped raw (s_created_at r) now
              else r) <$> sales_data db)
       (sales_seq db).

(** [run('INSERT INTO sales_data (user_id, month_id, month_name, color,
    config, grouped_data, raw_data) VALUES (...)')]: what [run] reports as
    [lastInsertRowid], and the table with the new row; both timestamps
    default to CURRENT_TIMESTAMP.  [color] is the colour as stored. *)
Definition insert_row (userId : Z) (monthId name : string) (color : JV)
    (config grouped raw : Text) (now : Z) (db : DB) : Z * DB :=
  let id := next_id db in
  (lastInsertRowid,
   mkDB (users db)
        (sales_data db ++
           [mkSales id userId monthId name color config grouped raw now now])
        id).

(** [DELETE FROM sales_data WHERE id = ?] *)
Definition delete_row (id : Z) (db : DB) : DB :=
  mkDB (users db) (filter (λ r, s_id r ≠ id) (sales_data db)) (sales_seq db).

(** [router.post('/')] of routes/data.js, behind the authentication
    middleware: [userId] is [req.user.id], [now] is CURRENT_TIMESTAMP. *)
Definition post_data (userId : Z) (req_body : JV) (now : Z) (db : DB)
  : HttpResponse * DB :=
  match
    (monthId ← prop req_body "monthId";
     monthName ← prop req_body "monthName";
     color ← prop req_body "color";
     config ← prop req_body "config";
     groupedData ← prop req_body "groupedData";
     rawData ← prop req_body "rawData";
     if negb (truthy monthId) || negb (typeof_string monthId) then
       Ok (mkResponse 400 (failure (VStr "月份ID不能为空")), db)
     else if negb (truthy monthName) || negb (typeof_string monthName) then
       Ok (mkResponse 400 (failure (VStr "月份名称不能为空")), db)
     else
     let existingData := find_month userId (as_string monthId) db in
     let configJson := JSON_stringify (js_or config (VObj [])) in
     let groupedDataJson := JSON_stringify (js_or groupedData (VArr [])) in
     let rawDataJson := JSON_stringify (js_or rawData (VArr [])) in
     let colorValue := js_or color (VStr "#4A90A4") in
     match existingData with
     | Some row =>
         stored ← bound_text colorValue;
         Ok (mkResponse 200 (VObj [("success", VBool true); ("id", VNum (s_id row))]),
             update_row (s_id row) (as_string monthName) stored configJson
                        groupedDataJson rawDataJson now db)
     | None =>
         stored ← bound_text colorValue;
         let '(id, db') := insert_row userId (as_string monthId) (as_string monthName)
                                      stored configJson groupedDataJson
                                      rawDataJson now db in
         Ok (mkResponse 201 (VObj [("success", VBool true); ("id", VNum id)]), db')
     end)
  with
  | Ok r => r
  | Throw _ => (server_error, db)
  end.

(** [router.delete('/:id')]; [dataId] is [parseInt(req.params.id, 10)],
    [None] when it is NaN. *)
Definition delete_data (userId : Z) (dataId : option Z) (db : DB)
  : HttpResponse * DB :=
  match dataId with
  | None => (mkResponse 400 (failure (VStr "无效的数据ID")), db)
  | Some id =>
      match find_owned id userId db with
      | None => (mkResponse 404 (failure (VStr "数据不存在或无权限删除")), db)
      | Some _ => (mkResponse 200 (VObj [("success", VBool true)]), delete_row id db)
      end
  end.

(** [validateUsername] and [validatePassword] of routes/auth.js *)
Definition validateUsername (username : JV) : JV :=
  if negb (truthy username) || negb (typeof_string username) then
    VObj [("valid", VBool false); ("error", VStr "请输入有效用户名")]
  else
    let trimmed := trim (as_string username) in
    if Z.of_nat (String.length trimmed) =? 0 then
      VObj [("valid", VBool false); ("error", VStr "请输入有效用户名")]
    else VObj [("valid", VBool true)].

Definition validatePassword (password : JV) : JV :=
  if negb (truthy password) || negb (typeof_string password) then
    VObj [("valid", VBool false); ("error", VStr "密码长度至少6位")]
  else
    if Z.of_nat (js_length (as_string password)) <? 6 then
      VObj [("valid", VBool false); ("error", VStr "密码长度至少6位")]
    else VObj [("valid", VBool true)].

(** The rowid an AUTOINCREMENT insert into [users] takes; [seq] is the entry
    of [users] in sqlite_sequence. *)
Definition next_user_id (seq : Z) (db : DB) : Z :=
  Z.max seq (foldr Z.max 0 (u_id <$> users db)) + 1.

(** [router.post('/register')].  [passwordHash] is what [hashPassword]
    returns for the request, [now] the clock of [jwt.sign]; the state is the
    database with the sequence of [users].  The id of the token and of the
    answer is [result.lastInsertRowid]; the row takes its rowid from the
    table. *)
Definition post_register (req_body : JV) (passwordHash : string) (now : Z)
    (st : Z * DB) : HttpResponse * (Z * DB) :=
  match
    (username ← prop req_body "username";
     password ← prop req_body "password";
     let usernameValidation := validateUsername username in
     if negb (truthy (opt_prop usernameValidation "valid")) then
       Ok (mkResponse 400 (failure (opt_prop usernameValidation "error")), st)
     else
     let passwordValidation := validatePassword password in
     if negb (truthy (opt_prop passwordValidation "valid")) then
       Ok (mkResponse 400 (failure (opt_prop passwordValidation "error")), st)
     else
     let trimmedUsername := trim (as_string username) in
     match find_user trimmedUsername st.2 with
     | Some _ => Ok (mkResponse 409 (failure (VStr "用户名已存在")), st)
     | None =>
         let rowid := next_user_id st.1 st.2 in
         let userId := lastInsertRowid in
         let token := jwt_sign userId trimmedUsername now in
         Ok (mkResponse 201
               (VObj [("success", VBool true); ("token", VStr token);
                      ("user", VObj [("id", VNum userId);
                                     ("username", VStr trimmedUsername)])]),
             (rowid,
              mkDB (users st.2 ++ [mkUser rowid trimmedUsername passwordHash])
                   (sales_data st.2) (sales_seq st.2)))
     end)
  with
  | Ok r => r
  | Throw _ => (server_error, st)
  end.

End WithRuntime.

Section WithBackend.
Context `{Runtime} `{Backend}.

(** [verifyToken(token)] of utils/jwt.js *)
Definition verifyToken (token : string) (now : Z) : JV :=
  match jwt_verify token now with
  | Verified payload => VObj [("valid", VBool true); ("payload", payload)]
  | TokenExpired => VObj [("valid", VBool false); ("error", VStr "请重新登录")]
  | JwtInvalid => VObj [("valid", VBool false); ("error", VStr "Token 无效")]
  end.

(** What a middleware does with a request: it answers, or it calls [next()]
    with [req.user] set. *)
Inductive Passage : Type :=
| Answer (r : HttpResponse)
| Next (user : JV).

(** [authMiddleware]; [authorization] is [req.headers.authorization]. *)
Definition authMiddleware (authorization : option string) (now : Z) : Passage :=
  match authorization with
  | None => Answer (mkResponse 401 (failure (VStr "请重新登录")))
  | Some authHeader =>
      if String.eqb authHeader "" then
        Answer (mkResponse 401 (failure (VStr "请重新登录")))
      else
      let parts := split_on space authHeader in
      if negb (Z.of_nat (length parts) =? 2)
         || negb (String.eqb (nth 0 parts "") "Bearer") then
        Answer (mkResponse 401 (failure (VStr "Token 无效")))
      else
      let token := nth 1 parts "" in
      let result := verifyToken token now in
      if negb (truthy (opt_prop result "valid")) then
        Answer (mkResponse 401 (failure (opt_prop result "error")))
      else Next (opt_prop result "payload")
  end.

(** [router.get('/me')], behind the middleware: [user] is [req.user].  What
    the handler throws is answered by the error middleware of app.js. *)
Definition get_me (user : JV) : HttpResponse :=
  match
    (id ← prop user "id";
     username ← prop user "username";
     Ok (mkResponse 200
           (VObj [("success", VBool true);
                  ("user", VObj [("id", id); ("username", username)])])))
  with
  | Ok r => r
  | Throw _ => server_error
  end.

(** [ORDER BY created_at DESC], on the value that CURRENT_TIMESTAMP stored;
    rows with the same value are left in rowid order. *)
Fixpoint insert_desc (r : SalesRow) (l : list SalesRow) : list SalesRow :=
  match l with
  | [] => [r]
  | x :: l' =>
      if s_created_at x <=? s_created_at r then r :: l else x :: insert_desc r l'
  end.

Definition order_by_created_desc (l : list SalesRow) : list SalesRow :=
  foldr insert_desc [] l.

(** [JSON.parse(column || dflt)] *)
Definition parse_or (column : Text) (dflt : JV) : Exc JV :=
  if text_empty column then Ok dflt else JSON_parse column.

(** The item [router.get('/')] makes of a row. *)
Definition listed (item : SalesRow) : Exc JV :=
  config ← parse_or (s_config item) (VObj []);
  groupedData ← parse_or (s_grouped_data item) (VArr []);
  rawData ← parse_or (s_raw_data item) (VArr []);
  Ok (VObj [("id", VNum (s_id item));
            ("monthId", VStr (s_month_id item));
            ("monthName", VStr (s_month_name item));
            ("color", s_color item);
            ("config", config);
            ("groupedData", groupedData);
            ("rawData", rawData);
            ("createdAt", VStr (datetime (s_created_at item)));
            ("updatedAt", VStr (datetime (s_updated_at item)))]).

(** [router.get('/')] of routes/data.js, behind the middleware. *)
Definition get_data (userId : Z) (db : DB) : HttpResponse :=
  let salesData :=
    order_by_created_desc (filter (λ r, s_user_id r = userId) (sales_data db)) in
  match exc_mapM listed salesData with
  | Ok parsedData => mkResponse 200 (VObj [("success", VBool true); ("data", VArr parsedData)])
  | Throw _ => server_error
  end.

End WithBackend.
End Server.

(** * Vocabulary of the properties *)

Section Vocabulary.
Context `{Runtime}.

(** The state after [_setSyncStatus]: the status, and the indicator as the
    listener repaints it. *)
Definition painted (st : SyncStatus) (a : App) : App :=
  (CloudSyncManager._setSyncStatus st a).2.

(** What [getCachedData] computes from the store. *)
Definition cached (userId : JV) (ls : gmap string Text) : JV :=
  if negb (truthy userId) then VArr [] else
  match ls !! (LocalCacheManager.CACHE_KEY_PREFIX +:+ js_to_string userId) with
  | None => VArr []
  | Some t =>
      if text_empty t then VArr [] else
      match data ← JSON_parse t; js_map LocalCacheManager.with_date data with
      | Ok r => r
      | Throw _ => VArr []
      end
  end.

(** What [getPendingOperations] computes from the store. *)
Definition pending (ls : gmap string Text) : JV :=
  match ls !! LocalCacheManager.PENDING_OPS_KEY with
  | None => VArr []
  | Some t =>
      if text_empty t then VArr [] else
      match JSON_parse t with Ok v => v | Throw _ => VArr [] end
  end.

(** The store after [addPendingOperation]. *)
Definition enqueued (operation : JV) (ls : gmap string Text) : gmap string Text :=
  match js_push (pending ls) operation with
  | Ok ops => <[LocalCacheManager.PENDING_OPS_KEY := JSON_stringify ops]> ls
  | Throw _ => ls
  end.

(** The operations [uploadData] and [deleteData] put on the log. *)
Definition upload_op (net : Net) (monthData : JV) : JV :=
  VObj [("type", VStr "upload"); ("data", monthData); ("timestamp", VNum (now net))].

Definition delete_op (net : Net) (monthId : JV) : JV :=
  VObj [("type", VStr "delete"); ("monthId", monthId); ("timestamp", VNum (now net))].

(** A call that gets no answer from the service: the network is unreachable,
    the request fails, or the answer has no body to read [success] from. *)
Definition unanswered (net : Net) : bool :=
  negb (onLine net) ||
  match reply net with
  | NetworkError => true
  | Response data => match prop data "success" with Ok _ => false | Throw _ => true end
  end.

(** What the replay of [op] appends to the log in an authenticated session:
    the upload or the delete again, with the time of the call, when the call
    is [unanswered], and nothing otherwise. *)
Definition requeued_op (net : Net) (op : JV) : list JV :=
  if unanswered net then
    if is_str (opt_prop op "type") "upload" then [upload_op net (opt_prop op "data")]
    else if is_str (opt_prop op "type") "delete" then
      [delete_op net (opt_prop op "monthId")]
    else []
  else [].

(** The same for a whole log; [nets i] is the network of the [i]-th call. *)
Fixpoint requeued (nets : nat → Net) (i : nat) (ops : list JV) : list JV :=
  match ops with
  | [] => []
  | op :: rest => (requeued_op (nets i) op ++ requeued nets (S i) rest)%list
  end.

Definition is_cache_key (key : string) : Prop :=
  (negb (String.eqb key "") && String.prefix LocalCacheManager.CACHE_KEY_PREFIX key) = true.

(** The store after [clearAllCache]. *)
Definition swept (ls : gmap string Text) : gmap string Text :=
  delete LocalCacheManager.PENDING_OPS_KEY
    (foldl (λ m key, delete key m) ls
       (filter is_cache_key (fst <$> map_to_list ls))).

(** The store after [handleLogout]. *)
Definition logged_out_store (user : JV) (ls : gmap string Text) : gmap string Text :=
  let ls1 := delete AUTH_USER_KEY (delete AUTH_TOKEN_KEY ls) in
  let userId := opt_prop user "id" in
  swept (if truthy userId
         then delete (LocalCacheManager.CACHE_KEY_PREFIX +:+ js_to_string userId) ls1
         else ls1).

(** The stored log is the JSON text of the array [cur]. *)
Definition log_is (a : App) (cur : list JV) : Prop :=
  localStorage a !! LocalCacheManager.PENDING_OPS_KEY = Some (JsonText (VArr cur)).

(** [cur'] is [cur] after at most [k] operations were appended to it. *)
Definition grows (cur cur' : list JV) (k : Z) : Prop :=
  (Z.of_nat (length cur) ≤ Z.of_nat (length cur') ≤ Z.of_nat (length cur) + k) ∧
  (forallb is_json cur = true →
   forallb is_json cur' = true ∧ ∃ extra, cur' = (cur ++ extra)%list).

(** What one replayed mutation returns and does to the log: it reports
    success only when the log is untouched, and otherwise may have appended
    one operation. *)
Definition mutation_outcome (cur : list JV) (r : Exc JV * App) : Prop :=
  ∃ b rest a' cur',
    r = (Ok (VObj (("success", VBool b) :: rest)), a') ∧ log_is a' cur' ∧
    (cur' = cur ∨ (b = false ∧ ∃ x, cur' = map jsonify (cur ++ [x])%list)).

(** A cached record as [getCachedData] returns it. *)
Definition revived (d : JV) : JV :=
  VObj (set_field (spread d) "importedAt" (new_Date (opt_prop d "importedAt"))).

(** The body [AuthManager.login] posts, as [express.json()] reads it. *)
Definition login_request (username password : string) : JV :=
  VObj [("username", VStr (trim username)); ("password", VStr password)].

(** The body [CloudSyncManager.uploadData] posts: [JSON.stringify({ monthData })]. *)
Definition upload_request (monthData : JV) : JV :=
  jsonify (VObj [("monthData", monthData)]).

End Vocabulary.

Definition is_array (v : JV) : bool :=
  match v with VArr _ => true | _ => false end.

(** A record as the service lists it: a JSON object. *)
Definition is_record (d : JV) : bool :=
  match d with VObj _ => is_json d | _ => false end.






(** What [router.post('/')] does with a body that passed its validation. *)
Definition upsert (userId : Z) (monthId name : string) (color : JV)
    (config grouped raw : Text) (now : Z) (db : Server.DB)
  : Server.HttpResponse * Server.DB :=
  match Server.find_month userId monthId db with
  | Some row =>
      (Server.mkResponse 200 (VObj [("success", VBool true); ("id", VNum (Server.s_id row))]),
       Server.update_row (Server.s_id row) name color config grouped raw now db)
  | None =>
      let '(id, db') := Server.insert_row userId monthId name color config grouped raw now db in
      (Server.mkResponse 201 (VObj [("success", VBool true); ("id", VNum id)]), db')
  end.

(** The answer of [router.delete('/:id')] for a row that is not there. *)
Definition not_found : JV := failure (VStr "数据不存在或无权限删除").

(** ** The claims that the code does not meet, as the specification words them *)

(** C2: the log after a run of [syncPendingOperations] is never longer than
    the log before it. *)
Definition claim_C2 `{Runtime} (a : App) (net : Net) (nets : nat → Net) : Prop :=
  ∀ ops ops',
    (LocalCacheManager.getPendingOperations a).1 = Ok (VArr ops) →
    (LocalCacheManager.getPendingOperations
       (CloudSyncManager.syncPendingOperations net nets a).2).1 = Ok (VArr ops') →
    (length ops' ≤ length ops)%nat.

(** C3: offline, [uploadData] appends the upload to the log, puts the record
    in the cache of the current identity and returns a success. *)
Definition claim_C3 `{Runtime} (a : App) (net : Net) (record : JV) : Prop :=
  AuthManager.isLoggedIn a = (Ok true, a) →
  onLine net = false →
  let userId := opt_prop (currentUser a) "id" in
  let run := CloudSyncManager.uploadData net record a in
  ∃ res ops cache,
    run.1 = Ok res ∧
    (LocalCacheManager.getPendingOperations a).1 = Ok (VArr ops) ∧
    (LocalCacheManager.getPendingOperations run.2).1
      = Ok (VArr (ops ++ [upload_op net record])) ∧
    (LocalCacheManager.getCachedData userId run.2).1 = Ok (VArr cache) ∧
    (∃ d, d ∈ cache ∧ opt_prop d "monthId" = opt_prop record "monthId") ∧
    truthy (opt_prop res "success") = true.

(** C4: when the service answers not-found, [deleteData] returns a success,
    does not set the status to [error] and appends nothing to the log. *)
Definition claim_C4 `{Runtime} (a : App) (net : Net) (monthId : JV) : Prop :=
  AuthManager.isLoggedIn a = (Ok true, a) →
  onLine net = true →
  reply net = Response not_found →
  let run := CloudSyncManager.deleteData net monthId a in
  ∃ res,
    run.1 = Ok res ∧
    truthy (opt_prop res "success") = true ∧
    syncStatus run.2 ≠ error ∧
    pending (localStorage run.2) = pending (localStorage a).

(** C7: after a download that the service answers with success and a list
    of records, the cache of the current identity reads as exactly those
    records. *)
Definition claim_C7 `{Runtime} (a : App) (net : Net) (records : list JV) : Prop :=
  AuthManager.isLoggedIn a = (Ok true, a) →
  onLine net = true →
  reply net = Response (VObj [("success", VBool true); ("data", VArr records)]) →
  forallb is_record records = true →
  let run := CloudSyncManager.downloadAllData net a in
  run.1 = Ok (VObj [("success", VBool true); ("data", VArr records)]) ∧
  (LocalCacheManager.getCachedData (opt_prop (currentUser a) "id") run.2).1
    = Ok (VArr (revived <$> records)).

(** C9: after logout the session is cleared, the cache of the previous
    identity reads empty, the log is empty and the sync status is [idle]. *)
Definition claim_C9 `{Runtime} (a : App) : Prop :=
  let P := opt_prop (currentUser a) "id" in
  ∃ a', AuthUI.handleLogout a = (Ok tt, a') ∧
        token a' = VNull ∧ currentUser a' = VNull ∧
        LocalCacheManager.getCachedData P a' = (Ok (VArr []), a') ∧
        LocalCacheManager.getPendingOperations a' = (Ok (VArr []), a') ∧
        syncStatus a' = idle.

(** ** A runtime and states to evaluate the definitions on

    [trim] strips ASCII white space; the examples contain no dates, and
    passwords are compared with their "hash" as plain strings. *)

Definition is_space (c : Ascii.ascii) : bool :=
  let n := Ascii.nat_of_ascii c in
  ((n =? 32) || ((9 <=? n) && (n <=? 13)))%nat.

Fixpoint trim_start (s : string) : string :=
  match s with
  | String c r => if is_space c then trim_start r else s
  | EmptyString => EmptyString
  end.

Definition ascii_trim (s : string) : string :=
  String.rev (trim_start (String.rev (trim_start s))).

Definition example_runtime : Runtime := {|
  trim := ascii_trim;
  toISOString := λ t, pretty t;
  Date_parse := λ _, None;
  Date_toString := λ _, "Invalid Date";
  bcrypt_compare := String.eqb;
  jwt_sign := λ id name t, name +:+ "." +:+ pretty id +:+ "." +:+ pretty t;
  column_text := λ _, Throw "Error: not stored"
|}.

Definition alice : JV := VObj [("id", VNum 7); ("username", VStr "alice")].

Definition record_m1 : JV := VObj [("monthId", VStr "m1"); ("monthName", VStr "Jan")].
Definition record_m2 : JV := VObj [("monthId", VStr "m2"); ("monthName", VStr "Feb")].

Definition queued_m1 : JV :=
  VObj [("type", VStr "upload"); ("data", record_m1); ("timestamp", VNum 1)].
Definition queued_m2 : JV :=
  VObj [("type", VStr "upload"); ("data", record_m2); ("timestamp", VNum 2)].

(** Alice's session, with a store. *)
Definition session (ls : gmap string Text) (st : SyncStatus) : App :=
  mkApp (VStr "token-of-alice") alice st None ls None false.

Definition log_of (ops : list JV) : gmap string Text :=
  {[ LocalCacheManager.PENDING_OPS_KEY := JsonText (VArr ops) ]}.

Definition reachable (r : FetchResult) : Net := mkNet true r 1000.
Definition unreachable : Net := mkNet false NetworkError 1000.

Definition accepted : FetchResult :=
  Response (VObj [("success", VBool true); ("id", VNum 1)]).
Definition refused : FetchResult :=
  Response (VObj [("success", VBool false); ("error", VStr "服务器错误")]).

(** Alice's store with one cached record. *)
Definition cached_jan : gmap string Text :=
  {[ "sales_data_cache_7" := JsonText (VArr [record_m1]) ]}.

(** The session that a registration leaves: the service has answered the
    new user under id 0. *)
Definition newcomer : App :=
  mkApp (VStr "token-of-alice") (VObj [("id", VNum 0); ("username", VStr "alice")])
        idle None ∅ None false.

Definition empty_db : Server.DB := Server.mkDB [] [] 0.
Definition alice_db : Server.DB :=
  Server.mkDB [Server.mkUser 7 "alice" "secret1"] [] 0.

(** ** Vocabulary of the further properties *)

(** The store after [_saveSession] with this token and user. *)
Definition saved_session `{Runtime} (tok user : JV) (ls : gmap string Text)
  : gmap string Text :=
  let ls1 := if truthy tok then <[AUTH_TOKEN_KEY := Raw (js_to_string tok)]> ls else ls in
  if truthy user then <[AUTH_USER_KEY := JSON_stringify user]> ls1 else ls1.

(** The browser state when the page is loaded again: the store is kept, the
    singletons start from their initial values. *)
Definition reloaded (a : App) : App :=
  mkApp VNull VNull idle None (localStorage a) (indicator a) (listening a).

(** Both entries of the session are stored and not empty: what
    [restoreSession] looks for before it asks the service. *)
Definition has_session (ls : gmap string Text) : bool :=
  match ls !! AUTH_TOKEN_KEY, ls !! AUTH_USER_KEY with
  | Some tokenText, Some userText => negb (text_empty tokenText || text_empty userText)
  | _, _ => false
  end.

(** The store after [_clearSession]. *)
Definition cleared_session (ls : gmap string Text) : gmap string Text :=
  delete AUTH_USER_KEY (delete AUTH_TOKEN_KEY ls).

(** The operations that a run of [syncPendingOperations] counts: those of
    type 'upload' or 'delete', and those whose type cannot be read. *)
Definition counted (op : JV) : bool :=
  match prop op "type" with
  | Ok type => is_str type "upload" || is_str type "delete"
  | Throw _ => true
  end.

(** A stored log that is JSON, but neither a list nor [null], and has no
    [length] of zero: an object or a number, for instance. *)
Definition not_a_list (v : JV) : bool :=
  match v with
  | VObj fs => match get_field fs "length" with VNum n => negb (n =? 0) | _ => true end
  | VNum _ | VBool _ => true
  | _ => false
  end.

(** The entries that a logout removes: the two of the session, the log, and
    every cache entry. *)
Definition removed_by_logout (k : string) : bool :=
  bool_decide (k = AUTH_TOKEN_KEY ∨ k = AUTH_USER_KEY ∨ k = LocalCacheManager.PENDING_OPS_KEY)
  || String.prefix LocalCacheManager.CACHE_KEY_PREFIX k.

(** What [downloadAllData] answers from the cache; [msg] is the error of the
    empty case. *)
Definition from_cache (records : JV) (msg : string) : JV :=
  if CloudSyncManager.has_items records
  then VObj [("success", VBool true); ("data", records)]
  else failure (VStr msg).

(** The character [c] occurs in [s]. *)
Fixpoint contains (c : Ascii.ascii) (s : string) : bool :=
  match s with
  | EmptyString => false
  | String c' r => Ascii.eqb c' c || contains c r
  end.

(** What [authMiddleware] does once the header has given it a token: the
    verdict of [verifyToken], as a passage. *)
Definition verified `{Backend} (token : string) (now : Z) : Server.Passage :=
  match jwt_verify token now with
  | Verified payload => Server.Next payload
  | TokenExpired => Server.Answer (Server.mkResponse 401 (failure (VStr "请重新登录")))
  | JwtInvalid => Server.Answer (Server.mkResponse 401 (failure (VStr "Token 无效")))
  end.

(** The body a client posts to /auth/register or /auth/login. *)
Definition credentials (username password : JV) : JV :=
  VObj [("username", username); ("password", password)].

Definition user_names (db : Server.DB) : list string :=
  Server.u_username <$> Server.users db.

Definition user_ids (db : Server.DB) : list Z :=
  Server.u_id <$> Server.users db.

Definition row_ids (db : Server.DB) : list Z :=
  Server.s_id <$> Server.sales_data db.

(** The rows of one identity, in rowid order. *)
Definition rows_of (userId : Z) (db : Server.DB) : list Server.SalesRow :=
  filter (λ r, Server.s_user_id r = userId) (Server.sales_data db).

(** The rows of everybody else. *)
Definition rows_of_others (userId : Z) (db : Server.DB) : list Server.SalesRow :=
  filter (λ r, Server.s_user_id r ≠ userId) (Server.sales_data db).

(** sqlite_sequence is not negative and at least every rowid of the table. *)
Definition seq_bounds (db : Server.DB) : Prop :=
  0 ≤ Server.sales_seq db ∧
  ∀ row, row ∈ Server.sales_data db → Server.s_id row ≤ Server.sales_seq db.

(** The JSON columns of a row can be read back: [router.get('/')] makes an
    item of it. *)
Definition readable `{Runtime} `{Backend} (row : Server.SalesRow) : Prop :=
  ∃ item, Server.listed row = Ok item.

(** The item of a readable row. *)
Definition item_of `{Runtime} `{Backend} (row : Server.SalesRow) : JV :=
  match Server.listed row with Ok item => item | Throw _ => VNull end.

(** Newest first. *)
Definition newer_or_same (x y : Server.SalesRow) : Prop :=
  Server.s_created_at y ≤ Server.s_created_at x.

(** A listing. *)
Definition listing (items : list JV) : Server.HttpResponse :=
  Server.mkResponse 200 (VObj [("success", VBool true); ("data", VArr items)]).

(** The key [isAvailable] writes and removes. *)
Definition PROBE_KEY : string := "__storage_test__".

(** The store after [isAvailable]. *)
Definition probed (ls : gmap string Text) : gmap string Text := delete PROBE_KEY ls.

(** What [StorageManager.loadData] computes from the store. *)
Definition stored_months `{Runtime} (ls : gmap string Text) : JV :=
  match ls !! STORAGE_KEY with
  | None => VArr []
  | Some t =>
      if text_empty t then VArr [] else
      match data ← JSON_parse t; js_map LocalCacheManager.with_date data with
      | Ok r => r
      | Throw _ => VArr []
      end
  end.

(** A month as the page keeps it: an object whose [importedAt] is a valid
    date that its ISO string gives back, and whose other properties are JSON
    values. *)
Definition storable `{Runtime} (d : JV) : bool :=
  match d with
  | VObj fs =>
      bool_decide (NoDup fs.*1)
      && match get_field fs "importedAt" with
         | VDate (Some t) => bool_decide (Date_parse (toISOString t) = Some t)
         | _ => false
         end
      && forallb (λ kv, String.eqb kv.1 "importedAt" || is_json kv.2) fs
  | _ => false
  end.

(** [handleLogout] with the call of [StateManager.init] that ends it: the
    handler on the whole state of the page. *)
Definition handleLogout_page `{Runtime} : Page unit :=
  browser AuthUI.handleLogout ;; StateManager.init.

(** The months [StateManager.init] leaves on the page: the saved ones when
    there are some, else those that were there. *)
Definition months_after_init (saved : list JV) (s : Months) : Months :=
  match saved with
  | [] => s
  | _ :: _ => mkMonths (VArr saved) (Z.of_nat (length saved))
  end.

(** The record [addMonthData] uploads for a month. *)
Definition cloud_record (monthData : JV) : JV :=
  VObj [("monthId", opt_prop monthData "id");
        ("monthName", opt_prop monthData "month");
        ("color", opt_prop monthData "color");
        ("config", opt_prop monthData "config");
        ("groupedData", opt_prop monthData "groupedData");
        ("rawData", opt_prop monthData "rawData")].

(** [null] and [undefined] *)
Definition nullish (v : JV) : bool :=
  match v with VUndef | VNull => true | _ => false end.

(** The month [initFromCloud] makes of a listed item that is not [null]. *)
Definition month_of_item `{Runtime} (now : Z) (item : JV) : JV :=
  match StateManager.from_cloud now item with
  | Ok month => month
  | Throw _ => VNull
  end.

(** ** Further concrete inputs *)

(** A browser nobody is logged in to. *)
Definition visitor (ls : gmap string Text) : App :=
  mkApp VNull VNull idle None ls None false.

(** A store whose log is the JSON text of an empty object. *)
Definition object_log : gmap string Text :=
  {[ LocalCacheManager.PENDING_OPS_KEY := JsonText (VObj []) ]}.

(** The answer of the service to Alice's credentials. *)
Definition login_reply : JV :=
  VObj [("success", VBool true); ("token", VStr "token-of-alice"); ("user", alice)].

(** The double quote *)
Definition quote : string := String (Ascii.ascii_of_nat 34) EmptyString.

(** A writer of JSON text; strings are written without escapes, dates as
    their ISO string. *)
Fixpoint json_text (v : JV) : string :=
  match v with
  | VUndef | VNull => "null"
  | VBool true => "true"
  | VBool false => "false"
  | VNum n => pretty n
  | VStr s => quote +:+ s +:+ quote
  | VDate (Some t) => quote +:+ pretty t +:+ quote
  | VDate None => "null"
  | VArr l => "[" +:+ String.concat "," (map json_text l) +:+ "]"
  | VObj fs =>
      "{" +:+ String.concat ","
                (map (λ kv, quote +:+ kv.1 +:+ quote +:+ ":" +:+ json_text kv.2) fs)
          +:+ "}"
  end.

Definition example_writer : JsonWriter := {| JSON_text := json_text |}.

(** A verifier that knows the token of Alice, and a clock that writes the
    time as a number. *)
Definition example_backend : Backend := {|
  jwt_verify := λ tok _,
    if String.eqb tok "token-of-alice" then Verified alice else JwtInvalid;
  datetime := λ t, pretty t
|}.

(** A runtime that reads back the ISO string of the instant 1000. *)
Definition clock_runtime : Runtime := {|
  trim := ascii_trim;
  toISOString := λ t, pretty t;
  Date_parse := λ s, if String.eqb s "1000" then Some 1000 else None;
  Date_toString := λ _, "Invalid Date";
  bcrypt_compare := String.eqb;
  jwt_sign := λ id name t, name +:+ "." +:+ pretty id +:+ "." +:+ pretty t;
  column_text := λ _, Throw "Error: not stored"
|}.

Definition bob_feb : Server.SalesRow :=
  Server.mkSales 1 8 "m2" "Feb" (VStr "#4A90A4")
    (JsonText (VObj [])) (JsonText (VArr [])) (JsonText (VArr [])) 900 900.

Definition alice_jan : Server.SalesRow :=
  Server.mkSales 2 7 "m1" "Jan" (VStr "#E3F2FD")
    (JsonText (VObj [])) (JsonText (VArr [])) (JsonText (VArr [])) 950 950.

(** Alice and Bob, with a month each. *)
Definition sales_db : Server.DB :=
  Server.mkDB [Server.mkUser 7 "alice" "secret1"; Server.mkUser 8 "bob" "secret2"]
              [bob_feb; alice_jan] 2.

(** The fields of an upload of February whose colour is the number 5. *)
Definition feb_in_colour_5 : list (string * JV) :=
  [("monthId", VStr "m2"); ("monthName", VStr "Feb"); ("color", VNum 5)].

(** A month of the page, imported at the instant 1000. *)
Definition month_jan : JV :=
  VObj [("id", VStr "m1"); ("month", VStr "Jan"); ("importedAt", VDate (Some 1000))].

(** * Properties *)

(** ** Reasoning about [JS] computations *)

Ltac js_unfold :=
  cbv beta iota zeta delta
    [mbind mret JS_bind JS_ret Exc_bind Exc_ret get_app modify lift try_catch
     console_error getItem setItem removeItem storage_keys].

Ltac js_bind := cbv beta iota zeta delta [mbind JS_bind].

Ltac case_lookup a :=
  match goal with
  | |- context [localStorage a !! ?k] =>
      let E := fresh "Hlookup" in destruct (localStorage a !! k) eqn:E
  end.

Section Frames.
Context `{Runtime}.

Lemma isLoggedIn_state (a : App) : ∃ b, AuthManager.isLoggedIn a = (Ok b, a).
Proof. unfold AuthManager.isLoggedIn. js_unfold. eauto. Qed.

Lemma updateSyncStatus_page (s : string) (a : App) :
  ∃ i, AuthUI.updateSyncStatus s a = (Ok tt, set_indicator i a).
Proof.
  unfold AuthUI.updateSyncStatus. js_unfold.
  destruct (indicator a) as [el|] eqn:E.
  - destruct (isLoggedIn_state a) as [b ->].
    destruct b; simpl; eauto.
  - exists None. by destruct a; simpl in *; subst.
Qed.

Lemma setSyncStatus_painted (st : SyncStatus) (a : App) :
  CloudSyncManager._setSyncStatus st a = (Ok tt, painted st a).
Proof.
  unfold painted, CloudSyncManager._setSyncStatus. js_unfold.
  destruct (listening _); [|done].
  destruct (updateSyncStatus_page (status_name st) (set_syncStatus st a)) as [i ->].
  done.
Qed.

Lemma painted_page (st : SyncStatus) (a : App) :
  ∃ i, painted st a = set_indicator i (set_syncStatus st a).
Proof.
  unfold painted, CloudSyncManager._setSyncStatus. js_unfold.
  destruct (listening _) eqn:E.
  - destruct (updateSyncStatus_page (status_name st) (set_syncStatus st a)) as [i ->].
    by exists i.
  - exists (indicator a). by destruct a.
Qed.

Lemma painted_syncStatus st a : syncStatus (painted st a) = st.
Proof. by destruct (painted_page st a) as [i ->]. Qed.
Lemma painted_localStorage st a : localStorage (painted st a) = localStorage a.
Proof. by destruct (painted_page st a) as [i ->]. Qed.
Lemma painted_token st a : token (painted st a) = token a.
Proof. by destruct (painted_page st a) as [i ->]. Qed.
Lemma painted_currentUser st a : currentUser (painted st a) = currentUser a.
Proof. by destruct (painted_page st a) as [i ->]. Qed.
Lemma painted_lastSyncTime st a : lastSyncTime (painted st a) = lastSyncTime a.
Proof. by destruct (painted_page st a) as [i ->]. Qed.
Lemma painted_listening st a : listening (painted st a) = listening a.
Proof. by destruct (painted_page st a) as [i ->]. Qed.

Lemma isLoggedIn_same (a b : App) (r : bool) :
  token b = token a → currentUser b = currentUser a →
  AuthManager.isLoggedIn a = (Ok r, a) → AuthManager.isLoggedIn b = (Ok r, b).
Proof.
  unfold AuthManager.isLoggedIn. js_unfold. intros -> ->. by intros [= ->].
Qed.

Lemma isLoggedIn_painted (st : SyncStatus) (a : App) (r : bool) :
  AuthManager.isLoggedIn a = (Ok r, a) →
  AuthManager.isLoggedIn (painted st a) = (Ok r, painted st a).
Proof. apply isLoggedIn_same; [apply painted_token|apply painted_currentUser]. Qed.

Lemma js_map_array (f : JV → Exc JV) (v r : JV) :
  js_map f v = Ok r → ∃ l, r = VArr l.
Proof.
  destruct v; simpl; try discriminate.
  destruct (exc_mapM f l) as [l'|e]; simpl; [|discriminate].
  intros [= <-]. eauto.
Qed.

Lemma getCachedData_cached (userId : JV) (a : App) :
  LocalCacheManager.getCachedData userId a = (Ok (cached userId (localStorage a)), a).
Proof.
  unfold LocalCacheManager.getCachedData, cached.
  destruct (truthy userId); simpl; [|done].
  js_unfold. case_lookup a; [|done].
  destruct (text_empty _); [done|].
  destruct (JSON_parse _) as [data|e]; [|done].
  by destruct (js_map _ data).
Qed.

Lemma cached_array (userId : JV) (ls : gmap string Text) :
  ∃ l, cached userId ls = VArr l.
Proof.
  unfold cached. destruct (truthy userId); simpl; [|by exists []].
  destruct (ls !! _) as [t|]; [|by exists []].
  destruct (text_empty t); [by exists []|].
  destruct (JSON_parse t) as [data|e]; simpl; [|by exists []].
  destruct (js_map _ data) as [r|e] eqn:Hm; [|by exists []].
  by apply js_map_array in Hm.
Qed.

Lemma getPendingOperations_pending (a : App) :
  LocalCacheManager.getPendingOperations a = (Ok (pending (localStorage a)), a).
Proof.
  unfold LocalCacheManager.getPendingOperations, pending. js_unfold.
  case_lookup a; [|done].
  destruct (text_empty _); [done|]. by destruct (JSON_parse _).
Qed.

Lemma addPendingOperation_enqueued (operation : JV) (a : App) :
  LocalCacheManager.addPendingOperation operation a
  = (Ok tt, set_localStorage (enqueued operation (localStorage a)) a).
Proof.
  unfold LocalCacheManager.addPendingOperation, enqueued.
  cbv beta iota zeta delta [mbind JS_bind try_catch].
  rewrite getPendingOperations_pending. js_unfold.
  destruct (js_push _ _); [done|]. by destruct a.
Qed.

End Frames.

(** ** Mutations: [uploadData] and [deleteData] case by case *)

Section Mutations.
Context `{Runtime}.

Lemma prop_opt (v x : JV) (k k' : string) :
  prop v k = Ok x → x = opt_prop v k ∧ prop v k' = Ok (opt_prop v k').
Proof.
  unfold opt_prop. destruct v; simpl; try discriminate; intros [= <-]; done.
Qed.

Lemma uploadData_logged_out (net : Net) (monthData : JV) (a : App) :
  AuthManager.isLoggedIn a = (Ok false, a) →
  CloudSyncManager.uploadData net monthData a = (Ok (failure (VStr "请先登录")), a).
Proof. intros Hin. unfold CloudSyncManager.uploadData. js_bind. by rewrite Hin. Qed.

Lemma uploadData_offline (net : Net) (monthData : JV) (a : App) :
  AuthManager.isLoggedIn a = (Ok true, a) →
  onLine net = false →
  CloudSyncManager.uploadData net monthData a
  = (Ok (failure (VStr "网络离线，数据已保存到本地")),
     set_localStorage (enqueued (upload_op net monthData) (localStorage a))
                      (painted offline a)).
Proof.
  intros Hin Hoff. unfold CloudSyncManager.uploadData, CloudSyncManager.isOnline.
  js_bind. rewrite Hin, Hoff. simpl. js_bind.
  rewrite setSyncStatus_painted, addPendingOperation_enqueued.
  by rewrite painted_localStorage.
Qed.

Lemma uploadData_accepted (net : Net) (monthData data s : JV) (a : App) :
  AuthManager.isLoggedIn a = (Ok true, a) →
  onLine net = true →
  reply net = Response data →
  prop data "success" = Ok s → truthy s = true →
  CloudSyncManager.uploadData net monthData a
  = (Ok (VObj [("success", VBool true); ("id", opt_prop data "id")]),
     set_lastSyncTime (Some (now net)) (painted idle (painted syncing a))).
Proof.
  intros Hin Hon Hr Hs Ht. unfold CloudSyncManager.uploadData, CloudSyncManager.isOnline.
  js_bind. rewrite Hin, Hon. simpl. js_bind.
  rewrite setSyncStatus_painted. unfold fetch_json. rewrite Hr.
  destruct (prop_opt _ _ _ "id" Hs) as [_ Hid].
  js_unfold. rewrite Hs, Ht. js_unfold.
  rewrite setSyncStatus_painted. by rewrite Hid.
Qed.

Lemma uploadData_rejected (net : Net) (monthData data s : JV) (a : App) :
  AuthManager.isLoggedIn a = (Ok true, a) →
  onLine net = true →
  reply net = Response data →
  prop data "success" = Ok s → truthy s = false →
  CloudSyncManager.uploadData net monthData a
  = (Ok (failure (js_or (opt_prop data "error") (VStr "上传失败"))),
     painted error (painted syncing a)).
Proof.
  intros Hin Hon Hr Hs Ht. unfold CloudSyncManager.uploadData, CloudSyncManager.isOnline.
  js_bind. rewrite Hin, Hon. simpl. js_bind.
  rewrite setSyncStatus_painted. unfold fetch_json. rewrite Hr.
  destruct (prop_opt _ _ _ "error" Hs) as [_ He].
  js_unfold. rewrite Hs, Ht. js_unfold.
  rewrite setSyncStatus_painted. by rewrite He.
Qed.

(** The [catch] block: [fetch] rejects, or the body is [null]. *)
Lemma uploadData_caught (net : Net) (monthData : JV) (a : App) :
  AuthManager.isLoggedIn a = (Ok true, a) →
  onLine net = true →
  (reply net = NetworkError ∨
   ∃ data e, reply net = Response data ∧ prop data "success" = Throw e) →
  CloudSyncManager.uploadData net monthData a
  = (Ok (failure (VStr "网络错误，数据已保存到本地")),
     set_localStorage (enqueued (upload_op net monthData) (localStorage a))
                      (painted error (painted syncing a))).
Proof.
  intros Hin Hon Hr. unfold CloudSyncManager.uploadData, CloudSyncManager.isOnline.
  js_bind. rewrite Hin, Hon. simpl. js_bind.
  rewrite setSyncStatus_painted. unfold fetch_json.
  destruct Hr as [-> | (data & e & -> & He)].
  - js_unfold. rewrite setSyncStatus_painted, addPendingOperation_enqueued.
    by rewrite !painted_localStorage.
  - js_unfold. rewrite He. rewrite setSyncStatus_painted, addPendingOperation_enqueued.
    by rewrite !painted_localStorage.
Qed.

Lemma deleteData_logged_out (net : Net) (monthId : JV) (a : App) :
  AuthManager.isLoggedIn a = (Ok false, a) →
  CloudSyncManager.deleteData net monthId a = (Ok (failure (VStr "请先登录")), a).
Proof. intros Hin. unfold CloudSyncManager.deleteData. js_bind. by rewrite Hin. Qed.

Lemma deleteData_offline (net : Net) (monthId : JV) (a : App) :
  AuthManager.isLoggedIn a = (Ok true, a) →
  onLine net = false →
  CloudSyncManager.deleteData net monthId a
  = (Ok (failure (VStr "网络离线，操作已保存到本地")),
     set_localStorage (enqueued (delete_op net monthId) (localStorage a))
                      (painted offline a)).
Proof.
  intros Hin Hoff. unfold CloudSyncManager.deleteData, CloudSyncManager.isOnline.
  js_bind. rewrite Hin, Hoff. simpl. js_bind.
  rewrite setSyncStatus_painted, addPendingOperation_enqueued.
  by rewrite painted_localStorage.
Qed.

Lemma deleteData_accepted (net : Net) (monthId data s : JV) (a : App) :
  AuthManager.isLoggedIn a = (Ok true, a) →
  onLine net = true →
  reply net = Response data →
  prop data "success" = Ok s → truthy s = true →
  CloudSyncManager.deleteData net monthId a
  = (Ok (VObj [("success", VBool true)]),
     set_lastSyncTime (Some (now net)) (painted idle (painted syncing a))).
Proof.
  intros Hin Hon Hr Hs Ht. unfold CloudSyncManager.deleteData, CloudSyncManager.isOnline.
  js_bind. rewrite Hin, Hon. simpl. js_bind.
  rewrite setSyncStatus_painted. unfold fetch_json. rewrite Hr.
  js_unfold. rewrite Hs, Ht. js_unfold.
  by rewrite setSyncStatus_painted.
Qed.

Lemma deleteData_rejected (net : Net) (monthId data s : JV) (a : App) :
  AuthManager.isLoggedIn a = (Ok true, a) →
  onLine net = true →
  reply net = Response data →
  prop data "success" = Ok s → truthy s = false →
  CloudSyncManager.deleteData net monthId a
  = (Ok (failure (js_or (opt_prop data "error") (VStr "删除失败"))),
     painted error (painted syncing a)).
Proof.
  intros Hin Hon Hr Hs Ht. unfold CloudSyncManager.deleteData, CloudSyncManager.isOnline.
  js_bind. rewrite Hin, Hon. simpl. js_bind.
  rewrite setSyncStatus_painted. unfold fetch_json. rewrite Hr.
  destruct (prop_opt _ _ _ "error" Hs) as [_ He].
  js_unfold. rewrite Hs, Ht. js_unfold.
  rewrite setSyncStatus_painted. by rewrite He.
Qed.

Lemma deleteData_caught (net : Net) (monthId : JV) (a : App) :
  AuthManager.isLoggedIn a = (Ok true, a) →
  onLine net = true →
  (reply net = NetworkError ∨
   ∃ data e, reply net = Response data ∧ prop data "success" = Throw e) →
  CloudSyncManager.deleteData net monthId a
  = (Ok (failure (VStr "网络错误，操作已保存到本地")),
     set_localStorage (enqueued (delete_op net monthId) (localStorage a))
                      (painted error (painted syncing a))).
Proof.
  intros Hin Hon Hr. unfold CloudSyncManager.deleteData, CloudSyncManager.isOnline.
  js_bind. rewrite Hin, Hon. simpl. js_bind.
  rewrite setSyncStatus_painted. unfold fetch_json.
  destruct Hr as [-> | (data & e & -> & He)].
  - js_unfold. rewrite setSyncStatus_painted, addPendingOperation_enqueued.
    by rewrite !painted_localStorage.
  - js_unfold. rewrite He. rewrite setSyncStatus_painted, addPendingOperation_enqueued.
    by rewrite !painted_localStorage.
Qed.

(** Appending to a log that reads as the array [ops]. *)
Lemma enqueued_array (operation : JV) (ls : gmap string Text) (ops : list JV) :
  pending ls = VArr ops →
  enqueued operation ls
  = <[LocalCacheManager.PENDING_OPS_KEY := JSON_stringify (VArr (ops ++ [operation]))]> ls.
Proof. intros E. unfold enqueued. by rewrite E. Qed.

Lemma enqueued_other (operation : JV) (ls : gmap string Text) (k : string) :
  k ≠ LocalCacheManager.PENDING_OPS_KEY → enqueued operation ls !! k = ls !! k.
Proof.
  intros Hne. unfold enqueued. destruct (js_push _ _); [|done].
  by rewrite lookup_insert_ne.
Qed.

End Mutations.

(** ** JSON values *)

Lemma JV_ind (P : JV → Prop) :
  P VUndef → P VNull → (∀ b, P (VBool b)) → (∀ n, P (VNum n)) →
  (∀ s, P (VStr s)) → (∀ t, P (VDate t)) →
  (∀ l, Forall P l → P (VArr l)) →
  (∀ fs, Forall (λ kv, P kv.2) fs → P (VObj fs)) →
  ∀ v, P v.
Proof.
  intros Hu Hn Hb Hz Hs Hd Ha Ho. fix IH 1.
  intros [ | |b|n|s|t|l|fs];
    [apply Hu|apply Hn|apply Hb|apply Hz|apply Hs|apply Hd| | ].
  - apply Ha. induction l as [|x l IHl]; constructor; [apply IH|apply IHl].
  - apply Ho. induction fs as [|[k x] fs IHfs]; constructor; [apply IH|apply IHfs].
Qed.

Section JsonFacts.
Context `{Runtime}.

(** [JSON.stringify] then [JSON.parse] gives a JSON value back unchanged. *)
Lemma jsonify_json (v : JV) : is_json v = true → jsonify v = v.
Proof.
  induction v as [ | |b|n|s|t|l IH|fs IH] using JV_ind; simpl; try done.
  - intros Hl. f_equal. induction IH as [|x l Hx _ IHl]; [done|].
    simpl in *. apply andb_true_iff in Hl as [Hx' Hl'].
    by rewrite Hx, IHl.
  - intros Hfs. f_equal. induction IH as [|[k x] fs Hx _ IHfs]; [done|].
    simpl in *. apply andb_true_iff in Hfs as [Hx' Hfs'].
    rewrite IHfs by done. rewrite Hx by done. by destruct x.
Qed.

Lemma jsonify_is_json (v : JV) : is_json (jsonify v) = true.
Proof.
  induction v as [ | |b|n|s|t|l IH|fs IH] using JV_ind; simpl; try done.
  - by destruct t.
  - induction IH as [|x l Hx _ IHl]; [done|]. simpl. by rewrite Hx, IHl.
  - induction IH as [|[k x] fs Hx _ IHfs]; [done|]. simpl in *.
    destruct x; simpl in *; try done; by rewrite ?Hx, IHfs.
Qed.

Lemma jsonify_all_json (l : list JV) :
  forallb is_json l = true → map jsonify l = l.
Proof.
  induction l as [|x l IH]; simpl; [done|].
  intros [Hx Hl]%andb_true_iff. by rewrite jsonify_json, IH.
Qed.

Lemma all_json_jsonify (l : list JV) : forallb is_json (map jsonify l) = true.
Proof. induction l as [|x l IH]; simpl; [done|]. by rewrite jsonify_is_json, IH. Qed.

Lemma get_field_json (fs : list (string * JV)) (k : string) :
  forallb (λ kv, is_json kv.2) fs = true →
  get_field fs k = VUndef ∨ is_json (get_field fs k) = true.
Proof.
  induction fs as [|[k' x] fs IH]; simpl; [by left|].
  intros [Hx Hfs]%andb_true_iff. destruct (String.eqb k' k); [by right|auto].
Qed.

(** Writing back the value a JSON object already has under [k] leaves its
    JSON text unchanged: a present key keeps its place, an absent one is
    added as [undefined] and dropped by [JSON.stringify]. *)
Lemma jsonify_same_field (fs : list (string * JV)) (k : string) :
  forallb (λ kv, is_json kv.2) fs = true →
  jsonify (VObj (set_field fs k (get_field fs k))) = VObj fs.
Proof.
  intros Hfs. simpl. f_equal.
  induction fs as [|[k' x] fs IH]; simpl; [done|].
  simpl in Hfs. apply andb_true_iff in Hfs as [Hx Hfs].
  destruct (String.eqb k' k) eqn:E.
  - apply String.eqb_eq in E as ->. simpl in Hx.
    pose proof (jsonify_json (VObj fs) Hfs) as Hj. simpl in Hj.
    injection Hj as Hj. rewrite Hj, (jsonify_json x Hx). by destruct x.
  - rewrite IH by done. rewrite (jsonify_json x Hx). by destruct x.
Qed.

Lemma with_iso_date_record (d : JV) :
  is_record d = true →
  ∃ d', LocalCacheManager.with_iso_date d = Ok d' ∧ jsonify d' = d.
Proof.
  destruct d as [ | | | | | | |fs]; try done. intros Hfs. simpl in Hfs.
  exists (VObj (set_field fs "importedAt" (get_field fs "importedAt"))).
  split; [|by apply jsonify_same_field].
  unfold LocalCacheManager.with_iso_date. simpl.
  pose proof (get_field_json fs "importedAt" Hfs) as Hx.
  destruct (get_field fs "importedAt"); try done.
  by destruct Hx.
Qed.

Lemma cache_text_records (records : list JV) :
  forallb is_record records = true →
  ∃ mapped, exc_mapM LocalCacheManager.with_iso_date records = Ok mapped ∧
            map jsonify mapped = records ∧
            JSON_stringify (VArr mapped) = JsonText (VArr records).
Proof.
  intros Hr.
  assert (∃ mapped, exc_mapM LocalCacheManager.with_iso_date records = Ok mapped ∧
                    map jsonify mapped = records) as (mapped & Hm & Hj).
  { induction records as [|d records IH]; [by exists []|].
    simpl in Hr. apply andb_true_iff in Hr as [Hd Hr].
    destruct (IH Hr) as (mapped & Hm & Hj).
    destruct (with_iso_date_record d Hd) as (d' & Hd' & Hjd).
    exists (d' :: mapped). simpl. rewrite Hd'. simpl. rewrite Hm. simpl.
    by rewrite Hjd, Hj. }
  exists mapped. split; [done|]. split; [done|]. simpl. by rewrite Hj.
Qed.

End JsonFacts.

(** ** Replaying the pending-operation log *)

Section Replay.
Context `{Runtime}.

Lemma grows_refl (cur : list JV) : grows cur cur 0.
Proof. split; [lia|]. intros Hj. split; [done|]. exists []. by rewrite app_nil_r. Qed.

Lemma grows_append (cur : list JV) (x : JV) : grows cur (map jsonify (cur ++ [x])%list) 1.
Proof.
  split.
  - rewrite length_map, length_app. simpl. lia.
  - intros Hj. rewrite map_app, jsonify_all_json by done. simpl. split.
    + rewrite forallb_app, Hj. simpl. by rewrite jsonify_is_json.
    + by exists [jsonify x].
Qed.

Lemma grows_trans (l1 l2 l3 : list JV) (k1 k2 : Z) :
  grows l1 l2 k1 → grows l2 l3 k2 → grows l1 l3 (k1 + k2).
Proof.
  intros [Hl1 Hp1] [Hl2 Hp2]. split; [lia|].
  intros Hj. destruct (Hp1 Hj) as [Hj2 [e1 ->]]. destruct (Hp2 Hj2) as [Hj3 [e2 ->]].
  split; [done|]. exists (e1 ++ e2)%list. by rewrite app_assoc.
Qed.

Lemma grows_weaken (l1 l2 : list JV) (k k' : Z) : k ≤ k' → grows l1 l2 k → grows l1 l2 k'.
Proof. intros Hk [Hl Hp]. split; [lia|done]. Qed.

Lemma log_is_pending (a : App) (cur : list JV) :
  log_is a cur → pending (localStorage a) = VArr cur.
Proof. unfold log_is, pending. by intros ->. Qed.

Lemma log_is_enqueued (a b : App) (cur : list JV) (x : JV) :
  log_is a cur → localStorage b = localStorage a →
  log_is (set_localStorage (enqueued x (localStorage a)) b) (map jsonify (cur ++ [x])%list).
Proof.
  intros Hlog _. unfold log_is. simpl.
  rewrite (enqueued_array _ _ cur) by by apply log_is_pending.
  by rewrite lookup_insert_eq.
Qed.

Lemma uploadData_outcome (net : Net) (monthData : JV) (a : App) (cur : list JV) :
  log_is a cur → mutation_outcome cur (CloudSyncManager.uploadData net monthData a).
Proof.
  intros Hlog. unfold mutation_outcome.
  destruct (isLoggedIn_state a) as [[] Hin].
  - destruct (onLine net) eqn:Hon.
    + assert (mutation_outcome cur
        (Ok (failure (VStr "网络错误，数据已保存到本地")),
         set_localStorage (enqueued (upload_op net monthData) (localStorage a))
                          (painted error (painted syncing a)))) as Hcaught.
      { eexists false, _, _, _. split; [done|]. split.
        - apply log_is_enqueued; [done|]. by rewrite !painted_localStorage.
        - right. eauto. }
      destruct (reply net) as [data|] eqn:Hr.
      * destruct (prop data "success") as [s|e] eqn:Hs.
        -- destruct (truthy s) eqn:Ht.
           ++ rewrite (uploadData_accepted net monthData data s) by done.
              eexists true, _, _, cur. split; [done|]. split; [|by left].
              unfold log_is. simpl. by rewrite !painted_localStorage.
           ++ rewrite (uploadData_rejected net monthData data s) by done.
              eexists false, _, _, cur. split; [done|]. split; [|by left].
              unfold log_is. by rewrite !painted_localStorage.
        -- rewrite uploadData_caught by eauto. done.
      * rewrite uploadData_caught by eauto. done.
    + rewrite uploadData_offline by done.
      eexists false, _, _, _. split; [done|]. split.
      * apply log_is_enqueued; [done|]. by rewrite painted_localStorage.
      * right. eauto.
  - rewrite uploadData_logged_out by done.
    eexists false, _, a, cur. split; [done|]. split; [done|by left].
Qed.

Lemma deleteData_outcome (net : Net) (monthId : JV) (a : App) (cur : list JV) :
  log_is a cur → mutation_outcome cur (CloudSyncManager.deleteData net monthId a).
Proof.
  intros Hlog. unfold mutation_outcome.
  destruct (isLoggedIn_state a) as [[] Hin].
  - destruct (onLine net) eqn:Hon.
    + assert (mutation_outcome cur
        (Ok (failure (VStr "网络错误，操作已保存到本地")),
         set_localStorage (enqueued (delete_op net monthId) (localStorage a))
                          (painted error (painted syncing a)))) as Hcaught.
      { eexists false, _, _, _. split; [done|]. split.
        - apply log_is_enqueued; [done|]. by rewrite !painted_localStorage.
        - right. eauto. }
      destruct (reply net) as [data|] eqn:Hr.
      * destruct (prop data "success") as [s|e] eqn:Hs.
        -- destruct (truthy s) eqn:Ht.
           ++ rewrite (deleteData_accepted net monthId data s) by done.
              eexists true, _, _, cur. split; [done|]. split; [|by left].
              unfold log_is. simpl. by rewrite !painted_localStorage.
           ++ rewrite (deleteData_rejected net monthId data s) by done.
              eexists false, _, _, cur. split; [done|]. split; [|by left].
              unfold log_is. by rewrite !painted_localStorage.
        -- rewrite deleteData_caught by eauto. done.
      * rewrite deleteData_caught by eauto. done.
    + rewrite deleteData_offline by done.
      eexists false, _, _, _. split; [done|]. split.
      * apply log_is_enqueued; [done|]. by rewrite painted_localStorage.
      * right. eauto.
  - rewrite deleteData_logged_out by done.
    eexists false, _, a, cur. split; [done|]. split; [done|by left].
Qed.

(** One turn of the loop: it never throws, counts the operation at most
    once, and appends to the log only when it counts a failure. *)
Lemma replay_op_outcome (net : Net) (op : JV) (c : Z * Z) (a : App) (cur : list JV) :
  log_is a cur →
  ∃ c' a' cur',
    CloudSyncManager.replay_op net op c a = (Ok c', a') ∧ log_is a' cur' ∧
    ((c' = (c.1 + 1, c.2) ∧ cur' = cur) ∨
     (c' = (c.1, c.2 + 1) ∧ grows cur cur' 1) ∨
     (c' = c ∧ cur' = cur)).
Proof.
  intros Hlog. unfold CloudSyncManager.replay_op.
  cbv beta iota zeta delta [mbind JS_bind try_catch lift mret JS_ret].
  destruct (prop op "type") as [type|e] eqn:Ht.
  2:{ exists (c.1, c.2 + 1), a, cur. split; [done|]. split; [done|].
      right; left. split; [done|]. apply (grows_weaken _ _ 0 1); [lia|apply grows_refl]. }
  destruct (is_str type "upload").
  - destruct (prop_opt _ _ _ "data" Ht) as [_ ->].
    destruct (uploadData_outcome net (opt_prop op "data") a cur Hlog)
      as (b & rest & a' & cur' & -> & Hlog' & Hcur).
    simpl. destruct b; simpl.
    + destruct Hcur as [->|[? _]]; [|done].
      exists (c.1 + 1, c.2), a', cur. split; [done|]. split; [done|]. by left.
    + exists (c.1, c.2 + 1), a', cur'. split; [done|]. split; [done|].
      right; left. split; [done|].
      destruct Hcur as [->|[_ [x ->]]]; [|apply grows_append].
      apply (grows_weaken _ _ 0 1); [lia|apply grows_refl].
  - destruct (is_str type "delete").
    + destruct (prop_opt _ _ _ "monthId" Ht) as [_ ->].
      destruct (deleteData_outcome net (opt_prop op "monthId") a cur Hlog)
        as (b & rest & a' & cur' & -> & Hlog' & Hcur).
      simpl. destruct b; simpl.
      * destruct Hcur as [->|[? _]]; [|done].
        exists (c.1 + 1, c.2), a', cur. split; [done|]. split; [done|]. by left.
      * exists (c.1, c.2 + 1), a', cur'. split; [done|]. split; [done|].
        right; left. split; [done|].
        destruct Hcur as [->|[_ [x ->]]]; [|apply grows_append].
        apply (grows_weaken _ _ 0 1); [lia|apply grows_refl].
    + exists c, a, cur. split; [done|]. split; [done|]. by right; right.
Qed.

(** The whole loop. *)
Lemma replay_outcome (nets : nat → Net) (ops : list JV) :
  ∀ (i : nat) (c : Z * Z) (a : App) (cur : list JV),
    log_is a cur →
    ∃ c' a' cur',
      CloudSyncManager.replay nets i ops c a = (Ok c', a') ∧ log_is a' cur' ∧
      c.1 ≤ c'.1 ∧ c.2 ≤ c'.2 ∧
      (c'.1 - c.1) + (c'.2 - c.2) ≤ Z.of_nat (length ops) ∧
      grows cur cur' (c'.2 - c.2).
Proof.
  induction ops as [|op ops IH]; intros i c a cur Hlog.
  - exists c, a, cur. simpl.
    split; [done|]. split; [done|]. split; [lia|]. split; [lia|]. split; [lia|].
    replace (c.2 - c.2) with 0 by lia. apply grows_refl.
  - simpl. cbv beta iota zeta delta [mbind JS_bind].
    destruct (replay_op_outcome (nets i) op c a cur Hlog)
      as (c1 & a1 & cur1 & -> & Hlog1 & Hstep).
    destruct (IH (S i) c1 a1 cur1 Hlog1)
      as (c' & a' & cur' & -> & Hlog' & H1 & H2 & H3 & Hg).
    exists c', a', cur'. split; [done|]. split; [done|].
    destruct Hstep as [[-> ->]|[[-> Hg1]|[-> ->]]]; simpl in *.
    + split; [lia|]. split; [lia|]. split; [lia|]. done.
    + split; [lia|]. split; [lia|]. split; [lia|].
      replace (c'.2 - c.2) with (1 + (c'.2 - (c.2 + 1))) by lia.
      by eapply grows_trans.
    + split; [lia|]. split; [lia|]. split; [lia|]. done.
Qed.

End Replay.

Section SyncRun.
Context `{Runtime}.

Lemma syncPendingOperations_run (a : App) (net : Net) (nets : nat → Net) (ops : list JV) :
  log_is a ops → ops ≠ [] → onLine net = true →
  ∃ c a1 cur,
    CloudSyncManager.replay nets 0 ops (0, 0) (painted syncing a) = (Ok c, a1) ∧
    log_is a1 cur ∧
    0 ≤ c.1 ∧ 0 ≤ c.2 ∧ c.1 + c.2 ≤ Z.of_nat (length ops) ∧
    grows ops cur c.2 ∧
    CloudSyncManager.syncPendingOperations net nets a
    = (Ok (CloudSyncManager.sync_result (c.2 =? 0) c.1 c.2),
       painted (if 0 <? c.2 then error else idle)
         (if 0 <? c.1
          then set_localStorage
                 (delete LocalCacheManager.PENDING_OPS_KEY (localStorage a1)) a1
          else a1)).
Proof.
  intros Hlog Hne Hon.
  assert (log_is (painted syncing a) ops) as Hlog0
    by (unfold log_is; by rewrite painted_localStorage).
  destruct (replay_outcome nets ops 0%nat (0, 0) _ ops Hlog0)
    as (c & a1 & cur & Hrun & Hlog1 & H1 & H2 & H3 & Hg).
  simpl in *. exists c, a1, cur.
  split; [done|]. split; [done|]. split; [lia|]. split; [lia|]. split; [lia|].
  split; [by replace (c.2 - 0) with c.2 in Hg by lia|].
  unfold CloudSyncManager.syncPendingOperations, CloudSyncManager.isOnline.
  rewrite Hon. simpl. cbv beta iota zeta delta [mbind JS_bind].
  rewrite getPendingOperations_pending, (log_is_pending a ops Hlog).
  assert ((Z.of_nat (length ops) =? 0) = false) as Hlen
    by (destruct ops; [done|apply Z.eqb_neq; simpl; lia]).
  cbv beta iota zeta delta [lift prop iterate mbind JS_bind].
  change (String.eqb "length" "length") with true. cbv iota.
  rewrite Hlen. rewrite setSyncStatus_painted. rewrite Hrun.
  unfold LocalCacheManager.clearPendingOperations.
  destruct (0 <? c.1); js_unfold; by rewrite setSyncStatus_painted.
Qed.

End SyncRun.

(** ** The local cache interface *)

(** C10.  [cacheData] and [getCachedData] never throw, whatever the
    arguments and the store.  With an absent identity id ([null] or
    [undefined]) [cacheData] writes nothing and [getCachedData] returns the
    empty array; [getCachedData] also returns the empty array when the
    stored blob is missing, is not JSON text, or is not the text of an
    array.  [getCachedData] never changes the state. *)
Theorem C10_cache_interface_total `{Runtime} (userId data : JV) (a : App) :
  (∃ a', LocalCacheManager.cacheData userId data a = (Ok tt, a')) ∧
  (∃ l, LocalCacheManager.getCachedData userId a = (Ok (VArr l), a)) ∧
  LocalCacheManager.cacheData VNull data a = (Ok tt, a) ∧
  LocalCacheManager.cacheData VUndef data a = (Ok tt, a) ∧
  LocalCacheManager.getCachedData VNull a = (Ok (VArr []), a) ∧
  LocalCacheManager.getCachedData VUndef a = (Ok (VArr []), a) ∧
  match localStorage a !! (LocalCacheManager.CACHE_KEY_PREFIX +:+ js_to_string userId) with
  | None | Some (Raw _) =>
      LocalCacheManager.getCachedData userId a = (Ok (VArr []), a)
  | Some (JsonText v) =>
      if is_array v then True
      else LocalCacheManager.getCachedData userId a = (Ok (VArr []), a)
  end.
Proof.
  repeat split; try done.
  - unfold LocalCacheManager.cacheData.
    destruct (truthy userId); simpl; [|by eauto].
    js_unfold. destruct (js_map _ data); eauto.
  - rewrite getCachedData_cached.
    destruct (cached_array userId (localStorage a)) as [l ->]. by exists l.
  - rewrite getCachedData_cached. unfold cached.
    destruct (truthy userId); simpl; [|by destruct (_ !! _) as [[]|]; try destruct (is_array _)].
    destruct (localStorage a !! _) as [[v|s]|]; try done.
    + destruct v; simpl; done.
    + simpl. by destruct (String.eqb s "").
Qed.

(** ** Reading while the network is unreachable *)

Section Download.
Context `{Runtime}.

Lemma with_date_records (records : list JV) :
  forallb is_record records = true →
  exc_mapM LocalCacheManager.with_date records = Ok (revived <$> records).
Proof.
  induction records as [|d records IH]; [done|]. simpl.
  intros [Hd Hr]%andb_true_iff. rewrite IH by done.
  by destruct d.
Qed.

(** The cache entry of an identity with an id that holds the JSON text of a
    list of records reads as those records. *)
Lemma cached_records (userId : JV) (ls : gmap string Text) (records : list JV) :
  truthy userId = true →
  ls !! (LocalCacheManager.CACHE_KEY_PREFIX +:+ js_to_string userId)
    = Some (JsonText (VArr records)) →
  forallb is_record records = true →
  cached userId ls = VArr (revived <$> records).
Proof.
  intros Hid Hls Hrec. unfold cached. rewrite Hid, Hls. simpl.
  by rewrite with_date_records.
Qed.

End Download.

(** C5.  For an authenticated session and an unreachable network,
    [downloadAllData] sets the status to [offline], leaves the store alone
    and answers from the entry that the store holds for the current
    identity.  When the identity has an id and its entry is the JSON text
    of a non-empty list of records, the answer is a success with exactly
    those records, in their order, each with its [importedAt] read back as a
    date.  When the identity has no id, or its entry is absent or holds the
    empty list, the answer is the offline-no-cache error.  Whatever the
    entry holds, the answer is made of what [getCachedData] reads from it,
    which is [cached]: a success with it when it has records, the error
    otherwise. *)
Theorem C5_offline_fallback `{Runtime} (a : App) (net : Net) :
  AuthManager.isLoggedIn a = (Ok true, a) →
  onLine net = false →
  let userId := opt_prop (currentUser a) "id" in
  let entry :=
    localStorage a !! (LocalCacheManager.CACHE_KEY_PREFIX +:+ js_to_string userId) in
  ∃ r a',
    CloudSyncManager.downloadAllData net a = (Ok r, a') ∧
    syncStatus a' = offline ∧
    localStorage a' = localStorage a ∧
    token a' = token a ∧ currentUser a' = currentUser a ∧
    (∀ d records,
       truthy userId = true →
       entry = Some (JsonText (VArr (d :: records))) →
       forallb is_record (d :: records) = true →
       r = VObj [("success", VBool true); ("data", VArr (revived <$> d :: records))]) ∧
    (truthy userId = false ∨ entry = None ∨ entry = Some (JsonText (VArr [])) →
     r = failure (VStr "网络离线，无本地缓存数据")) ∧
    LocalCacheManager.getCachedData userId a = (Ok (cached userId (localStorage a)), a) ∧
    r = match cached userId (localStorage a) with
        | VArr (d :: records) =>
            VObj [("success", VBool true); ("data", VArr (d :: records))]
        | _ => failure (VStr "网络离线，无本地缓存数据")
        end.
Proof.
  intros Hin Hoff userId entry.
  assert (CloudSyncManager.downloadAllData net a
          = (Ok (match cached userId (localStorage a) with
                 | VArr (d :: records) =>
                     VObj [("success", VBool true); ("data", VArr (d :: records))]
                 | _ => failure (VStr "网络离线，无本地缓存数据")
                 end), painted offline a)) as Hrun.
  { unfold CloudSyncManager.downloadAllData, CloudSyncManager.isOnline.
    cbv beta iota zeta delta [mbind JS_bind]. rewrite Hin, Hoff. simpl.
    cbv beta iota zeta delta [mbind JS_bind]. rewrite setSyncStatus_painted.
    unfold CloudSyncManager.cached_or, AuthManager.getCurrentUser.
    js_unfold. rewrite getCachedData_cached.
    rewrite painted_currentUser, painted_localStorage. fold userId.
    destruct (cached_array userId (localStorage a)) as [l ->].
    by destruct l. }
  eexists _, (painted offline a). split; [exact Hrun|].
  rewrite painted_syncStatus, painted_localStorage, painted_token, painted_currentUser.
  split; [done|]. split; [done|]. split; [done|]. split; [done|].
  split; [|split; [|split; [apply getCachedData_cached|done]]].
  - intros d records Hid Hentry Hrec.
    by rewrite (cached_records userId (localStorage a) (d :: records) Hid Hentry Hrec).
  - unfold cached. fold entry. intros [->|[->| ->]]; simpl; [done|..].
    + by destruct (truthy userId).
    + by destruct (truthy userId).
Qed.

(** ** Logout *)

Section Logout.
Context `{Runtime}.

Lemma forEach_removeItem (l : list string) (a : App) :
  LocalCacheManager.forEach removeItem l a
  = (Ok tt, set_localStorage (foldl (λ m key, delete key m) (localStorage a) l) a).
Proof.
  revert a. induction l as [|k l IH]; intros a; simpl.
  - by destruct a.
  - js_unfold. rewrite IH. by destruct a.
Qed.

Lemma lookup_removed (l : list string) (ls : gmap string Text) (k : string) :
  foldl (λ m key, delete key m) ls l !! k
  = if decide (k ∈ l) then None else ls !! k.
Proof.
  revert ls. induction l as [|x l IH]; intros ls.
  - destruct (decide (k ∈ [])) as [Hin|_]; [|done]. by apply not_elem_of_nil in Hin.
  - change (foldl (λ m key, delete key m) ls (x :: l))
      with (foldl (λ m key, delete key m) (delete x ls) l).
    rewrite IH. destruct (decide (k ∈ l)) as [Hin|Hout].
    + by rewrite decide_True by (by right).
    + destruct (decide (k = x)) as [->|Hne].
      * rewrite decide_True by left. apply lookup_delete_eq.
      * rewrite decide_False by (by intros [?|?]%elem_of_cons).
        by apply lookup_delete_ne.
Qed.

Lemma clearAllCache_swept (a : App) :
  LocalCacheManager.clearAllCache a
  = (Ok tt, set_localStorage (swept (localStorage a)) a).
Proof.
  unfold LocalCacheManager.clearAllCache, LocalCacheManager.clearPendingOperations.
  cbv beta iota zeta delta [mbind JS_bind try_catch storage_keys get_app mret JS_ret].
  rewrite forEach_removeItem. js_unfold. by destruct a.
Qed.

Lemma prefix_app (p s : string) : String.prefix p (p +:+ s) = true.
Proof.
  induction p as [|c p IH]; simpl; [by destruct s|].
  destruct (Ascii.ascii_dec c c); [done|congruence].
Qed.

Lemma swept_pending (ls : gmap string Text) :
  swept ls !! LocalCacheManager.PENDING_OPS_KEY = None.
Proof. apply lookup_delete_eq. Qed.

Lemma swept_cache (ls : gmap string Text) (s : string) :
  swept ls !! (LocalCacheManager.CACHE_KEY_PREFIX +:+ s) = None.
Proof.
  unfold swept. rewrite lookup_delete_ne by done.
  rewrite lookup_removed. case_decide as Hin; [done|].
  destruct (ls !! _) as [t|] eqn:E; [|done].
  exfalso. apply Hin. apply list_elem_of_filter. split.
  - unfold is_cache_key. by rewrite prefix_app.
  - apply list_elem_of_fmap. exists (LocalCacheManager.CACHE_KEY_PREFIX +:+ s, t).
    split; [done|]. by apply elem_of_map_to_list.
Qed.

Lemma swept_absent (ls : gmap string Text) (k : string) :
  ls !! k = None → swept ls !! k = None.
Proof.
  intros E. unfold swept.
  destruct (decide (LocalCacheManager.PENDING_OPS_KEY = k)) as [<-|Hne];
    [apply lookup_delete_eq|].
  rewrite lookup_delete_ne by done. rewrite lookup_removed. by case_decide.
Qed.

Lemma handleLogout_state (a : App) :
  ∃ i, AuthUI.handleLogout a
       = (Ok tt, mkApp VNull VNull (syncStatus a) (lastSyncTime a)
                       (logged_out_store (currentUser a) (localStorage a))
                       i (listening a)).
Proof.
  unfold AuthUI.handleLogout, AuthManager.getCurrentUser, AuthManager.logout,
    AuthManager._clearSession, LocalCacheManager.clearUserCache, logged_out_store.
  cbv beta iota zeta delta [mbind JS_bind get_app mret JS_ret modify removeItem].
  simpl. destruct (truthy (opt_prop (currentUser a) "id")); simpl.
  - cbv beta iota zeta delta [try_catch removeItem modify]. simpl.
    rewrite clearAllCache_swept. simpl.
    match goal with |- context [AuthUI.updateSyncStatus ?s ?x] =>
      destruct (updateSyncStatus_page s x) as [i ->] end.
    by exists i.
  - rewrite clearAllCache_swept. simpl.
    match goal with |- context [AuthUI.updateSyncStatus ?s ?x] =>
      destruct (updateSyncStatus_page s x) as [i ->] end.
    by exists i.
Qed.

End Logout.

(** C9, amended.  [handleLogout] always completes; afterwards the token and
    the user are [null] and their two storage entries are gone,
    [getCachedData] returns the empty array for every identity id (the
    previous one included), the pending-operation log is empty, and the
    sync status of [CloudSyncManager] is what it was before the logout:
    [updateSyncStatus('idle')] repaints the indicator only. *)
Theorem C9_logout_erases_session `{Runtime} (a : App) :
  ∃ a', AuthUI.handleLogout a = (Ok tt, a') ∧
        token a' = VNull ∧ currentUser a' = VNull ∧
        localStorage a' !! AUTH_TOKEN_KEY = None ∧
        localStorage a' !! AUTH_USER_KEY = None ∧
        (∀ P, LocalCacheManager.getCachedData P a' = (Ok (VArr []), a')) ∧
        LocalCacheManager.getPendingOperations a' = (Ok (VArr []), a') ∧
        syncStatus a' = syncStatus a.
Proof.
  destruct (handleLogout_state a) as [i ->]. eexists. split; [done|]. simpl.
  repeat split.
  - apply swept_absent. case_match.
    + rewrite lookup_delete_ne by done. rewrite lookup_delete_ne by done.
      apply lookup_delete_eq.
    + rewrite lookup_delete_ne by done. apply lookup_delete_eq.
  - apply swept_absent. case_match.
    + rewrite lookup_delete_ne by done. apply lookup_delete_eq.
    + apply lookup_delete_eq.
  - intros P. rewrite getCachedData_cached. simpl. unfold cached.
    destruct (truthy P); simpl; [|done].
    unfold logged_out_store. by rewrite swept_cache.
  - rewrite getPendingOperations_pending. simpl. unfold pending, logged_out_store.
    by rewrite swept_pending.
Qed.

(** ** Mutations while the network is unreachable, and rejected deletes *)

Section MutationFrames.
Context `{Runtime}.

Lemma cache_key_not_pending (s : string) :
  LocalCacheManager.CACHE_KEY_PREFIX +:+ s ≠ LocalCacheManager.PENDING_OPS_KEY.
Proof. discriminate. Qed.

Lemma cached_enqueued (operation userId : JV) (ls : gmap string Text) :
  cached userId (enqueued operation ls) = cached userId ls.
Proof.
  unfold cached. destruct (truthy userId); simpl; [|done].
  by rewrite enqueued_other by apply cache_key_not_pending.
Qed.

Lemma pending_array_text (ls : gmap string Text) (ops : list JV) :
  pending (<[LocalCacheManager.PENDING_OPS_KEY := JSON_stringify (VArr ops)]> ls)
  = VArr (map jsonify ops).
Proof. unfold pending. by rewrite lookup_insert_eq. Qed.

End MutationFrames.

(** C3, amended.  For an authenticated session and an unreachable network,
    [uploadData] sets the status to [offline], appends an upload operation
    (type, record, timestamp) at the end of the pending-operation log and
    returns a failure result, [success: false], whose error message says the
    data was saved locally.  It does not touch the local cache: what
    [getCachedData] returns is the same before and after, for every identity
    id.  The token and the user are unchanged. *)
Theorem C3_offline_upload_is_queued `{Runtime}
    (a : App) (net : Net) (monthData : JV) (ops : list JV) :
  AuthManager.isLoggedIn a = (Ok true, a) →
  onLine net = false →
  LocalCacheManager.getPendingOperations a = (Ok (VArr ops), a) →
  ∃ a',
    CloudSyncManager.uploadData net monthData a
      = (Ok (VObj [("success", VBool false);
                   ("error", VStr "网络离线，数据已保存到本地")]), a') ∧
    syncStatus a' = offline ∧
    localStorage a'
      = <[LocalCacheManager.PENDING_OPS_KEY :=
            JSON_stringify (VArr (ops ++ [upload_op net monthData]))]> (localStorage a) ∧
    LocalCacheManager.getPendingOperations a'
      = (Ok (VArr (map jsonify (ops ++ [upload_op net monthData]))), a') ∧
    (∀ userId, (LocalCacheManager.getCachedData userId a').1
               = (LocalCacheManager.getCachedData userId a).1) ∧
    token a' = token a ∧ currentUser a' = currentUser a.
Proof.
  intros Hin Hoff Hops.
  rewrite getPendingOperations_pending in Hops. injection Hops as Hops.
  rewrite uploadData_offline by done. eexists. split; [done|]. simpl.
  rewrite painted_syncStatus, painted_token, painted_currentUser.
  split; [done|]. split; [by apply enqueued_array|].
  split.
  { rewrite getPendingOperations_pending. simpl.
    by rewrite (enqueued_array _ _ ops), pending_array_text. }
  split; [|done].
  intros userId. rewrite !getCachedData_cached. simpl. by rewrite cached_enqueued.
Qed.

(** C4, amended.  For an authenticated session and a reachable network, when
    the service answers a delete with not-found (the row does not exist or
    belongs to another identity; the table is left as it was),
    [deleteData] treats the answer as a failure: it sets the status to
    [error] and returns [success: false] with the error of the service.  It
    appends no pending operation: the store is unchanged. *)
Theorem C4_delete_not_found_is_error `{Runtime}
    (a : App) (net : Net) (monthId : JV) (userId dataId : Z) (db : Server.DB) :
  AuthManager.isLoggedIn a = (Ok true, a) →
  onLine net = true →
  Server.find_owned dataId userId db = None →
  reply net = Response (Server.body (Server.delete_data userId (Some dataId) db).1) →
  Server.delete_data userId (Some dataId) db = (Server.mkResponse 404 not_found, db) ∧
  ∃ a',
    CloudSyncManager.deleteData net monthId a
      = (Ok (VObj [("success", VBool false);
                   ("error", VStr "数据不存在或无权限删除")]), a') ∧
    syncStatus a' = error ∧
    localStorage a' = localStorage a.
Proof.
  intros Hin Hon Hnone Hr.
  assert (Server.delete_data userId (Some dataId) db = (Server.mkResponse 404 not_found, db))
    as Hd by (unfold Server.delete_data; by rewrite Hnone).
  split; [done|]. rewrite Hd in Hr. simpl in Hr.
  rewrite (deleteData_rejected net monthId not_found (VBool false)) by done.
  eexists. split; [done|].
  by rewrite painted_syncStatus, !painted_localStorage.
Qed.

(** ** Downloading while the network is reachable *)


(** C7, amended.  For an authenticated session, whatever the local store
    holds, when the service answers the download with success and a list of
    records (JSON objects), [downloadAllData] returns that list and sets the
    status to [idle].  When the identity of the session has an id (a truthy
    one), it replaces the cache entry of the identity by the JSON text of
    exactly that list, so that nothing of the previous entry is kept, and
    [getCachedData] then returns those records, each with its [importedAt]
    read back as a date.  When the identity has no id, or the id 0, the
    guard [if (userId)] skips the write: the store is what it was and the
    cache of the identity reads empty. *)
Theorem C7_cloud_wins_on_download `{Runtime}
    (a : App) (net : Net) (result s : JV) (records : list JV) :
  AuthManager.isLoggedIn a = (Ok true, a) →
  onLine net = true →
  reply net = Response result →
  prop result "success" = Ok s → truthy s = true →
  opt_prop result "data" = VArr records →
  forallb is_record records = true →
  let userId := opt_prop (currentUser a) "id" in
  ∃ a',
    CloudSyncManager.downloadAllData net a
      = (Ok (VObj [("success", VBool true); ("data", VArr records)]), a') ∧
    syncStatus a' = idle ∧
    if truthy userId then
      localStorage a'
        = <[LocalCacheManager.CACHE_KEY_PREFIX +:+ js_to_string userId
            := JsonText (VArr records)]> (localStorage a) ∧
      LocalCacheManager.getCachedData userId a' = (Ok (VArr (revived <$> records)), a')
    else
      localStorage a' = localStorage a ∧
      LocalCacheManager.getCachedData userId a' = (Ok (VArr []), a').
Proof.
  intros Hin Hon Hr Hs Ht Hdata Hrec userId.
  destruct (cache_text_records records Hrec) as (mapped & Hmap & Hj & Htext).
  destruct (prop_opt _ _ _ "data" Hs) as [_ Hd]. rewrite Hdata in Hd.
  unfold CloudSyncManager.downloadAllData, CloudSyncManager.isOnline.
  js_bind. rewrite Hin, Hon. simpl. js_bind.
  rewrite setSyncStatus_painted. unfold fetch_json. rewrite Hr.
  cbv beta iota zeta delta [mbind mret JS_bind JS_ret try_catch lift].
  rewrite Hs, Ht. rewrite setSyncStatus_painted.
  unfold AuthManager.getCurrentUser, LocalCacheManager.cacheData.
  cbv beta iota zeta delta
    [mbind mret JS_bind JS_ret try_catch lift modify get_app setItem].
  simpl. rewrite !painted_currentUser. fold userId. rewrite Hd.
  destruct (truthy userId) eqn:Hid; simpl.
  - cbv beta iota zeta delta
      [mbind mret JS_bind JS_ret try_catch lift modify get_app setItem].
    change (js_or (VArr records) (VArr [])) with (VArr records).
    rewrite Hmap. simpl. rewrite Hj. rewrite !painted_localStorage.
    eexists. split; [done|]. simpl.
    rewrite !painted_syncStatus. split; [done|]. split; [done|].
    rewrite getCachedData_cached. simpl. f_equal. f_equal.
    unfold cached. rewrite Hid. simpl. rewrite lookup_insert_eq. simpl.
    by rewrite with_date_records.
  - eexists. split; [done|]. simpl.
    rewrite !painted_syncStatus, !painted_localStorage. split; [done|]. split; [done|].
    rewrite getCachedData_cached. unfold cached. by rewrite Hid.
Qed.

(** ** Login *)

Section Login.
Context `{Runtime}.

Lemma valid_username_nonempty (u : string) :
  truthy (opt_prop (AuthManager.validateUsername (VStr u)) "valid") = true →
  String.eqb (trim u) "" = false.
Proof.
  unfold AuthManager.validateUsername. simpl.
  destruct (String.eqb u ""); simpl; [done|].
  destruct (trim u); simpl; [done|]. done.
Qed.

Lemma valid_password_nonempty (p : string) :
  truthy (opt_prop (AuthManager.validatePassword (VStr p)) "valid") = true →
  String.eqb p "" = false.
Proof.
  unfold AuthManager.validatePassword. simpl.
  by destruct (String.eqb p "").
Qed.

(** The client's part of a login that the service refuses. *)
Lemma login_refused (net : Net) (u p : string) (e : JV) (a : App) :
  truthy (opt_prop (AuthManager.validateUsername (VStr u)) "valid") = true →
  truthy (opt_prop (AuthManager.validatePassword (VStr p)) "valid") = true →
  reply net = Response (failure e) →
  AuthManager.login net (VStr u) (VStr p) a
  = (Ok (failure (js_or e (VStr "登录失败"))), a).
Proof.
  intros Hu Hp Hr. unfold AuthManager.login. rewrite Hu, Hp. simpl.
  unfold fetch_json. rewrite Hr. by js_unfold.
Qed.

End Login.


(** ** Replaying the log: what a run leaves behind *)

Section Requeue.
Context `{Runtime}.

Lemma log_is_requeued (a b : App) (cur : list JV) (x : JV) :
  log_is a cur → forallb is_json cur = true → localStorage b = localStorage a →
  log_is (set_localStorage (enqueued x (localStorage a)) b) (cur ++ [jsonify x]).
Proof.
  intros Hlog Hj Hb.
  pose proof (log_is_enqueued a b cur x Hlog Hb) as Hl.
  by rewrite map_app, jsonify_all_json in Hl.
Qed.

Lemma unanswered_online (net : Net) :
  onLine net = true →
  unanswered net = true →
  reply net = NetworkError ∨
  ∃ data e, reply net = Response data ∧ prop data "success" = Throw e.
Proof.
  unfold unanswered. intros ->. simpl.
  destruct (reply net) as [data|]; [|by left].
  destruct (prop data "success") eqn:E; [done|]. right. eauto.
Qed.

(** One replayed mutation, with the log it leaves. *)
Lemma uploadData_requeues (net : Net) (monthData : JV) (a : App) (cur : list JV) :
  AuthManager.isLoggedIn a = (Ok true, a) →
  log_is a cur → forallb is_json cur = true →
  ∃ b rest a',
    CloudSyncManager.uploadData net monthData a
      = (Ok (VObj (("success", VBool b) :: rest)), a') ∧
    AuthManager.isLoggedIn a' = (Ok true, a') ∧
    log_is a' (cur ++ (if unanswered net then [jsonify (upload_op net monthData)] else [])) ∧
    (unanswered net = true → b = false).
Proof.
  intros Hin Hlog Hj. unfold unanswered.
  destruct (onLine net) eqn:Hon; simpl.
  - destruct (reply net) as [data|] eqn:Hr.
    + destruct (prop data "success") as [s|e] eqn:Hs.
      * destruct (truthy s) eqn:Ht.
        -- rewrite (uploadData_accepted net monthData data s) by done.
           eexists true, _, _. split; [done|]. rewrite app_nil_r.
           split; [|split; [|done]].
           ++ eapply isLoggedIn_same; [| |exact Hin]; simpl;
                by rewrite ?painted_token, ?painted_currentUser.
           ++ unfold log_is. simpl. by rewrite !painted_localStorage.
        -- rewrite (uploadData_rejected net monthData data s) by done.
           eexists false, _, _. split; [done|]. rewrite app_nil_r.
           split; [|split; [|done]].
           ++ by do 2 apply isLoggedIn_painted.
           ++ unfold log_is. by rewrite !painted_localStorage.
      * rewrite uploadData_caught by eauto.
        eexists false, _, _. split; [done|]. split; [|split; [|done]].
        -- eapply isLoggedIn_same; [| |exact Hin]; simpl;
             by rewrite ?painted_token, ?painted_currentUser.
        -- apply log_is_requeued; [done|done|]. by rewrite !painted_localStorage.
    + rewrite uploadData_caught by eauto.
      eexists false, _, _. split; [done|]. split; [|split; [|done]].
      * eapply isLoggedIn_same; [| |exact Hin]; simpl;
          by rewrite ?painted_token, ?painted_currentUser.
      * apply log_is_requeued; [done|done|]. by rewrite !painted_localStorage.
  - rewrite uploadData_offline by done.
    eexists false, _, _. split; [done|]. split; [|split; [|done]].
    + eapply isLoggedIn_same; [| |exact Hin]; simpl;
        by rewrite ?painted_token, ?painted_currentUser.
    + apply log_is_requeued; [done|done|]. by rewrite painted_localStorage.
Qed.

Lemma deleteData_requeues (net : Net) (monthId : JV) (a : App) (cur : list JV) :
  AuthManager.isLoggedIn a = (Ok true, a) →
  log_is a cur → forallb is_json cur = true →
  ∃ b rest a',
    CloudSyncManager.deleteData net monthId a
      = (Ok (VObj (("success", VBool b) :: rest)), a') ∧
    AuthManager.isLoggedIn a' = (Ok true, a') ∧
    log_is a' (cur ++ (if unanswered net then [jsonify (delete_op net monthId)] else [])) ∧
    (unanswered net = true → b = false).
Proof.
  intros Hin Hlog Hj. unfold unanswered.
  destruct (onLine net) eqn:Hon; simpl.
  - destruct (reply net) as [data|] eqn:Hr.
    + destruct (prop data "success") as [s|e] eqn:Hs.
      * destruct (truthy s) eqn:Ht.
        -- rewrite (deleteData_accepted net monthId data s) by done.
           eexists true, _, _. split; [done|]. rewrite app_nil_r.
           split; [|split; [|done]].
           ++ eapply isLoggedIn_same; [| |exact Hin]; simpl;
                by rewrite ?painted_token, ?painted_currentUser.
           ++ unfold log_is. simpl. by rewrite !painted_localStorage.
        -- rewrite (deleteData_rejected net monthId data s) by done.
           eexists false, _, _. split; [done|]. rewrite app_nil_r.
           split; [|split; [|done]].
           ++ by do 2 apply isLoggedIn_painted.
           ++ unfold log_is. by rewrite !painted_localStorage.
      * rewrite deleteData_caught by eauto.
        eexists false, _, _. split; [done|]. split; [|split; [|done]].
        -- eapply isLoggedIn_same; [| |exact Hin]; simpl;
             by rewrite ?painted_token, ?painted_currentUser.
        -- apply log_is_requeued; [done|done|]. by rewrite !painted_localStorage.
    + rewrite deleteData_caught by eauto.
      eexists false, _, _. split; [done|]. split; [|split; [|done]].
      * eapply isLoggedIn_same; [| |exact Hin]; simpl;
          by rewrite ?painted_token, ?painted_currentUser.
      * apply log_is_requeued; [done|done|]. by rewrite !painted_localStorage.
  - rewrite deleteData_offline by done.
    eexists false, _, _. split; [done|]. split; [|split; [|done]].
    + eapply isLoggedIn_same; [| |exact Hin]; simpl;
        by rewrite ?painted_token, ?painted_currentUser.
    + apply log_is_requeued; [done|done|]. by rewrite painted_localStorage.
Qed.

(** One turn of the loop in an authenticated session: the log grows by
    exactly what [requeued_op] says, and every operation that is appended
    is counted as failed. *)
Lemma replay_op_requeues (net : Net) (op : JV) (c : Z * Z) (a : App) (cur : list JV) :
  AuthManager.isLoggedIn a = (Ok true, a) →
  log_is a cur → forallb is_json cur = true →
  ∃ c' a',
    CloudSyncManager.replay_op net op c a = (Ok c', a') ∧
    AuthManager.isLoggedIn a' = (Ok true, a') ∧
    log_is a' (cur ++ map jsonify (requeued_op net op)) ∧
    c.1 ≤ c'.1 ∧
    c.2 + Z.of_nat (length (requeued_op net op)) ≤ c'.2 ∧
    c'.1 + c'.2 ≤ c.1 + c.2 + 1.
Proof.
  intros Hin Hlog Hj. unfold CloudSyncManager.replay_op, requeued_op.
  cbv beta iota zeta delta [mbind JS_bind try_catch lift mret JS_ret].
  destruct (prop op "type") as [type|e] eqn:Ht.
  2:{ assert (opt_prop op "type" = VUndef) as -> by (unfold opt_prop; by rewrite Ht).
      exists (c.1, c.2 + 1), a. simpl.
      destruct (unanswered net); simpl; rewrite app_nil_r; repeat split; try done; lia. }
  destruct (prop_opt _ _ _ "data" Ht) as [-> Hdata].
  destruct (prop_opt _ _ _ "monthId" Ht) as [_ Hmonth].
  destruct (is_str (opt_prop op "type") "upload").
  - rewrite Hdata.
    destruct (uploadData_requeues net (opt_prop op "data") a cur Hin Hlog Hj)
      as (b & rest & a' & -> & Hin' & Hlog' & Hb).
    simpl. exists (if b then (c.1 + 1, c.2) else (c.1, c.2 + 1)), a'.
    split; [by destruct b|]. split; [done|].
    destruct (unanswered net); simpl in *.
    + rewrite (Hb eq_refl). simpl. repeat split; try done; lia.
    + destruct b; simpl; repeat split; try done; lia.
  - destruct (is_str (opt_prop op "type") "delete").
    + rewrite Hmonth.
      destruct (deleteData_requeues net (opt_prop op "monthId") a cur Hin Hlog Hj)
        as (b & rest & a' & -> & Hin' & Hlog' & Hb).
      simpl. exists (if b then (c.1 + 1, c.2) else (c.1, c.2 + 1)), a'.
      split; [by destruct b|]. split; [done|].
      destruct (unanswered net); simpl in *.
      * rewrite (Hb eq_refl). simpl. repeat split; try done; lia.
      * destruct b; simpl; repeat split; try done; lia.
    + exists c, a. split; [done|]. split; [done|].
      destruct (unanswered net); simpl; rewrite app_nil_r; repeat split; try done; lia.
Qed.

(** The whole loop. *)
Lemma replay_requeues (nets : nat → Net) (ops : list JV) :
  ∀ (i : nat) (c : Z * Z) (a : App) (cur : list JV),
    AuthManager.isLoggedIn a = (Ok true, a) →
    log_is a cur → forallb is_json cur = true →
    ∃ c' a',
      CloudSyncManager.replay nets i ops c a = (Ok c', a') ∧
      AuthManager.isLoggedIn a' = (Ok true, a') ∧
      log_is a' (cur ++ map jsonify (requeued nets i ops)) ∧
      c.1 ≤ c'.1 ∧
      c.2 + Z.of_nat (length (requeued nets i ops)) ≤ c'.2 ∧
      c'.1 + c'.2 ≤ c.1 + c.2 + Z.of_nat (length ops).
Proof.
  induction ops as [|op ops IH]; intros i c a cur Hin Hlog Hj.
  - exists c, a. simpl. rewrite app_nil_r. repeat split; try done; lia.
  - simpl. cbv beta iota zeta delta [mbind JS_bind].
    destruct (replay_op_requeues (nets i) op c a cur Hin Hlog Hj)
      as (c1 & a1 & -> & Hin1 & Hlog1 & H1 & H2 & H3).
    assert (forallb is_json (cur ++ map jsonify (requeued_op (nets i) op)) = true) as Hj1
      by (by rewrite forallb_app, Hj, all_json_jsonify).
    destruct (IH (S i) c1 a1 _ Hin1 Hlog1 Hj1)
      as (c' & a' & -> & Hin' & Hlog' & H4 & H5 & H6).
    exists c', a'. split; [done|]. split; [done|].
    rewrite map_app, app_assoc, length_app. split; [done|]. lia.
Qed.

End Requeue.

(** C2, amended.  A replayed operation goes through [uploadData] or
    [deleteData] like any other mutation, enqueue-on-failure branch
    included.  In an authenticated session, on a stored, non-empty log of
    JSON values and a network that is reachable when the run starts: each
    replayed upload or delete whose call gets no answer (the network has
    become unreachable, the request fails, or the answer cannot be read) is
    appended to the log again, as JSON and with the time of the call, and is
    counted as failed.  When the loop ends, the log holds the operations it
    held, followed by those operations in the order of the replay.  The run
    completes and counts each operation at most once; when no replayed
    operation succeeded, that log is the log it leaves. *)
Theorem C2_replay_appends_on_failure `{Runtime}
    (a : App) (net : Net) (nets : nat → Net) (ops : list JV) :
  AuthManager.isLoggedIn a = (Ok true, a) →
  localStorage a !! LocalCacheManager.PENDING_OPS_KEY = Some (JsonText (VArr ops)) →
  ops ≠ [] →
  forallb is_json ops = true →
  onLine net = true →
  let again := map jsonify (requeued nets 0 ops) in
  ∃ synced failed a1 a',
    CloudSyncManager.replay nets 0 ops (0, 0) (painted syncing a)
      = (Ok (synced, failed), a1) ∧
    LocalCacheManager.getPendingOperations a1 = (Ok (VArr (ops ++ again)), a1) ∧
    CloudSyncManager.syncPendingOperations net nets a
      = (Ok (CloudSyncManager.sync_result (failed =? 0) synced failed), a') ∧
    0 ≤ synced ∧ Z.of_nat (length again) ≤ failed ∧
    synced + failed ≤ Z.of_nat (length ops) ∧
    syncStatus a' = (if 0 <? failed then error else idle) ∧
    (synced = 0 →
     LocalCacheManager.getPendingOperations a' = (Ok (VArr (ops ++ again)), a')).
Proof.
  intros Hin Hlog Hne Hj Hon again.
  destruct (syncPendingOperations_run a net nets ops Hlog Hne Hon)
    as (c & a1 & cur & Hloop & _ & _ & _ & _ & _ & Hrun).
  assert (log_is (painted syncing a) ops) as Hlog0
    by (unfold log_is; by rewrite painted_localStorage).
  destruct (replay_requeues nets ops 0%nat (0, 0) _ ops
              (isLoggedIn_painted syncing a true Hin) Hlog0 Hj)
    as (c' & a1' & Hloop' & _ & Hlog1 & H1 & H2 & H3).
  rewrite Hloop in Hloop'. injection Hloop' as <- <-.
  simpl in H1, H2, H3.
  eexists c.1, c.2, a1, _. split; [by destruct c|].
  assert (LocalCacheManager.getPendingOperations a1 = (Ok (VArr (ops ++ again)), a1))
    as Hpend by (by rewrite getPendingOperations_pending, (log_is_pending a1 _ Hlog1)).
  split; [exact Hpend|]. split; [exact Hrun|].
  split; [lia|]. split; [unfold again; rewrite length_map; lia|]. split; [lia|].
  rewrite painted_syncStatus. split; [done|].
  intros Hz. rewrite Hz. simpl.
  rewrite getPendingOperations_pending, painted_localStorage.
  by rewrite (log_is_pending a1 _ Hlog1).
Qed.

(** ** The upsert of [POST /api/data] *)

Section Upsert.
Context `{Runtime}.

Lemma filter_fmap_same {A : Type} (P : A → Prop) `{!∀ x, Decision (P x)}
    (f : A → A) (l : list A) :
  (∀ x, P (f x) ↔ P x) → filter P (f <$> l) = f <$> filter P l.
Proof.
  intros Hf. induction l as [|x l IH]; [done|].
  rewrite fmap_cons, !filter_cons, IH.
  destruct (decide (P x)) as [Hx|Hx].
  - by rewrite decide_True by by apply Hf.
  - by rewrite decide_False by (by rewrite Hf).
Qed.

Lemma ids_below_next (db : Server.DB) (r : Server.SalesRow) :
  r ∈ Server.sales_data db → Server.s_id r < Server.next_id db.
Proof.
  unfold Server.next_id. generalize (Server.sales_seq db).
  induction (Server.sales_data db) as [|x l IH]; intros seq Hin.
  - by apply not_elem_of_nil in Hin.
  - rewrite fmap_cons. cbn [foldr].
    apply elem_of_cons in Hin as [->|Hin]; [lia|].
    specialize (IH seq Hin). lia.
Qed.










End Upsert.

Section UpsertTwice.
Context `{Runtime}.


(** A request is refused whatever the table and the time, or it is the
    upsert of the fields of its body, with the colour as it is stored. *)
Lemma post_data_cases (userId : Z) (req_body : JV) :
  (∃ resp, (Server.status resp = 400 ∨ Server.status resp = 500) ∧
           ∀ t d, Server.post_data userId req_body t d = (resp, d)) ∨
  (∃ monthId name color config grouped raw,
     ∀ t d, Server.post_data userId req_body t d
            = upsert userId monthId name color config grouped raw t d).
Proof.
  destruct req_body as [ | |b|n|s|t|l|fs];
    try (left; eexists; split; [|intros t' d; reflexivity]; simpl; auto).
  destruct (negb (truthy (get_field fs "monthId"))
            || negb (typeof_string (get_field fs "monthId"))) eqn:E1.
  { left. eexists.
    split; [|intros t d; unfold Server.post_data; simpl; rewrite E1; reflexivity].
    simpl; auto. }
  destruct (negb (truthy (get_field fs "monthName"))
            || negb (typeof_string (get_field fs "monthName"))) eqn:E2.
  { left. eexists.
    split; [|intros t d; unfold Server.post_data; simpl; rewrite E1, E2; reflexivity].
    simpl; auto. }
  destruct (Server.bound_text (js_or (get_field fs "color") (VStr "#4A90A4")))
    as [stored|e] eqn:Ec.
  2:{ left. exists Server.server_error. split; [simpl; auto|].
      intros t d. unfold Server.post_data. simpl. rewrite E1, E2, Ec.
      by destruct (Server.find_month _ _ d). }
  right.
  exists (as_string (get_field fs "monthId")), (as_string (get_field fs "monthName")),
    stored,
    (JSON_stringify (js_or (get_field fs "config") (VObj []))),
    (JSON_stringify (js_or (get_field fs "groupedData") (VArr []))),
    (JSON_stringify (js_or (get_field fs "rawData") (VArr []))).
  intros t d. unfold Server.post_data, upsert. simpl. rewrite E1, E2, Ec.
  by destruct (Server.find_month _ _ d).
Qed.



End UpsertTwice.


(** The body the browser posts wraps the record in [monthData], while the
    route reads [monthId] and [monthName] from the top of the body: an
    upload by [uploadData] is answered 400 and stores nothing. *)
Remark wrapped_record_is_refused `{Runtime} (userId : Z) (monthData : JV) (t : Z)
    (db : Server.DB) :
  Server.post_data userId (upload_request monthData) t db
  = (Server.mkResponse 400 (failure (VStr "月份ID不能为空")), db).
Proof. unfold upload_request, Server.post_data. by destruct monthData. Qed.

(** * Further properties of the code *)

(** ** Credentials and the session of [AuthManager] *)

Section Credentials.
Context `{Runtime}.

Lemma length_eqb_0 (s : string) :
  (Z.of_nat (String.length s) =? 0) = String.eqb s "".
Proof. by destruct s. Qed.

Lemma eqb_empty_false (s : string) : String.eqb s "" = false ↔ s ≠ "".
Proof.
  split.
  - intros E ->. done.
  - intros Hne. destruct s; [done|done].
Qed.

Lemma validateUsername_valid (username : JV) :
  truthy (opt_prop (AuthManager.validateUsername username) "valid") = true ↔
  ∃ s, username = VStr s ∧ s ≠ "" ∧ trim s ≠ "".
Proof.
  unfold AuthManager.validateUsername. split.
  - destruct username as [ | |b|n|s|t|l|fs]; simpl; try done;
      try (by destruct b); try (by destruct (n =? 0)).
    rewrite length_eqb_0.
    destruct (String.eqb s "") eqn:Es; simpl; [done|].
    destruct (String.eqb (trim s) "") eqn:Et; simpl; [done|].
    intros _. exists s. by rewrite <- !eqb_empty_false.
  - intros (s & -> & Hs%eqb_empty_false & Ht%eqb_empty_false). simpl.
    by rewrite length_eqb_0, Hs, Ht.
Qed.

Lemma validatePassword_valid (password : JV) :
  truthy (opt_prop (AuthManager.validatePassword password) "valid") = true ↔
  ∃ s, password = VStr s ∧ (6 ≤ js_length s)%nat.
Proof.
  unfold AuthManager.validatePassword. split.
  - destruct password as [ | |b|n|s|t|l|fs]; simpl; try done;
      try (by destruct b); try (by destruct (n =? 0)).
    destruct (String.eqb s "") eqn:Es; simpl; [done|].
    destruct (Z.of_nat (js_length s) <? 6) eqn:El; simpl; [done|].
    intros _. exists s. split; [done|]. apply Z.ltb_ge in El. lia.
  - intros (s & -> & Hs). simpl.
    assert (String.eqb s "" = false) as -> by (destruct s; [simpl in Hs; lia|done]).
    simpl. assert ((Z.of_nat (js_length s) <? 6) = false) as ->; [|done].
    apply Z.ltb_ge. lia.
Qed.

End Credentials.

(** [login] and [register] check their arguments before anything else.  A
    user name passes when it is a string that is not empty and not blank
    after [trim]; a password passes when it is a string whose [length],
    its number of UTF-16 code units, is at least six.  With an argument
    that does not pass, both return the message of the failed check, send
    no request (the result is the same for every network) and leave the
    state as it was. *)
Theorem invalid_credentials_stay_local `{Runtime}
    (net : Net) (username password : JV) (a : App) :
  let ok_u := truthy (opt_prop (AuthManager.validateUsername username) "valid") in
  let ok_p := truthy (opt_prop (AuthManager.validatePassword password) "valid") in
  (ok_u = true ↔ ∃ s, username = VStr s ∧ s ≠ "" ∧ trim s ≠ "") ∧
  (ok_p = true ↔ ∃ s, password = VStr s ∧ (6 ≤ js_length s)%nat) ∧
  (ok_u && ok_p = false →
   ∃ e, e = (if ok_u then "密码长度至少6位" else "请输入有效用户名") ∧
        AuthManager.login net username password a = (Ok (failure (VStr e)), a) ∧
        AuthManager.register net username password a = (Ok (failure (VStr e)), a)).
Proof.
  cbv zeta. split; [apply validateUsername_valid|]. split; [apply validatePassword_valid|].
  intros Hbad. unfold AuthManager.login, AuthManager.register.
  destruct (truthy (opt_prop (AuthManager.validateUsername username) "valid")) eqn:Hu; simpl.
  - simpl in Hbad. rewrite Hbad. simpl. eexists. split; [done|].
    unfold AuthManager.validatePassword in *.
    destruct (negb (truthy password) || negb (typeof_string password)); [done|].
    by destruct (Z.of_nat (js_length (as_string password)) <? 6).
  - eexists. split; [done|].
    unfold AuthManager.validateUsername in *.
    destruct (negb (truthy username) || negb (typeof_string username)); [done|].
    by destruct (Z.of_nat (String.length (trim (as_string username))) =? 0).
Qed.

Section Session.
Context `{Runtime}.

Lemma saveSession_saved (a : App) :
  AuthManager._saveSession a
  = (Ok tt, set_localStorage (saved_session (token a) (currentUser a) (localStorage a)) a).
Proof.
  unfold AuthManager._saveSession, saved_session. js_unfold.
  destruct (truthy (token a)), (truthy (currentUser a)); simpl; try done;
    by destruct a.
Qed.

Lemma saved_session_other (tok user : JV) (ls : gmap string Text) (k : string) :
  k ≠ AUTH_TOKEN_KEY → k ≠ AUTH_USER_KEY → saved_session tok user ls !! k = ls !! k.
Proof.
  intros H1 H2. unfold saved_session.
  destruct (truthy tok), (truthy user);
    rewrite ?lookup_insert_ne by done; done.
Qed.

Lemma saved_session_token (tok user : JV) (ls : gmap string Text) :
  truthy tok = true →
  saved_session tok user ls !! AUTH_TOKEN_KEY = Some (Raw (js_to_string tok)).
Proof.
  intros Ht. unfold saved_session. rewrite Ht.
  destruct (truthy user); [rewrite lookup_insert_ne by done|]; apply lookup_insert_eq.
Qed.

Lemma saved_session_user (tok user : JV) (ls : gmap string Text) :
  truthy user = true →
  saved_session tok user ls !! AUTH_USER_KEY = Some (JsonText (jsonify user)).
Proof.
  intros Hu. unfold saved_session. rewrite Hu. rewrite lookup_insert_eq.
  by destruct user.
Qed.

(** The state [login] reaches on an answer that carries a success flag and
    a token. *)
Lemma login_accepted (net : Net) (username password data s : JV) (a : App) :
  truthy (opt_prop (AuthManager.validateUsername username) "valid") = true →
  truthy (opt_prop (AuthManager.validatePassword password) "valid") = true →
  reply net = Response data →
  prop data "success" = Ok s → truthy s = true →
  truthy (opt_prop data "token") = true →
  AuthManager.login net username password a
  = (Ok (VObj [("success", VBool true)]),
     mkApp (opt_prop data "token") (opt_prop data "user") (syncStatus a) (lastSyncTime a)
           (saved_session (opt_prop data "token") (opt_prop data "user") (localStorage a))
           (indicator a) (listening a)).
Proof.
  intros Hu Hp Hr Hs Hts Ht. unfold AuthManager.login. rewrite Hu, Hp. simpl.
  unfold fetch_json. rewrite Hr.
  destruct (prop_opt _ _ _ "token" Hs) as [_ Htok].
  destruct (prop_opt _ _ _ "user" Hs) as [_ Huser].
  cbv beta iota zeta delta [mbind mret JS_bind JS_ret try_catch lift modify].
  rewrite Hs, Hts, Htok, Ht, Huser. rewrite saveSession_saved. done.
Qed.

Lemma register_accepted (net : Net) (username password data s : JV) (a : App) :
  truthy (opt_prop (AuthManager.validateUsername username) "valid") = true →
  truthy (opt_prop (AuthManager.validatePassword password) "valid") = true →
  reply net = Response data →
  prop data "success" = Ok s → truthy s = true →
  truthy (opt_prop data "token") = true →
  let user := js_or (opt_prop data "user")
                    (VObj [("username", VStr (trim (as_string username)))]) in
  AuthManager.register net username password a
  = (Ok (VObj [("success", VBool true)]),
     mkApp (opt_prop data "token") user (syncStatus a) (lastSyncTime a)
           (saved_session (opt_prop data "token") user (localStorage a))
           (indicator a) (listening a)).
Proof.
  intros Hu Hp Hr Hs Hts Ht. cbv zeta. unfold AuthManager.register. rewrite Hu, Hp. simpl.
  unfold fetch_json. rewrite Hr.
  destruct (prop_opt _ _ _ "token" Hs) as [_ Htok].
  destruct (prop_opt _ _ _ "user" Hs) as [_ Huser].
  cbv beta iota zeta delta [mbind mret JS_bind JS_ret try_catch lift modify].
  rewrite Hs, Hts, Htok, Ht, Huser. rewrite saveSession_saved. done.
Qed.

Lemma login_refused_any (net : Net) (username password data s : JV) (a : App) :
  truthy (opt_prop (AuthManager.validateUsername username) "valid") = true →
  truthy (opt_prop (AuthManager.validatePassword password) "valid") = true →
  reply net = Response data →
  prop data "success" = Ok s →
  truthy s && truthy (opt_prop data "token") = false →
  AuthManager.login net username password a
  = (Ok (failure (js_or (opt_prop data "error") (VStr "登录失败"))), a).
Proof.
  intros Hu Hp Hr Hs Hno. unfold AuthManager.login. rewrite Hu, Hp. simpl.
  unfold fetch_json. rewrite Hr.
  destruct (prop_opt _ _ _ "token" Hs) as [_ Htok].
  destruct (prop_opt _ _ _ "error" Hs) as [_ Herr].
  cbv beta iota zeta delta [mbind mret JS_bind JS_ret try_catch lift modify].
  rewrite Hs. destruct (truthy s) eqn:Hts; simpl in Hno.
  - by rewrite Htok, Hno, Herr.
  - by rewrite Hts, Herr.
Qed.

Lemma register_refused_any (net : Net) (username password data s : JV) (a : App) :
  truthy (opt_prop (AuthManager.validateUsername username) "valid") = true →
  truthy (opt_prop (AuthManager.validatePassword password) "valid") = true →
  reply net = Response data →
  prop data "success" = Ok s →
  truthy s && truthy (opt_prop data "token") = false →
  AuthManager.register net username password a
  = (Ok (failure (js_or (opt_prop data "error") (VStr "注册失败"))), a).
Proof.
  intros Hu Hp Hr Hs Hno. unfold AuthManager.register. rewrite Hu, Hp. simpl.
  unfold fetch_json. rewrite Hr.
  destruct (prop_opt _ _ _ "token" Hs) as [_ Htok].
  destruct (prop_opt _ _ _ "error" Hs) as [_ Herr].
  cbv beta iota zeta delta [mbind mret JS_bind JS_ret try_catch lift modify].
  rewrite Hs. destruct (truthy s) eqn:Hts; simpl in Hno.
  - by rewrite Htok, Hno, Herr.
  - by rewrite Hts, Herr.
Qed.

Lemma login_caught (net : Net) (username password : JV) (a : App) :
  truthy (opt_prop (AuthManager.validateUsername username) "valid") = true →
  truthy (opt_prop (AuthManager.validatePassword password) "valid") = true →
  (reply net = NetworkError ∨
   ∃ data e, reply net = Response data ∧ prop data "success" = Throw e) →
  AuthManager.login net username password a
  = (Ok (failure (VStr "网络错误，请稍后重试")), a).
Proof.
  intros Hu Hp Hr. unfold AuthManager.login. rewrite Hu, Hp. simpl.
  unfold fetch_json. destruct Hr as [->|(data & e & -> & He)]; js_unfold; [done|].
  by rewrite He.
Qed.

Lemma register_caught (net : Net) (username password : JV) (a : App) :
  truthy (opt_prop (AuthManager.validateUsername username) "valid") = true →
  truthy (opt_prop (AuthManager.validatePassword password) "valid") = true →
  (reply net = NetworkError ∨
   ∃ data e, reply net = Response data ∧ prop data "success" = Throw e) →
  AuthManager.register net username password a
  = (Ok (failure (VStr "网络错误，请稍后重试")), a).
Proof.
  intros Hu Hp Hr. unfold AuthManager.register. rewrite Hu, Hp. simpl.
  unfold fetch_json. destruct Hr as [->|(data & e & -> & He)]; js_unfold; [done|].
  by rewrite He.
Qed.

End Session.

(** What [login] does with credentials that pass the local checks.  It
    never throws, and it leaves the sync status and every stored entry but
    the two of the session alone.  On an answer with a truthy success flag
    and a truthy token it takes the token and the user of the answer, stores
    the token as it is and the user as JSON, and returns success.  On every
    other answer it returns a failure, with the error of the answer or the
    default message, and on a request that fails (or a [null] body) the
    network message; the state is then exactly what it was. *)
Theorem login_outcomes `{Runtime} (net : Net) (username password : JV) (a : App) :
  truthy (opt_prop (AuthManager.validateUsername username) "valid") = true →
  truthy (opt_prop (AuthManager.validatePassword password) "valid") = true →
  ∃ r a',
    AuthManager.login net username password a = (Ok r, a') ∧
    (∀ k, k ≠ AUTH_TOKEN_KEY → k ≠ AUTH_USER_KEY →
          localStorage a' !! k = localStorage a !! k) ∧
    syncStatus a' = syncStatus a ∧ lastSyncTime a' = lastSyncTime a ∧
    match reply net with
    | Response data =>
        match prop data "success" with
        | Ok s =>
            if truthy s && truthy (opt_prop data "token") then
              r = VObj [("success", VBool true)] ∧
              token a' = opt_prop data "token" ∧
              currentUser a' = opt_prop data "user" ∧
              localStorage a' !! AUTH_TOKEN_KEY
                = Some (Raw (js_to_string (opt_prop data "token"))) ∧
              (if truthy (opt_prop data "user")
               then localStorage a' !! AUTH_USER_KEY
                    = Some (JsonText (jsonify (opt_prop data "user")))
               else localStorage a' !! AUTH_USER_KEY = localStorage a !! AUTH_USER_KEY)
            else
              r = failure (js_or (opt_prop data "error") (VStr "登录失败")) ∧ a' = a
        | Throw _ => r = failure (VStr "网络错误，请稍后重试") ∧ a' = a
        end
    | NetworkError => r = failure (VStr "网络错误，请稍后重试") ∧ a' = a
    end.
Proof.
  intros Hu Hp. destruct (reply net) as [data|] eqn:Hr.
  - destruct (prop data "success") as [s|e] eqn:Hs.
    + destruct (truthy s && truthy (opt_prop data "token")) eqn:Hok.
      * apply andb_true_iff in Hok as [Hts Ht].
        rewrite (login_accepted net username password data s) by done.
        eexists _, _. split; [done|]. simpl.
        split; [intros k H1 H2; by apply saved_session_other|].
        split; [done|]. split; [done|]. split; [done|]. split; [done|]. split; [done|].
        split; [by apply saved_session_token|].
        destruct (truthy (opt_prop data "user")) eqn:Hus.
        -- by apply saved_session_user.
        -- unfold saved_session. rewrite Ht, Hus. by rewrite lookup_insert_ne.
      * rewrite (login_refused_any net username password data s) by done.
        eexists _, _. split; [done|]. done.
    + rewrite login_caught by eauto. eexists _, _. split; [done|]. done.
  - rewrite login_caught by eauto. eexists _, _. split; [done|]. done.
Qed.

(** [register] with credentials that pass the local checks behaves like
    [login], with one difference on success: when the answer carries no
    user, the current user becomes an object with the trimmed user name, so
    that after a successful registration the session always holds a user
    and [isLoggedIn] is true.  On every other answer the state is what it
    was. *)
Theorem register_outcomes `{Runtime} (net : Net) (username password : JV) (a : App) :
  truthy (opt_prop (AuthManager.validateUsername username) "valid") = true →
  truthy (opt_prop (AuthManager.validatePassword password) "valid") = true →
  ∃ r a',
    AuthManager.register net username password a = (Ok r, a') ∧
    (∀ k, k ≠ AUTH_TOKEN_KEY → k ≠ AUTH_USER_KEY →
          localStorage a' !! k = localStorage a !! k) ∧
    syncStatus a' = syncStatus a ∧ lastSyncTime a' = lastSyncTime a ∧
    match reply net with
    | Response data =>
        match prop data "success" with
        | Ok s =>
            if truthy s && truthy (opt_prop data "token") then
              let user := if truthy (opt_prop data "user") then opt_prop data "user"
                          else VObj [("username", VStr (trim (as_string username)))] in
              r = VObj [("success", VBool true)] ∧
              token a' = opt_prop data "token" ∧
              currentUser a' = user ∧
              localStorage a' !! AUTH_TOKEN_KEY
                = Some (Raw (js_to_string (opt_prop data "token"))) ∧
              localStorage a' !! AUTH_USER_KEY = Some (JsonText (jsonify user)) ∧
              AuthManager.isLoggedIn a' = (Ok true, a')
            else
              r = failure (js_or (opt_prop data "error") (VStr "注册失败")) ∧ a' = a
        | Throw _ => r = failure (VStr "网络错误，请稍后重试") ∧ a' = a
        end
    | NetworkError => r = failure (VStr "网络错误，请稍后重试") ∧ a' = a
    end.
Proof.
  intros Hu Hp. destruct (reply net) as [data|] eqn:Hr.
  - destruct (prop data "success") as [s|e] eqn:Hs.
    + destruct (truthy s && truthy (opt_prop data "token")) eqn:Hok.
      * apply andb_true_iff in Hok as [Hts Ht].
        rewrite (register_accepted net username password data s) by done.
        eexists _, _. split; [done|]. simpl.
        split; [intros k H1 H2; by apply saved_session_other|].
        split; [done|]. split; [done|]. split; [done|]. split; [done|].
        unfold js_or.
        assert (truthy (if truthy (opt_prop data "user") then opt_prop data "user"
                        else VObj [("username", VStr (trim (as_string username)))]) = true)
          as Hus by (by destruct (truthy (opt_prop data "user")) eqn:E).
        split; [done|].
        split; [by apply saved_session_token|].
        split; [by apply saved_session_user|].
        unfold AuthManager.isLoggedIn. js_unfold. simpl.
        destruct (opt_prop data "token"); try done;
          by destruct (if truthy (opt_prop data "user") then _ else _).
      * rewrite (register_refused_any net username password data s) by done.
        eexists _, _. split; [done|]. done.
    + rewrite register_caught by eauto. eexists _, _. split; [done|]. done.
  - rewrite register_caught by eauto. eexists _, _. split; [done|]. done.
Qed.

Section Restore.
Context `{Runtime} `{JsonWriter}.

Lemma clearSession_cleared (a : App) :
  AuthManager._clearSession a
  = (Ok tt, set_localStorage (cleared_session (localStorage a)) a).
Proof. unfold AuthManager._clearSession, cleared_session. js_unfold. by destruct a. Qed.

Lemma restoreSession_nothing_stored (me : MeReply) (a : App) :
  has_session (localStorage a) = false →
  AuthManager.restoreSession me a = (Ok false, a).
Proof.
  unfold has_session, AuthManager.restoreSession. js_unfold.
  destruct (localStorage a !! AUTH_TOKEN_KEY) as [t|]; [|done].
  destruct (localStorage a !! AUTH_USER_KEY) as [u|]; [|done].
  by intros ->%negb_false_iff.
Qed.

Lemma has_session_entries (ls : gmap string Text) :
  has_session ls = true →
  ∃ tokenText userText,
    ls !! AUTH_TOKEN_KEY = Some tokenText ∧ ls !! AUTH_USER_KEY = Some userText ∧
    text_empty tokenText || text_empty userText = false.
Proof.
  unfold has_session.
  destruct (ls !! AUTH_TOKEN_KEY) as [t|]; [|done].
  destruct (ls !! AUTH_USER_KEY) as [u|]; [|done].
  intros Hne%negb_true_iff. eauto.
Qed.

(** The service is not reached, answers with an error status, or with a body
    that is not JSON. *)
Lemma restoreSession_denied (me : MeReply) (a : App) :
  has_session (localStorage a) = true →
  (me = Rejected ∨ (∃ j, me = Answered false j) ∨ (∃ e, me = Answered true (Throw e))) →
  AuthManager.restoreSession me a
  = (Ok false, set_localStorage (cleared_session (localStorage a)) a).
Proof.
  intros (t & u & Ht & Hu & Hne)%has_session_entries Hme.
  unfold AuthManager.restoreSession.
  cbv beta iota zeta delta [mbind mret JS_bind JS_ret try_catch getItem get_app lift console_error].
  rewrite Ht, Hu, Hne.
  destruct Hme as [->|[[j ->]|[e ->]]]; rewrite clearSession_cleared; done.
Qed.

(** The service answers with a JSON body. *)
Lemma restoreSession_answered (data : JV) (a : App) (tokenText userText : Text) :
  localStorage a !! AUTH_TOKEN_KEY = Some tokenText →
  localStorage a !! AUTH_USER_KEY = Some userText →
  text_empty tokenText || text_empty userText = false →
  AuthManager.restoreSession (Answered true (Ok data)) a
  = match (user ← prop data "user";
           if truthy user then Ok user else JSON_parse userText) with
    | Ok restored =>
        (Ok true, set_currentUser restored (set_token (VStr (stored_string tokenText)) a))
    | Throw _ =>
        (Ok false,
         set_localStorage (cleared_session (localStorage a))
           (set_token (VStr (stored_string tokenText)) a))
    end.
Proof.
  intros Ht Hu Hne. unfold AuthManager.restoreSession.
  cbv beta iota zeta delta
    [mbind mret JS_bind JS_ret Exc_bind try_catch getItem get_app lift console_error modify].
  rewrite Ht, Hu, Hne.
  destruct (prop data "user") as [user|e]; [|by rewrite clearSession_cleared].
  destruct (truthy user); [done|].
  destruct (JSON_parse userText); [done|by rewrite clearSession_cleared].
Qed.

End Restore.

(** The session that [login] stores is the session that [restoreSession]
    reads back when the page is loaded again.  After a login that the
    service accepted with a token (a non-empty string) and a user (a JSON
    value), on a page that starts again from the store, [restoreSession]
    with an answer of /auth/me that has a JSON body returns [true], leaves
    the store alone, takes the very token of the login, and takes the user of
    the answer or, when the answer has none, the stored user: the session is
    logged in again. *)
Theorem session_survives_reload `{Runtime} `{JsonWriter}
    (net : Net) (username password data s : JV) (t : string)
    (me_data : list (string * JV)) (a : App) :
  truthy (opt_prop (AuthManager.validateUsername username) "valid") = true →
  truthy (opt_prop (AuthManager.validatePassword password) "valid") = true →
  reply net = Response data →
  prop data "success" = Ok s → truthy s = true →
  opt_prop data "token" = VStr t → t ≠ "" →
  truthy (opt_prop data "user") = true → is_json (opt_prop data "user") = true →
  let a1 := (AuthManager.login net username password a).2 in
  ∃ a2,
    AuthManager.restoreSession (Answered true (Ok (VObj me_data))) (reloaded a1)
      = (Ok true, a2) ∧
    token a2 = token a1 ∧
    currentUser a2 = js_or (get_field me_data "user") (currentUser a1) ∧
    localStorage a2 = localStorage a1 ∧
    AuthManager.isLoggedIn a2 = (Ok true, a2).
Proof.
  intros Hu Hp Hr Hs Hts Htok Hne Hus Hj. cbv zeta.
  assert (truthy (opt_prop data "token") = true) as Ht.
  { rewrite Htok. simpl. by apply negb_true_iff, eqb_empty_false. }
  rewrite (login_accepted net username password data s) by done. simpl.
  rewrite (restoreSession_answered (VObj me_data) _
             (Raw (js_to_string (opt_prop data "token")))
             (JsonText (jsonify (opt_prop data "user")))).
  2:{ by apply saved_session_token. }
  2:{ by apply saved_session_user. }
  2:{ rewrite Htok. simpl. by rewrite (proj2 (eqb_empty_false t)). }
  rewrite jsonify_json by done. rewrite Htok. simpl.
  unfold js_or. destruct (truthy (get_field me_data "user")) eqn:Hme; simpl.
  - eexists. split; [done|]. simpl. repeat split; try done.
    unfold AuthManager.isLoggedIn. js_unfold. simpl.
    by destruct (get_field me_data "user").
  - eexists. split; [done|]. simpl. repeat split; try done.
    unfold AuthManager.isLoggedIn. js_unfold. simpl.
    by destruct (opt_prop data "user").
Qed.

(** [restoreSession] never throws, and it asks the service only when both
    entries of the session are stored and not empty: otherwise it returns
    [false] and changes nothing.  It returns [true] only on an answer with
    status ok and a JSON body, and then leaves the store alone.  When it has
    asked the service and returns [false], both stored entries of the
    session are removed and nothing else is; in particular, a request that
    fails (the network is down) or an error status removes the stored
    session and leaves the token and the user in memory as they were. *)
Theorem restoreSession_outcomes `{Runtime} `{JsonWriter} (me : MeReply) (a : App) :
  ∃ b a',
    AuthManager.restoreSession me a = (Ok b, a') ∧
    syncStatus a' = syncStatus a ∧
    (if has_session (localStorage a)
     then localStorage a' = (if b then localStorage a else cleared_session (localStorage a))
     else b = false ∧ a' = a) ∧
    (b = true → ∃ data, me = Answered true (Ok data)) ∧
    match me with
    | Answered true (Ok _) => True
    | _ => b = false ∧ token a' = token a ∧ currentUser a' = currentUser a
    end.
Proof.
  destruct (has_session (localStorage a)) eqn:Hs.
  - destruct me as [|[] [data|e]].
    + rewrite restoreSession_denied by eauto. eexists _, _. split; [done|]. done.
    + destruct (has_session_entries _ Hs) as (t & u & Ht & Hu & Hne).
      rewrite (restoreSession_answered data a t u) by done.
      destruct (user ← prop data "user"; if truthy user then Ok user else JSON_parse u);
        eexists _, _; (split; [done|]); simpl; eauto.
    + rewrite restoreSession_denied by eauto. eexists _, _. split; [done|]. done.
    + rewrite restoreSession_denied by eauto. eexists _, _. split; [done|]. done.
    + rewrite restoreSession_denied by eauto. eexists _, _. split; [done|]. done.
  - rewrite restoreSession_nothing_stored by done. eexists _, _. split; [done|].
    split; [done|]. split; [done|]. split; [done|]. by destruct me as [|[] []].
Qed.

(** ** Runs of [syncPendingOperations] that replay nothing *)

Section SyncEdges.
Context `{Runtime}.

Lemma replay_op_logged_out (net : Net) (op : JV) (c : Z * Z) (a : App) :
  AuthManager.isLoggedIn a = (Ok false, a) →
  CloudSyncManager.replay_op net op c a
  = (Ok (if counted op then (c.1, c.2 + 1) else c), a).
Proof.
  intros Hout. unfold CloudSyncManager.replay_op, counted.
  cbv beta iota zeta delta [mbind JS_bind try_catch lift mret JS_ret].
  destruct (prop op "type") as [type|e] eqn:Ht; [|done].
  destruct (is_str type "upload"); simpl.
  - destruct (prop_opt _ _ _ "data" Ht) as [_ ->].
    by rewrite uploadData_logged_out.
  - destruct (is_str type "delete"); [|done].
    destruct (prop_opt _ _ _ "monthId" Ht) as [_ ->].
    by rewrite deleteData_logged_out.
Qed.

Lemma replay_logged_out (nets : nat → Net) (ops : list JV) :
  ∀ (i : nat) (c : Z * Z) (a : App),
    AuthManager.isLoggedIn a = (Ok false, a) →
    CloudSyncManager.replay nets i ops c a
    = (Ok (c.1, c.2 + Z.of_nat (length (filter (λ op, counted op = true) ops))), a).
Proof.
  induction ops as [|op ops IH]; intros i c a Hout; simpl.
  - rewrite Z.add_0_r. by destruct c.
  - cbv beta iota zeta delta [mbind JS_bind].
    rewrite replay_op_logged_out by done. rewrite IH by done.
    rewrite filter_cons. destruct (counted op) eqn:E.
    + rewrite decide_True by done. cbn [length fst snd]. do 3 f_equal. lia.
    + rewrite decide_False by done. by destruct c.
Qed.

Lemma sync_offline (net : Net) (nets : nat → Net) (a : App) :
  onLine net = false →
  CloudSyncManager.syncPendingOperations net nets a
  = (Ok (CloudSyncManager.sync_result false 0 0), a).
Proof.
  intros Hoff. unfold CloudSyncManager.syncPendingOperations, CloudSyncManager.isOnline.
  by rewrite Hoff.
Qed.

Lemma sync_nothing_pending (net : Net) (nets : nat → Net) (a : App) :
  onLine net = true →
  pending (localStorage a) = VArr [] →
  CloudSyncManager.syncPendingOperations net nets a
  = (Ok (CloudSyncManager.sync_result true 0 0), a).
Proof.
  intros Hon Hp. unfold CloudSyncManager.syncPendingOperations, CloudSyncManager.isOnline.
  rewrite Hon. simpl. cbv beta iota zeta delta [mbind JS_bind].
  by rewrite getPendingOperations_pending, Hp.
Qed.

End SyncEdges.

(** A run of [syncPendingOperations] with nothing to do changes nothing.
    When the network is unreachable it returns [success: false] with both
    counts zero; when the log is absent, empty or not readable as JSON (what
    [getPendingOperations] returns is then the empty array) it returns
    [success: true] with both counts zero.  In both cases the state is
    exactly what it was: the sync status is not touched, so a status of
    [error] or [offline] stays. *)
Theorem sync_without_work `{Runtime} (net : Net) (nets : nat → Net) (a : App) :
  (onLine net = false →
   CloudSyncManager.syncPendingOperations net nets a
   = (Ok (CloudSyncManager.sync_result false 0 0), a)) ∧
  (onLine net = true →
   LocalCacheManager.getPendingOperations a = (Ok (VArr []), a) →
   CloudSyncManager.syncPendingOperations net nets a
   = (Ok (CloudSyncManager.sync_result true 0 0), a)) ∧
  (match localStorage a !! LocalCacheManager.PENDING_OPS_KEY with
   | None | Some (Raw _) | Some (JsonText (VArr [])) =>
       LocalCacheManager.getPendingOperations a = (Ok (VArr []), a)
   | _ => True
   end).
Proof.
  split; [apply sync_offline|]. split.
  - intros Hon Hp. apply sync_nothing_pending; [done|].
    rewrite getPendingOperations_pending in Hp. by injection Hp.
  - rewrite getPendingOperations_pending. unfold pending.
    destruct (localStorage a !! _) as [[v|s]|]; try done.
    + by destruct v as [ | | | | | |[|]|].
    + simpl. by destruct (String.eqb s "").
Qed.

(** A run of [syncPendingOperations] in a session that is not logged in
    sends nothing.  With a stored, non-empty log and a reachable network,
    every operation of type 'upload' or 'delete' is refused locally and
    counted as failed, none is counted as synced, and the result does not
    depend on what the network would answer.  The log and the rest of the
    store are exactly what they were, the time of the last sync is
    unchanged, and the status ends as [error] when an operation was counted
    and as [idle] otherwise. *)
Theorem sync_logged_out_sends_nothing `{Runtime}
    (a : App) (net : Net) (nets : nat → Net) (ops : list JV) :
  AuthManager.isLoggedIn a = (Ok false, a) →
  localStorage a !! LocalCacheManager.PENDING_OPS_KEY = Some (JsonText (VArr ops)) →
  ops ≠ [] →
  onLine net = true →
  let failed := Z.of_nat (length (filter (λ op, counted op = true) ops)) in
  ∃ a',
    CloudSyncManager.syncPendingOperations net nets a
      = (Ok (CloudSyncManager.sync_result (failed =? 0) 0 failed), a') ∧
    localStorage a' = localStorage a ∧
    lastSyncTime a' = lastSyncTime a ∧
    token a' = token a ∧ currentUser a' = currentUser a ∧
    syncStatus a' = (if 0 <? failed then error else idle) ∧
    (Forall (λ op, is_str (opt_prop op "type") "upload"
                   || is_str (opt_prop op "type") "delete" = true) ops →
     failed = Z.of_nat (length ops)).
Proof.
  intros Hout Hlog Hne Hon. cbv zeta.
  set (failed := Z.of_nat (length (filter (λ op, counted op = true) ops))).
  exists (painted (if 0 <? failed then error else idle) (painted syncing a)).
  split.
  - unfold CloudSyncManager.syncPendingOperations, CloudSyncManager.isOnline.
    rewrite Hon. simpl. cbv beta iota zeta delta [mbind JS_bind].
    rewrite getPendingOperations_pending, (log_is_pending a ops Hlog).
    assert ((Z.of_nat (length ops) =? 0) = false) as Hlen
      by (destruct ops; [done|apply Z.eqb_neq; simpl; lia]).
    cbv beta iota zeta delta [lift prop iterate mbind JS_bind].
    change (String.eqb "length" "length") with true. cbv iota.
    rewrite Hlen. rewrite setSyncStatus_painted.
    rewrite replay_logged_out by by apply isLoggedIn_painted.
    simpl. fold failed. js_unfold. by rewrite setSyncStatus_painted.
  - rewrite !painted_localStorage, !painted_lastSyncTime, !painted_token,
      !painted_currentUser, painted_syncStatus.
    repeat split; try done.
    intros Hall. unfold failed. f_equal. f_equal.
    clear -Hall. induction Hall as [|op ops Hop _ IH]; [done|].
    rewrite filter_cons. rewrite decide_True; [by rewrite IH|].
    unfold counted, opt_prop in *. by destruct (prop op "type").
Qed.

(** A stored log that is JSON but not a list is never repaired.  When the
    stored text is that of an object or of a number (anything with no
    [length] of zero that cannot be iterated), a run of
    [syncPendingOperations] on a reachable network throws: it has set the
    status to [syncing] and leaves it there, with the store as it was.  When
    the stored text is [null], it throws before it touches the status. *)
Theorem sync_on_malformed_log_throws `{Runtime}
    (a : App) (net : Net) (nets : nat → Net) (v : JV) :
  localStorage a !! LocalCacheManager.PENDING_OPS_KEY = Some (JsonText v) →
  onLine net = true →
  (not_a_list v = true →
   ∃ e a', CloudSyncManager.syncPendingOperations net nets a = (Throw e, a') ∧
           syncStatus a' = syncing ∧ localStorage a' = localStorage a) ∧
  (v = VNull →
   ∃ e, CloudSyncManager.syncPendingOperations net nets a = (Throw e, a)).
Proof.
  intros Hlog Hon.
  assert (pending (localStorage a) = v) as Hp by (unfold pending; by rewrite Hlog).
  split.
  - intros Hv. exists "TypeError: not iterable", (painted syncing a).
    rewrite painted_syncStatus, painted_localStorage. split; [|done].
    unfold CloudSyncManager.syncPendingOperations, CloudSyncManager.isOnline.
    rewrite Hon. simpl. cbv beta iota zeta delta [mbind JS_bind].
    rewrite getPendingOperations_pending, Hp.
    destruct v as [ | |b|n|s|t|l|fs]; try done.
    + simpl. cbv beta iota zeta delta [lift mbind JS_bind]. simpl.
      by rewrite setSyncStatus_painted.
    + simpl. cbv beta iota zeta delta [lift mbind JS_bind]. simpl.
      by rewrite setSyncStatus_painted.
    + simpl in Hv. cbv beta iota zeta delta [lift mbind JS_bind prop].
      destruct (get_field fs "length") as [ | |b|n|s|t|l|fs']; simpl;
        try (by rewrite setSyncStatus_painted).
      apply negb_true_iff in Hv. rewrite Hv. by rewrite setSyncStatus_painted.
  - intros ->. exists "TypeError".
    unfold CloudSyncManager.syncPendingOperations, CloudSyncManager.isOnline.
    rewrite Hon. simpl. cbv beta iota zeta delta [mbind JS_bind].
    by rewrite getPendingOperations_pending, Hp.
Qed.

(** The listeners of [initNetworkListener].  An 'offline' event sets the
    status to [offline] and touches nothing else.  An 'online' event sets
    the status to [idle] and starts a run of [syncPendingOperations]; the
    listener itself never throws.  When that run has nothing to do (the
    browser still reports the network unreachable, or nothing is pending)
    the status stays [idle] and the store is what it was; when the log is a
    stored list, the status after the event is [idle] or [error]. *)
Theorem network_listeners `{Runtime} (net : Net) (nets : nat → Net) (a : App) :
  (∃ a', CloudSyncManager.on_offline a = (Ok tt, a') ∧
         syncStatus a' = offline ∧ localStorage a' = localStorage a ∧
         token a' = token a ∧ currentUser a' = currentUser a ∧
         lastSyncTime a' = lastSyncTime a) ∧
  (∃ a', CloudSyncManager.on_online net nets a = (Ok tt, a') ∧
         (onLine net = false ∨
          LocalCacheManager.getPendingOperations a = (Ok (VArr []), a) →
          syncStatus a' = idle ∧ localStorage a' = localStorage a) ∧
         (∀ ops, localStorage a !! LocalCacheManager.PENDING_OPS_KEY
                   = Some (JsonText (VArr ops)) →
                 syncStatus a' = idle ∨ syncStatus a' = error)).
Proof.
  split.
  - unfold CloudSyncManager.on_offline. rewrite setSyncStatus_painted.
    eexists. split; [done|].
    by rewrite painted_syncStatus, painted_localStorage, painted_token,
      painted_currentUser, painted_lastSyncTime.
  - assert (CloudSyncManager.on_online net nets a
            = (Ok tt, (CloudSyncManager.syncPendingOperations net nets (painted idle a)).2))
      as Hrun.
    { unfold CloudSyncManager.on_online.
      cbv beta iota zeta delta [mbind mret JS_bind JS_ret try_catch].
      rewrite setSyncStatus_painted.
      by destruct (CloudSyncManager.syncPendingOperations net nets (painted idle a))
        as [[] ?]. }
    rewrite Hrun. eexists. split; [done|]. split.
    + intros Hcase.
      assert (onLine net = false ∨ pending (localStorage a) = VArr []) as [Hoff|Hp].
      { destruct Hcase as [?|Hp]; [by left|right].
        rewrite getPendingOperations_pending in Hp. by injection Hp. }
      * rewrite sync_offline by done. simpl.
        by rewrite painted_syncStatus, painted_localStorage.
      * destruct (onLine net) eqn:Hon.
        -- rewrite sync_nothing_pending; [| done | by rewrite painted_localStorage].
           simpl. by rewrite painted_syncStatus, painted_localStorage.
        -- rewrite sync_offline by done. simpl.
           by rewrite painted_syncStatus, painted_localStorage.
    + intros ops Hlog.
      destruct (onLine net) eqn:Hon.
      2:{ rewrite sync_offline by done. left. apply painted_syncStatus. }
      destruct ops as [|op ops].
      { rewrite sync_nothing_pending; [| done |].
        - left. apply painted_syncStatus.
        - rewrite painted_localStorage. unfold pending. by rewrite Hlog. }
      assert (log_is (painted idle a) (op :: ops)) as Hlog'
        by (unfold log_is; by rewrite painted_localStorage).
      destruct (syncPendingOperations_run (painted idle a) net nets (op :: ops)
                  Hlog' ltac:(done) Hon)
        as (c & a1 & cur & _ & _ & _ & _ & _ & _ & Hsync).
      rewrite Hsync. simpl. rewrite painted_syncStatus.
      destruct (0 <? c.2); auto.
Qed.

(** ** The log and the cache of [LocalCacheManager], entry by entry *)

(** [addPendingOperation] never throws and writes at most the entry of the
    log.  When [getPendingOperations] returns a list (the stored list, or
    the empty one for a log that is absent or not readable), the operation
    is appended to it and [getPendingOperations] then returns the longer
    list, as JSON.  When the stored log is JSON but not a list, the
    operation is dropped and the state is exactly what it was. *)
Theorem addPendingOperation_cases `{Runtime} (operation : JV) (a : App) :
  ∃ a',
    LocalCacheManager.addPendingOperation operation a = (Ok tt, a') ∧
    (∀ k, k ≠ LocalCacheManager.PENDING_OPS_KEY →
          localStorage a' !! k = localStorage a !! k) ∧
    token a' = token a ∧ currentUser a' = currentUser a ∧
    syncStatus a' = syncStatus a ∧
    match (LocalCacheManager.getPendingOperations a).1 with
    | Ok (VArr ops) =>
        LocalCacheManager.getPendingOperations a'
        = (Ok (VArr (map jsonify (ops ++ [operation]))), a')
    | _ => a' = a
    end.
Proof.
  rewrite addPendingOperation_enqueued. eexists. split; [done|]. simpl.
  split; [intros k Hk; by apply enqueued_other|].
  split; [done|]. split; [done|]. split; [done|].
  rewrite getPendingOperations_pending. simpl.
  destruct (pending (localStorage a)) as [ | |b|n|s|t|ops|fs] eqn:Hp;
    try (unfold enqueued; rewrite Hp; simpl; by destruct a).
  rewrite getPendingOperations_pending. simpl.
  by rewrite (enqueued_array _ _ ops), pending_array_text.
Qed.

Section CacheEntries.
Context `{Runtime}.

Lemma append_inj_prefix (p s1 s2 : string) : p +:+ s1 = p +:+ s2 → s1 = s2.
Proof. induction p as [|c p IH]; simpl; [done|]. intros [= E]. by apply IH. Qed.

Lemma cacheData_store (userId data : JV) (a : App) :
  LocalCacheManager.cacheData userId data a
  = (Ok tt,
     if truthy userId then
       match js_map LocalCacheManager.with_iso_date data with
       | Ok mapped =>
           set_localStorage
             (<[LocalCacheManager.CACHE_KEY_PREFIX +:+ js_to_string userId
                := JSON_stringify mapped]> (localStorage a)) a
       | Throw _ => a
       end
     else a).
Proof.
  unfold LocalCacheManager.cacheData. destruct (truthy userId); [|done]. simpl.
  js_unfold. by destruct (js_map _ data).
Qed.

Lemma cached_other_key (userId : JV) (ls ls' : gmap string Text) :
  ls' !! (LocalCacheManager.CACHE_KEY_PREFIX +:+ js_to_string userId)
  = ls !! (LocalCacheManager.CACHE_KEY_PREFIX +:+ js_to_string userId) →
  cached userId ls' = cached userId ls.
Proof. intros E. unfold cached. by rewrite E. Qed.

End CacheEntries.

(** [cacheData] writes the cache entry of one identity and nothing else.
    Every other stored entry (the log, the session, the cache of an identity
    whose id reads differently) is unchanged, and so is what
    [getCachedData] returns for such an identity and what
    [getPendingOperations] returns.  When the data cannot be written (it is
    not an array, or one of its records is [null] or carries an invalid
    date), nothing is written at all: the entry that was cached before is
    kept. *)
Theorem cacheData_touches_one_entry `{Runtime} (userId data : JV) (a : App) :
  ∃ a',
    LocalCacheManager.cacheData userId data a = (Ok tt, a') ∧
    (∀ k, k ≠ LocalCacheManager.CACHE_KEY_PREFIX +:+ js_to_string userId →
          localStorage a' !! k = localStorage a !! k) ∧
    (∀ other, js_to_string other ≠ js_to_string userId →
              LocalCacheManager.getCachedData other a'
              = ((LocalCacheManager.getCachedData other a).1, a')) ∧
    LocalCacheManager.getPendingOperations a'
      = ((LocalCacheManager.getPendingOperations a).1, a') ∧
    token a' = token a ∧ currentUser a' = currentUser a ∧ syncStatus a' = syncStatus a ∧
    (∀ e, js_map LocalCacheManager.with_iso_date data = Throw e → a' = a).
Proof.
  rewrite cacheData_store. eexists. split; [done|].
  assert (∀ k, k ≠ LocalCacheManager.CACHE_KEY_PREFIX +:+ js_to_string userId →
               localStorage
                 (if truthy userId then
                    match js_map LocalCacheManager.with_iso_date data with
                    | Ok mapped =>
                        set_localStorage
                          (<[LocalCacheManager.CACHE_KEY_PREFIX +:+ js_to_string userId
                             := JSON_stringify mapped]> (localStorage a)) a
                    | Throw _ => a
                    end
                  else a) !! k = localStorage a !! k) as Hother.
  { intros k Hk. destruct (truthy userId); [|done].
    destruct (js_map _ data); [|done]. simpl. by rewrite lookup_insert_ne. }
  split; [done|]. split.
  { intros other Hne. rewrite !getCachedData_cached. simpl. f_equal. f_equal.
    apply cached_other_key. apply Hother. by intros E%append_inj_prefix. }
  split.
  { rewrite !getPendingOperations_pending. simpl. f_equal. f_equal.
    unfold pending. rewrite Hother; [done|]. apply not_eq_sym, cache_key_not_pending. }
  destruct (truthy userId); [|done].
  destruct (js_map _ data) as [mapped|e0]; [|done].
  repeat split; done.
Qed.

Section LogoutStore.
Context `{Runtime}.

Lemma swept_lookup (ls : gmap string Text) (k : string) :
  swept ls !! k
  = if bool_decide (k = LocalCacheManager.PENDING_OPS_KEY)
       || String.prefix LocalCacheManager.CACHE_KEY_PREFIX k
    then None else ls !! k.
Proof.
  case_bool_decide as Hk; simpl.
  - subst. apply swept_pending.
  - unfold swept. rewrite lookup_delete_ne by done. rewrite lookup_removed.
    destruct (String.prefix LocalCacheManager.CACHE_KEY_PREFIX k) eqn:Hp.
    + case_decide as Hin; [done|].
      destruct (ls !! k) as [t|] eqn:E; [|done].
      exfalso. apply Hin. apply list_elem_of_filter. split.
      * unfold is_cache_key. rewrite Hp. by destruct k.
      * apply list_elem_of_fmap. exists (k, t). split; [done|].
        by apply elem_of_map_to_list.
    + case_decide as Hin; [|done].
      apply list_elem_of_filter in Hin as [Hc _]. unfold is_cache_key in Hc.
      rewrite Hp in Hc. by rewrite andb_false_r in Hc.
Qed.

Lemma logged_out_store_lookup (user : JV) (ls : gmap string Text) (k : string) :
  logged_out_store user ls !! k = if removed_by_logout k then None else ls !! k.
Proof.
  unfold logged_out_store, removed_by_logout. rewrite swept_lookup.
  destruct (String.prefix LocalCacheManager.CACHE_KEY_PREFIX k) eqn:Hp;
    [by rewrite !orb_true_r|].
  rewrite !orb_false_r.
  destruct (decide (k = LocalCacheManager.PENDING_OPS_KEY)) as [->|Hk].
  { rewrite bool_decide_eq_true_2 by done. by rewrite bool_decide_eq_true_2 by auto. }
  rewrite (bool_decide_eq_false_2 (k = LocalCacheManager.PENDING_OPS_KEY)) by done.
  assert (∀ m : gmap string Text,
            (if truthy (opt_prop user "id")
             then delete (LocalCacheManager.CACHE_KEY_PREFIX +:+ js_to_string (opt_prop user "id")) m
             else m) !! k = m !! k) as ->.
  { intros m. destruct (truthy _); [|done]. apply lookup_delete_ne.
    intros <-. by rewrite prefix_app in Hp. }
  destruct (decide (k = AUTH_USER_KEY)) as [->|Hu].
  { rewrite bool_decide_eq_true_2 by auto. apply lookup_delete_eq. }
  rewrite lookup_delete_ne by done.
  destruct (decide (k = AUTH_TOKEN_KEY)) as [->|Ht].
  { rewrite bool_decide_eq_true_2 by auto. apply lookup_delete_eq. }
  rewrite lookup_delete_ne by done.
  by rewrite bool_decide_eq_false_2 by (by intros [?|[?|?]]).
Qed.

End LogoutStore.

(** ** Downloads that the service does not answer with success *)

Section DownloadFailure.
Context `{Runtime}.

Lemma cached_or_from_cache (msg : string) (a : App) :
  CloudSyncManager.cached_or msg a
  = (Ok (from_cache (cached (opt_prop (currentUser a) "id") (localStorage a)) msg), a).
Proof.
  unfold CloudSyncManager.cached_or, AuthManager.getCurrentUser, from_cache.
  cbv beta iota zeta delta [mbind mret JS_bind JS_ret get_app].
  rewrite getCachedData_cached. by destruct (CloudSyncManager.has_items _).
Qed.

Lemma downloadAllData_rejected (net : Net) (result s : JV) (a : App) :
  AuthManager.isLoggedIn a = (Ok true, a) →
  onLine net = true →
  reply net = Response result →
  prop result "success" = Ok s → truthy s = false →
  CloudSyncManager.downloadAllData net a
  = (Ok (failure (js_or (opt_prop result "error") (VStr "下载失败"))),
     painted error (painted syncing a)).
Proof.
  intros Hin Hon Hr Hs Ht. unfold CloudSyncManager.downloadAllData, CloudSyncManager.isOnline.
  js_bind. rewrite Hin, Hon. simpl. js_bind.
  rewrite setSyncStatus_painted. unfold fetch_json. rewrite Hr.
  destruct (prop_opt _ _ _ "error" Hs) as [_ He].
  js_unfold. rewrite Hs, Ht. js_unfold.
  rewrite setSyncStatus_painted. by rewrite He.
Qed.

Lemma downloadAllData_caught (net : Net) (a : App) :
  AuthManager.isLoggedIn a = (Ok true, a) →
  onLine net = true →
  (reply net = NetworkError ∨
   ∃ result e, reply net = Response result ∧ prop result "success" = Throw e) →
  CloudSyncManager.downloadAllData net a
  = (Ok (from_cache (cached (opt_prop (currentUser a) "id") (localStorage a)) "网络错误"),
     painted error (painted syncing a)).
Proof.
  intros Hin Hon Hr. unfold CloudSyncManager.downloadAllData, CloudSyncManager.isOnline.
  js_bind. rewrite Hin, Hon. simpl. js_bind.
  rewrite setSyncStatus_painted. unfold fetch_json.
  destruct Hr as [-> | (result & e & -> & He)].
  - cbv beta iota zeta delta [mbind mret JS_bind JS_ret try_catch lift console_error].
    rewrite setSyncStatus_painted, cached_or_from_cache.
    by rewrite !painted_currentUser, !painted_localStorage.
  - cbv beta iota zeta delta [mbind mret JS_bind JS_ret try_catch lift console_error].
    rewrite He. rewrite setSyncStatus_painted, cached_or_from_cache.
    by rewrite !painted_currentUser, !painted_localStorage.
Qed.

End DownloadFailure.

(** A download that the service does not answer with success never writes
    the cache.  For an authenticated session and a reachable network: when
    the request fails (or the body is [null]), [downloadAllData] sets the
    status to [error] and answers from the cache of the current identity,
    with the cached records when there are some and with the network error
    otherwise; when the service answers without success, it sets the status
    to [error] and returns the error of the answer, or the default message,
    without looking at the cache.  In both cases the store, and with it
    every cache entry, is what it was, and the time of the last sync is
    unchanged. *)
Theorem failed_download_keeps_cache `{Runtime} (net : Net) (a : App) :
  AuthManager.isLoggedIn a = (Ok true, a) →
  onLine net = true →
  (∀ result s, reply net = Response result → prop result "success" = Ok s →
               truthy s = false) →
  ∃ r a',
    CloudSyncManager.downloadAllData net a = (Ok r, a') ∧
    syncStatus a' = error ∧
    localStorage a' = localStorage a ∧
    lastSyncTime a' = lastSyncTime a ∧
    match reply net with
    | Response result =>
        match prop result "success" with
        | Ok _ => r = failure (js_or (opt_prop result "error") (VStr "下载失败"))
        | Throw _ =>
            ∃ records,
              LocalCacheManager.getCachedData (opt_prop (currentUser a) "id") a
                = (Ok (VArr records), a) ∧
              r = match records with
                  | [] => failure (VStr "网络错误")
                  | _ :: _ => VObj [("success", VBool true); ("data", VArr records)]
                  end
        end
    | NetworkError =>
        ∃ records,
          LocalCacheManager.getCachedData (opt_prop (currentUser a) "id") a
            = (Ok (VArr records), a) ∧
          r = match records with
              | [] => failure (VStr "网络错误")
              | _ :: _ => VObj [("success", VBool true); ("data", VArr records)]
              end
    end.
Proof.
  intros Hin Hon Hfail.
  assert (∀ msg, ∃ records,
            LocalCacheManager.getCachedData (opt_prop (currentUser a) "id") a
              = (Ok (VArr records), a) ∧
            from_cache (cached (opt_prop (currentUser a) "id") (localStorage a)) msg
            = match records with
              | [] => failure (VStr msg)
              | _ :: _ => VObj [("success", VBool true); ("data", VArr records)]
              end) as Hcache.
  { intros msg. rewrite getCachedData_cached.
    destruct (cached_array (opt_prop (currentUser a) "id") (localStorage a)) as [l ->].
    exists l. split; [done|]. by destruct l. }
  destruct (reply net) as [result|] eqn:Hr.
  - destruct (prop result "success") as [s|e] eqn:Hs.
    + rewrite (downloadAllData_rejected net result s) by eauto.
      eexists _, _. split; [done|].
      by rewrite painted_syncStatus, !painted_localStorage, !painted_lastSyncTime.
    + rewrite downloadAllData_caught by eauto.
      eexists _, _. split; [done|].
      rewrite painted_syncStatus, !painted_localStorage, !painted_lastSyncTime.
      split; [done|]. split; [done|]. split; [done|]. apply Hcache.
  - rewrite downloadAllData_caught by eauto.
    eexists _, _. split; [done|].
    rewrite painted_syncStatus, !painted_localStorage, !painted_lastSyncTime.
    split; [done|]. split; [done|]. split; [done|]. apply Hcache.
Qed.

(** ** The bearer token, from the browser to [authMiddleware] *)

Section Bearer.
Context `{Runtime} `{Backend}.

Lemma split_on_nonempty (sep : Ascii.ascii) (s : string) : split_on sep s ≠ [].
Proof.
  destruct s as [|c r]; simpl; [done|].
  destruct (Ascii.eqb c sep); [done|]. by destruct (split_on sep r).
Qed.

Lemma split_on_one (sep : Ascii.ascii) (s y : string) :
  split_on sep s = [y] → s = y ∧ contains sep s = false.
Proof.
  revert y. induction s as [|c r IH]; intros y; simpl.
  - by intros [= <-].
  - destruct (Ascii.eqb c sep) eqn:Ec.
    + intros [= _ E]. by apply split_on_nonempty in E.
    + destruct (split_on sep r) as [|x xs] eqn:Er; [by apply split_on_nonempty in Er|].
      intros [= <- ->]. destruct (IH x eq_refl) as [-> ->]. done.
Qed.

Lemma split_on_two (sep : Ascii.ascii) (s x y : string) :
  split_on sep s = [x; y] →
  s = x +:+ String sep y ∧ contains sep x = false ∧ contains sep y = false.
Proof.
  revert x. induction s as [|c r IH]; intros x; simpl; [done|].
  destruct (Ascii.eqb c sep) eqn:Ec.
  - intros [= <- E]. apply Ascii.eqb_eq in Ec as ->.
    by destruct (split_on_one _ _ _ E) as [-> ->].
  - destruct (split_on sep r) as [|x' xs] eqn:Er; [by apply split_on_nonempty in Er|].
    intros [= <- ->]. destruct (IH x' eq_refl) as (-> & Hx & Hy).
    simpl. by rewrite Ec, Hx, Hy.
Qed.

Lemma split_on_none (sep : Ascii.ascii) (s : string) :
  contains sep s = false → split_on sep s = [s].
Proof.
  induction s as [|c r IH]; simpl; [done|].
  intros [Ec Hr]%orb_false_iff. rewrite Ec, IH by done. done.
Qed.

Lemma split_bearer (token : string) :
  contains space token = false →
  split_on space ("Bearer " +:+ token) = ["Bearer"; token].
Proof. intros Hc. simpl. change (Ascii.eqb _ space) with true. simpl. by rewrite split_on_none. Qed.

Lemma authMiddleware_bearer (token : string) (now : Z) :
  contains space token = false →
  Server.authMiddleware (Some ("Bearer " +:+ token)) now = verified token now.
Proof.
  intros Hc. unfold Server.authMiddleware, verified, Server.verifyToken.
  rewrite split_bearer by done. simpl.
  by destruct (jwt_verify token now).
Qed.

End Bearer.

(** [authMiddleware] lets a request through exactly when its Authorization
    header is the word Bearer, one space, and a token without a space that
    [jwt.verify] accepts at that time; [req.user] is then the payload of the
    token.  Every other request, a missing or empty header included, is
    answered with status 401 and never reaches the route. *)
Theorem authMiddleware_lets_through `{Runtime} `{Backend}
    (authorization : option string) (now : Z) :
  (∀ user,
     Server.authMiddleware authorization now = Server.Next user ↔
     ∃ token, authorization = Some ("Bearer " +:+ token) ∧
              contains space token = false ∧
              jwt_verify token now = Verified user) ∧
  (∀ r, Server.authMiddleware authorization now = Server.Answer r →
        Server.status r = 401 ∧ truthy (opt_prop (Server.body r) "success") = false) ∧
  (authorization = None ∨ authorization = Some "" →
   Server.authMiddleware authorization now
   = Server.Answer (Server.mkResponse 401 (failure (VStr "请重新登录")))).
Proof.
  split; [|split].
  - intros user. split.
    + unfold Server.authMiddleware. destruct authorization as [h|]; [|done].
      destruct (String.eqb h ""); [done|].
      destruct (split_on space h) as [|x [|y [|z parts]]] eqn:Hs; try done.
      2:{ assert ((Z.of_nat (length (x :: y :: z :: parts)) =? 2) = false) as ->; [|done].
          apply Z.eqb_neq. cbn [length]. lia. }
      simpl. destruct (String.eqb x "Bearer") eqn:Hx; [|done]. simpl.
      apply String.eqb_eq in Hx as ->.
      apply split_on_two in Hs as (-> & _ & Hy).
      unfold Server.verifyToken. destruct (jwt_verify y now) eqn:Hv; try done.
      simpl. intros [= <-]. exists y. split; [reflexivity|]. by split.
    + intros (token & -> & Hc & Hv). rewrite authMiddleware_bearer by done.
      unfold verified. by rewrite Hv.
  - intros r. unfold Server.authMiddleware. destruct authorization as [h|].
    2:{ by intros [= <-]. }
    destruct (String.eqb h ""); [by intros [= <-]|].
    destruct (_ || _); [by intros [= <-]|].
    unfold Server.verifyToken.
    destruct (jwt_verify _ now); simpl; try done; by intros [= <-].
  - intros [->| ->]; done.
Qed.

(** The header that the browser builds is the header that the middleware
    reads.  [_getAuthHeaders] never throws and leaves the state alone.  With
    no token in the session it sends an empty Authorization header, which
    the middleware answers with 401 and the message to log in again.  With a
    token that is a non-empty string without a space, the middleware hands
    exactly that token to [verifyToken], and lets the request through or
    refuses it as the verdict says.  When the verdict is a payload, the
    handler of /me behind the middleware answers 200 with the [id] and the
    [username] of that payload and nothing else of it; a payload that is
    [null] makes it answer 500. *)
Theorem client_header_reaches_verifier `{Runtime} `{Backend} (a : App) (now : Z) :
  ∃ authorization,
    CloudSyncManager._getAuthHeaders a
      = (Ok (VObj [("Content-Type", VStr "application/json");
                   ("Authorization", VStr authorization)]), a) ∧
    (truthy (token a) = false →
     Server.authMiddleware (Some authorization) now
     = Server.Answer (Server.mkResponse 401 (failure (VStr "请重新登录")))) ∧
    (∀ t, token a = VStr t → t ≠ "" → contains space t = false →
          Server.authMiddleware (Some authorization) now = verified t now) ∧
    (∀ t payload,
       token a = VStr t → t ≠ "" → contains space t = false →
       jwt_verify t now = Verified payload →
       ∃ user,
         Server.authMiddleware (Some authorization) now = Server.Next user ∧
         Server.get_me user
         = if nullish payload then Server.server_error
           else Server.mkResponse 200
                  (VObj [("success", VBool true);
                         ("user", VObj [("id", opt_prop payload "id");
                                        ("username", opt_prop payload "username")])])).
Proof.
  unfold CloudSyncManager._getAuthHeaders, AuthManager.getToken. js_unfold.
  eexists. split; [done|]. split; [|split].
  - intros ->. done.
  - intros t -> Hne Hc. simpl. rewrite (proj2 (eqb_empty_false t)) by done. simpl.
    by apply authMiddleware_bearer.
  - intros t payload -> Hne Hc Hv. exists payload. split.
    + simpl. rewrite (proj2 (eqb_empty_false t)) by done. simpl.
      etrans; [by apply authMiddleware_bearer|]. unfold verified. by rewrite Hv.
    + unfold Server.get_me, opt_prop. by destruct payload.
Qed.

(** ** Registration *)

Section Register.
Context `{Runtime}.

Lemma user_ids_below_next (seq : Z) (db : Server.DB) (u : Server.UserRow) :
  u ∈ Server.users db → Server.u_id u < Server.next_user_id seq db.
Proof.
  unfold Server.next_user_id.
  induction (Server.users db) as [|x l IH]; intros Hin.
  - by apply not_elem_of_nil in Hin.
  - rewrite fmap_cons. cbn [foldr].
    apply elem_of_cons in Hin as [->|Hin]; [lia|].
    specialize (IH Hin). lia.
Qed.

Lemma filter_nil_intro {A : Type} (P : A → Prop) `{!∀ x, Decision (P x)} (l : list A) :
  (∀ x, x ∈ l → ¬ P x) → filter P l = [].
Proof.
  induction l as [|x l IH]; intros Hall; [done|].
  rewrite filter_cons, decide_False by (apply Hall; left).
  apply IH. intros y Hy. apply Hall. by right.
Qed.

Lemma find_user_None (name : string) (db : Server.DB) :
  Server.find_user name db = None ↔ name ∉ user_names db.
Proof.
  unfold Server.find_user, user_names. rewrite head_None. split.
  - intros Hf (u & -> & Hin)%list_elem_of_fmap.
    by eapply (filter_nil_not_elem_of _ _ u).
  - intros Hn. apply filter_nil_intro. intros u Hin Hu. apply Hn.
    apply list_elem_of_fmap. by exists u.
Qed.

Lemma server_validateUsername (v : JV) :
  Server.validateUsername v = AuthManager.validateUsername v.
Proof. done. Qed.

Lemma server_validatePassword (v : JV) :
  Server.validatePassword v = AuthManager.validatePassword v.
Proof. done. Qed.

(** The route on a body whose two fields pass the checks. *)
Lemma post_register_valid (u p hash : string) (now : Z) (st : Z * Server.DB) :
  truthy (opt_prop (AuthManager.validateUsername (VStr u)) "valid") = true →
  truthy (opt_prop (AuthManager.validatePassword (VStr p)) "valid") = true →
  Server.post_register (credentials (VStr u) (VStr p)) hash now st
  = match Server.find_user (trim u) st.2 with
    | Some _ => (Server.mkResponse 409 (failure (VStr "用户名已存在")), st)
    | None =>
        let rowid := Server.next_user_id st.1 st.2 in
        (Server.mkResponse 201
           (VObj [("success", VBool true);
                  ("token", VStr (jwt_sign 0 (trim u) now));
                  ("user", VObj [("id", VNum 0); ("username", VStr (trim u))])]),
         (rowid,
          Server.mkDB (Server.users st.2 ++ [Server.mkUser rowid (trim u) hash])
                      (Server.sales_data st.2) (Server.sales_seq st.2)))
    end.
Proof.
  intros Hu Hp. unfold Server.post_register, credentials. simpl.
  rewrite server_validateUsername, server_validatePassword, Hu, Hp. simpl.
  by destruct (Server.find_user (trim u) st.2).
Qed.

(** The route refuses: the state is untouched. *)
Lemma post_register_cases (req_body : JV) (hash : string) (now : Z) (st : Z * Server.DB) :
  (∃ resp, Server.post_register req_body hash now st = (resp, st) ∧
           (Server.status resp = 400 ∨ Server.status resp = 409 ∨ Server.status resp = 500) ∧
           truthy (opt_prop (Server.body resp) "success") = false) ∨
  (∃ u p, opt_prop req_body "username" = VStr u ∧ opt_prop req_body "password" = VStr p ∧
          truthy (opt_prop (AuthManager.validateUsername (VStr u)) "valid") = true ∧
          truthy (opt_prop (AuthManager.validatePassword (VStr p)) "valid") = true ∧
          Server.find_user (trim u) st.2 = None ∧
          Server.post_register req_body hash now st
          = Server.post_register (credentials (VStr u) (VStr p)) hash now st).
Proof.
  unfold Server.post_register.
  destruct (prop req_body "username") as [username|e] eqn:Hpu.
  2:{ left. eexists. split; [done|]. split; [auto|done]. }
  destruct (prop_opt _ _ _ "password" Hpu) as [-> Hpp]. rewrite Hpp. simpl.
  rewrite server_validateUsername, server_validatePassword.
  destruct (truthy (opt_prop (AuthManager.validateUsername (opt_prop req_body "username"))
                             "valid")) eqn:Hu; simpl.
  2:{ left. eexists. split; [done|]. split; [auto|done]. }
  destruct (truthy (opt_prop (AuthManager.validatePassword (opt_prop req_body "password"))
                             "valid")) eqn:Hp; simpl.
  2:{ left. eexists. split; [done|]. split; [auto|done]. }
  pose proof Hu as (u & Eu & _)%validateUsername_valid.
  pose proof Hp as (p & Ep & _)%validatePassword_valid.
  rewrite Eu, Ep in *. simpl.
  destruct (Server.find_user (trim u) st.2) eqn:Hf.
  { left. eexists. split; [done|]. split; [auto|done]. }
  right. exists u, p. repeat split; try done.
  unfold credentials. simpl.
  rewrite server_validateUsername, server_validatePassword, Hu, Hp. simpl.
  by rewrite Hf.
Qed.

End Register.

(** What [POST /auth/register] does to the table of users, and what it
    answers.  A request is refused with status 400 (a field does not pass
    the checks), 409 (the trimmed name is taken) or 500, and then the
    database is untouched; or it is accepted with status 201, and then
    exactly one user is added, under the trimmed name, with the hash of the
    password and a rowid that no user has.  The answer does not carry that
    rowid: [run] reads [lastInsertRowid] after the database was saved, so
    the answer names the new user by id 0 and its token is signed for id 0.
    User names stay distinct, rowids stay distinct, and the sales data are
    never touched. *)
Theorem register_adds_at_most_one_user `{Runtime}
    (req_body : JV) (hash : string) (now : Z) (st : Z * Server.DB) :
  let r := Server.post_register req_body hash now st in
  (r.2 = st ∧ truthy (opt_prop (Server.body r.1) "success") = false ∧
   (Server.status r.1 = 400 ∨ Server.status r.1 = 409 ∨ Server.status r.1 = 500)
   ∨
   ∃ u rowid,
     opt_prop req_body "username" = VStr u ∧
     (trim u ∉ user_names st.2) ∧ (rowid ∉ user_ids st.2) ∧ st.1 < rowid ∧
     Server.status r.1 = 201 ∧
     Server.body r.1
       = VObj [("success", VBool true); ("token", VStr (jwt_sign 0 (trim u) now));
               ("user", VObj [("id", VNum 0); ("username", VStr (trim u))])] ∧
     r.2.1 = rowid ∧
     Server.users r.2.2 = (Server.users st.2 ++ [Server.mkUser rowid (trim u) hash])%list) ∧
  Server.sales_data r.2.2 = Server.sales_data st.2 ∧
  Server.sales_seq r.2.2 = Server.sales_seq st.2 ∧
  (NoDup (user_names st.2) → NoDup (user_names r.2.2)) ∧
  (NoDup (user_ids st.2) → NoDup (user_ids r.2.2)).
Proof.
  cbv zeta.
  destruct (post_register_cases req_body hash now st)
    as [(resp & -> & Hst & Hno)|(u & p & Eu & Ep & Hu & Hp & Hf & ->)].
  { simpl. split; [left; done|]. done. }
  rewrite post_register_valid by done. rewrite Hf. simpl.
  assert (Server.next_user_id st.1 st.2 ∉ user_ids st.2) as Hfresh.
  { intros (x & Hx & Hin)%list_elem_of_fmap.
    apply (user_ids_below_next st.1) in Hin. lia. }
  apply find_user_None in Hf.
  split.
  - right. exists u, (Server.next_user_id st.1 st.2).
    repeat split; try done. unfold Server.next_user_id. lia.
  - split; [done|]. split; [done|]. split.
    + intros Hnd. unfold user_names in *. simpl. rewrite fmap_app. apply NoDup_app.
      split; [done|]. split; [|apply NoDup_singleton].
      intros x Hx ->%list_elem_of_singleton. done.
    + intros Hnd. unfold user_ids in *. simpl. rewrite fmap_app. apply NoDup_app.
      split; [done|]. split; [|apply NoDup_singleton].
      intros x Hx ->%list_elem_of_singleton. done.
Qed.

(** A user who has registered can log in, and is then told the rowid.  When
    [POST /auth/register] accepts a user name and a password, and
    [bcrypt.compare] accepts the password against the hash that was stored
    for it, [POST /auth/login] with the same two fields answers 200 on the
    database after the registration, with the trimmed name and the rowid of
    the new user and a token signed for them.  The registration itself had
    answered the same name under id 0, which is not the rowid when the
    sequence of the table is not negative.  A request with a password that
    [bcrypt.compare] does not accept against that hash is answered 401. *)
Theorem registered_user_can_log_in `{Runtime}
    (u p p' hash : string) (now now' : Z) (st : Z * Server.DB) :
  let r := Server.post_register (credentials (VStr u) (VStr p)) hash now st in
  Server.status r.1 = 201 →
  bcrypt_compare p hash = true →
  Server.post_login (credentials (VStr u) (VStr p)) now' r.2.2
    = Server.mkResponse 200
        (VObj [("success", VBool true);
               ("token", VStr (jwt_sign r.2.1 (trim u) now'));
               ("user", VObj [("id", VNum r.2.1); ("username", VStr (trim u))])]) ∧
  opt_prop (Server.body r.1) "user"
    = VObj [("id", VNum 0); ("username", VStr (trim u))] ∧
  (0 ≤ st.1 → r.2.1 ≠ 0) ∧
  (p' ≠ "" → bcrypt_compare p' hash = false →
   Server.post_login (credentials (VStr u) (VStr p')) now' r.2.2
   = Server.mkResponse 401 (failure (VStr "用户名或密码错误"))).
Proof.
  cbv zeta. intros Hst Hb.
  destruct (post_register_cases (credentials (VStr u) (VStr p)) hash now st)
    as [(resp & E & Hno & _)|(u0 & p0 & [= <-] & [= <-] & Hu & Hp & Hf & _)].
  { rewrite E in Hst. simpl in Hst. rewrite Hst in Hno. by destruct Hno as [?|[?|?]]. }
  rewrite post_register_valid by done. rewrite Hf. simpl.
  assert (Server.find_user (trim u)
            (Server.mkDB (Server.users st.2
                            ++ [Server.mkUser (Server.next_user_id st.1 st.2) (trim u) hash])
                         (Server.sales_data st.2) (Server.sales_seq st.2))
          = Some (Server.mkUser (Server.next_user_id st.1 st.2) (trim u) hash)) as Hnew.
  { unfold Server.find_user in *. simpl. apply head_None in Hf.
    rewrite filter_app, Hf. simpl. by rewrite filter_cons, decide_True. }
  apply validateUsername_valid in Hu as (u1 & [= <-] & Hu1 & _).
  apply validatePassword_valid in Hp as (p1 & [= <-] & Hp1).
  assert (String.eqb u "" = false) as Eu by by apply eqb_empty_false.
  assert (String.eqb p "" = false) as Ep by (destruct p; [simpl in Hp1; lia|done]).
  split; [|split; [done|split]].
  - unfold Server.post_login, credentials. simpl. rewrite Eu, Ep. simpl.
    rewrite Hnew. simpl. by rewrite Hb.
  - unfold Server.next_user_id. lia.
  - intros Hne Hbad. unfold Server.post_login, credentials. simpl.
    rewrite Eu, (proj2 (eqb_empty_false p')) by done. simpl.
    rewrite Hnew. simpl. by rewrite Hbad.
Qed.

(** The local checks of the browser are the checks of the route.  For a
    user name and a password that [AuthManager.register] accepts, the body
    it posts (the trimmed name and the password) is never answered 400 by
    [POST /auth/register]: the route answers 201, or 409 when the name is
    taken.  [trim] is taken to leave a trimmed name as it is. *)
Theorem checked_registration_is_not_refused `{Runtime}
    (u p hash : string) (now : Z) (st : Z * Server.DB) :
  truthy (opt_prop (AuthManager.validateUsername (VStr u)) "valid") = true →
  truthy (opt_prop (AuthManager.validatePassword (VStr p)) "valid") = true →
  trim (trim u) = trim u →
  let r := Server.post_register (login_request u p) hash now st in
  (trim u ∈ user_names st.2 ∧ Server.status r.1 = 409 ∧ r.2 = st) ∨
  ((trim u ∉ user_names st.2) ∧ Server.status r.1 = 201 ∧
   opt_prop (opt_prop (Server.body r.1) "user") "username" = VStr (trim u)).
Proof.
  intros Hu Hp Hidem. cbv zeta. unfold login_request.
  change (VObj [("username", VStr (trim u)); ("password", VStr p)])
    with (credentials (VStr (trim u)) (VStr p)).
  pose proof Hu as (u1 & [= <-] & Hu1 & Ht)%validateUsername_valid.
  assert (truthy (opt_prop (AuthManager.validateUsername (VStr (trim u))) "valid") = true)
    as Hu'.
  { apply validateUsername_valid. exists (trim u). by rewrite Hidem. }
  rewrite post_register_valid by done. rewrite Hidem.
  destruct (Server.find_user (trim u) st.2) eqn:Hf.
  - left. split; [|done]. destruct (decide (trim u ∈ user_names st.2)) as [|Hn]; [done|].
    apply find_user_None in Hn. congruence.
  - right. apply find_user_None in Hf. done.
Qed.

(** ** The table of sales data under uploads and deletes *)

Section Rows.
Context `{Runtime}.

Lemma same_id_same_row (db : Server.DB) (x y : Server.SalesRow) :
  NoDup (row_ids db) →
  x ∈ Server.sales_data db → y ∈ Server.sales_data db →
  Server.s_id x = Server.s_id y → x = y.
Proof.
  unfold row_ids. induction (Server.sales_data db) as [|z l IH]; intros Hnd Hx Hy E.
  - by apply not_elem_of_nil in Hx.
  - rewrite fmap_cons in Hnd. apply NoDup_cons in Hnd as [Hz Hnd].
    apply elem_of_cons in Hx as [->|Hx]; apply elem_of_cons in Hy as [->|Hy].
    + done.
    + exfalso. apply Hz. rewrite E. apply list_elem_of_fmap. by exists y.
    + exfalso. apply Hz. rewrite <- E. apply list_elem_of_fmap. by exists x.
    + by apply IH.
Qed.

Lemma filter_same {A : Type} (P Q : A → Prop) `{!∀ x, Decision (P x)}
    `{!∀ x, Decision (Q x)} (l : list A) :
  (∀ x, x ∈ l → (P x ↔ Q x)) → filter P l = filter Q l.
Proof.
  induction l as [|x l IH]; intros Hall; [done|].
  rewrite !filter_cons. rewrite IH by (intros y Hy; apply Hall; by right).
  destruct (decide (P x)) as [Hp|Hp].
  - by rewrite decide_True by (apply Hall; [left|done]).
  - by rewrite decide_False by (intros Hq; apply Hp, Hall; [left|done]).
Qed.

Lemma find_owned_Some (dataId userId : Z) (db : Server.DB) (row : Server.SalesRow) :
  Server.find_owned dataId userId db = Some row →
  row ∈ Server.sales_data db ∧ Server.s_id row = dataId ∧ Server.s_user_id row = userId.
Proof.
  unfold Server.find_owned. intros [rest Hf]%head_Some.
  assert (row ∈ filter (λ r, Server.s_id r = dataId ∧ Server.s_user_id r = userId)
                       (Server.sales_data db)) as Hin by (rewrite Hf; left).
  apply list_elem_of_filter in Hin as [[? ?] ?]. done.
Qed.

Lemma find_owned_None (dataId userId : Z) (db : Server.DB) :
  Server.find_owned dataId userId db = None ↔
  ∀ row, row ∈ Server.sales_data db →
         ¬ (Server.s_id row = dataId ∧ Server.s_user_id row = userId).
Proof.
  unfold Server.find_owned. rewrite head_None. split.
  - intros Hf row Hin Hrow. by eapply (filter_nil_not_elem_of _ _ row).
  - apply filter_nil_intro.
Qed.

Lemma find_month_Some (userId : Z) (monthId : string) (db : Server.DB)
    (row : Server.SalesRow) :
  Server.find_month userId monthId db = Some row →
  row ∈ Server.sales_data db ∧ Server.s_user_id row = userId ∧
  Server.s_month_id row = monthId.
Proof.
  unfold Server.find_month. intros [rest Hf]%head_Some.
  assert (row ∈ filter (λ r, Server.s_user_id r = userId ∧ Server.s_month_id r = monthId)
                       (Server.sales_data db)) as Hin by (rewrite Hf; left).
  apply list_elem_of_filter in Hin as [[? ?] ?]. done.
Qed.

Lemma row_ids_delete (id : Z) (db : Server.DB) :
  NoDup (row_ids db) → NoDup (row_ids (Server.delete_row id db)).
Proof.
  unfold row_ids, Server.delete_row. simpl. intros Hnd.
  eapply sublist_NoDup; [exact Hnd|]. apply fmap_sublist, sublist_filter.
Qed.

Lemma row_ids_update (id : Z) (name : string) (color : JV)
    (config grouped raw : Text) (now : Z) (db : Server.DB) :
  row_ids (Server.update_row id name color config grouped raw now db) = row_ids db.
Proof.
  unfold row_ids, Server.update_row. simpl.
  rewrite <- list_fmap_compose. apply list_fmap_ext. intros i x _. simpl.
  by destruct (bool_decide _).
Qed.

Lemma row_ids_insert (userId : Z) (monthId name : string) (color : JV)
    (config grouped raw : Text) (now : Z) (db : Server.DB) :
  NoDup (row_ids db) →
  NoDup (row_ids (Server.insert_row userId monthId name color config grouped raw now db).2).
Proof.
  unfold row_ids, Server.insert_row. simpl. intros Hnd.
  rewrite fmap_app. apply NoDup_app. split; [done|]. split; [|apply NoDup_singleton].
  intros x (r & -> & Hin%ids_below_next)%list_elem_of_fmap Hx.
  apply list_elem_of_singleton in Hx. simpl in Hx. lia.
Qed.

Lemma others_update (userId : Z) (row : Server.SalesRow) (name : string) (color : JV)
    (config grouped raw : Text) (now : Z) (db : Server.DB) :
  NoDup (row_ids db) →
  row ∈ Server.sales_data db → Server.s_user_id row = userId →
  rows_of_others userId
    (Server.update_row (Server.s_id row) name color config grouped raw now db)
  = rows_of_others userId db.
Proof.
  intros Hnd Hin Hu. unfold rows_of_others, Server.update_row. simpl.
  rewrite filter_fmap_same by (intros x; by destruct (bool_decide _)).
  rewrite <- (list_fmap_id (filter _ (Server.sales_data db))) at 2.
  apply list_fmap_ext. intros i x Hx%list_elem_of_lookup_2.
  apply list_elem_of_filter in Hx as [Hne Hx]. simpl.
  rewrite bool_decide_eq_false_2; [done|].
  intros E. apply Hne. by rewrite (same_id_same_row db x row Hnd Hx Hin E).
Qed.

Lemma others_insert (userId : Z) (monthId name : string) (color : JV)
    (config grouped raw : Text) (now : Z) (db : Server.DB) :
  rows_of_others userId
    (Server.insert_row userId monthId name color config grouped raw now db).2
  = rows_of_others userId db.
Proof.
  unfold rows_of_others, Server.insert_row. simpl.
  rewrite filter_app, filter_cons, decide_False by (simpl; auto).
  by rewrite filter_nil, app_nil_r.
Qed.

Lemma others_delete (userId dataId : Z) (row : Server.SalesRow) (db : Server.DB) :
  NoDup (row_ids db) →
  row ∈ Server.sales_data db → Server.s_id row = dataId → Server.s_user_id row = userId →
  rows_of_others userId (Server.delete_row dataId db) = rows_of_others userId db.
Proof.
  intros Hnd Hin Hid Hu. unfold rows_of_others, Server.delete_row. simpl.
  rewrite list_filter_filter. apply filter_same. intros x Hx. split; [by intros [? ?]|].
  intros Hne. split; [done|]. intros E. apply Hne.
  by rewrite (same_id_same_row db x row Hnd Hx Hin) by congruence.
Qed.

(** A request is refused with 400 or 500 whatever the table and the time,
    or it is the upsert of the fields of its body, with the colour as
    [bound_text] stores it. *)
Lemma post_data_refused_or_upsert (userId : Z) (req_body : JV) :
  (∃ resp, (Server.status resp = 400 ∨ Server.status resp = 500) ∧
           truthy (opt_prop (Server.body resp) "success") = false ∧
           ∀ t d, Server.post_data userId req_body t d = (resp, d)) ∨
  (∃ fs stored,
     req_body = VObj fs ∧
     truthy (get_field fs "monthId") && typeof_string (get_field fs "monthId") = true ∧
     truthy (get_field fs "monthName") && typeof_string (get_field fs "monthName") = true ∧
     Server.bound_text (js_or (get_field fs "color") (VStr "#4A90A4")) = Ok stored ∧
     ∀ t d, Server.post_data userId req_body t d
            = upsert userId (as_string (get_field fs "monthId"))
                (as_string (get_field fs "monthName"))
                stored
                (JSON_stringify (js_or (get_field fs "config") (VObj [])))
                (JSON_stringify (js_or (get_field fs "groupedData") (VArr [])))
                (JSON_stringify (js_or (get_field fs "rawData") (VArr []))) t d).
Proof.
  destruct req_body as [ | |b|n|s|t|l|fs];
    try (left; eexists; split; [|split; [|intros t' d; reflexivity]]; [simpl; auto|done]).
  destruct (negb (truthy (get_field fs "monthId"))
            || negb (typeof_string (get_field fs "monthId"))) eqn:E1.
  { left. eexists.
    split; [|split; [|intros t d; unfold Server.post_data; simpl; rewrite E1; reflexivity]];
      [simpl; auto|done]. }
  destruct (negb (truthy (get_field fs "monthName"))
            || negb (typeof_string (get_field fs "monthName"))) eqn:E2.
  { left. eexists.
    split; [|split; [|intros t d; unfold Server.post_data; simpl; rewrite E1, E2;
                      reflexivity]]; [simpl; auto|done]. }
  destruct (Server.bound_text (js_or (get_field fs "color") (VStr "#4A90A4")))
    as [stored|e] eqn:Ec.
  2:{ left. exists Server.server_error. split; [simpl; auto|]. split; [done|].
      intros t d. unfold Server.post_data. simpl. rewrite E1, E2, Ec.
      by destruct (Server.find_month _ _ d). }
  right. exists fs, stored. split; [done|].
  split; [by destruct (truthy (get_field fs "monthId")),
               (typeof_string (get_field fs "monthId"))|].
  split; [by destruct (truthy (get_field fs "monthName")),
               (typeof_string (get_field fs "monthName"))|].
  split; [done|].
  intros t d. unfold Server.post_data, upsert. simpl. rewrite E1, E2, Ec.
  by destruct (Server.find_month _ _ d).
Qed.

Lemma next_id_bounded (db : Server.DB) :
  seq_bounds db → Server.next_id db = Server.sales_seq db + 1.
Proof.
  intros [H0 Hb]. unfold Server.next_id.
  assert (foldr Z.max 0 (Server.s_id <$> Server.sales_data db) ≤ Server.sales_seq db);
    [|lia].
  induction (Server.sales_data db) as [|x l IH]; [simpl; lia|].
  rewrite fmap_cons. cbn [foldr].
  assert (Server.s_id x ≤ Server.sales_seq db) by (apply Hb; left).
  assert (foldr Z.max 0 (Server.s_id <$> l) ≤ Server.sales_seq db)
    by (apply IH; intros y Hy; apply Hb; by right).
  lia.
Qed.

End Rows.

(** [DELETE /api/data/:id] removes the one row that has this id and
    belongs to the caller, and nothing else.  On a table whose row ids are
    distinct: the rows afterwards are the rows before without that row; the
    answer is 200 exactly when there was such a row; when there was none
    (no row with this id, a row of another identity, or an id that is not a
    number) the request is refused and the database is untouched.  The rows
    of every other identity are as they were, row ids stay distinct, and
    the same delete sent again is refused. *)
Theorem delete_removes_one_owned_row `{Runtime}
    (userId : Z) (dataId : option Z) (db : Server.DB) :
  NoDup (row_ids db) →
  let r := Server.delete_data userId dataId db in
  (∀ row, row ∈ Server.sales_data r.2 ↔
          row ∈ Server.sales_data db ∧
          ¬ (Some (Server.s_id row) = dataId ∧ Server.s_user_id row = userId)) ∧
  (Server.status r.1 = 200 ↔
   ∃ row, row ∈ Server.sales_data db ∧
          Some (Server.s_id row) = dataId ∧ Server.s_user_id row = userId) ∧
  (Server.status r.1 ≠ 200 →
   r.2 = db ∧ truthy (opt_prop (Server.body r.1) "success") = false) ∧
  rows_of_others userId r.2 = rows_of_others userId db ∧
  NoDup (row_ids r.2) ∧
  Server.users r.2 = Server.users db ∧ Server.sales_seq r.2 = Server.sales_seq db ∧
  Server.status (Server.delete_data userId dataId r.2).1 ≠ 200.
Proof.
  intros Hnd. cbv zeta. unfold Server.delete_data.
  destruct dataId as [id|].
  2:{ simpl. split; [|split; [|done]].
      - intros row. split; [|by intros [? _]]. intros Hrow. split; [done|]. by intros [? _].
      - split; [done|]. by intros (? & _ & ? & _). }
  destruct (Server.find_owned id userId db) as [row|] eqn:Hf.
  - apply find_owned_Some in Hf as (Hin & Hid & Hu). simpl.
    assert (Server.find_owned id userId (Server.delete_row id db) = None) as Hgone.
    { apply find_owned_None. intros x Hx [Hx1 _]. unfold Server.delete_row in Hx.
      simpl in Hx. by apply list_elem_of_filter in Hx as [? _]. }
    rewrite Hgone. simpl.
    split; [|split; [|split; [done|split; [by eapply others_delete|]]]].
    + intros x. unfold Server.delete_row. simpl. rewrite list_elem_of_filter. split.
      * intros [Hne Hx]. split; [done|]. intros [[= E] _]. done.
      * intros [Hx Hnot]. split; [|done]. intros E. apply Hnot.
        rewrite (same_id_same_row db x row Hnd Hx Hin) by congruence.
        split; [by rewrite Hid|done].
    + split; [|done]. intros _. exists row. split; [done|]. by rewrite Hid.
    + split; [by apply row_ids_delete|]. done.
  - simpl. rewrite Hf. simpl. pose proof Hf as Hnone. rewrite find_owned_None in Hnone.
    split; [|split; [|done]].
    + intros x. split; [|by intros [? _]].
      intros Hx. split; [done|]. intros [[= E] Hu]. by apply (Hnone x Hx).
    + split; [done|]. intros (x & Hx & [= E] & Hu). exfalso. by apply (Hnone x Hx).
Qed.

(** An upload changes only rows of the caller.  On a table whose row ids
    are distinct, after [POST /api/data] for one identity the rows of every
    other identity are exactly what they were, whatever the body; row ids
    stay distinct, the table of users is untouched, and a request that is
    refused leaves the whole database as it was. *)
Theorem upload_touches_own_rows_only `{Runtime}
    (userId : Z) (req_body : JV) (now : Z) (db : Server.DB) :
  NoDup (row_ids db) →
  let r := Server.post_data userId req_body now db in
  rows_of_others userId r.2 = rows_of_others userId db ∧
  NoDup (row_ids r.2) ∧
  Server.users r.2 = Server.users db ∧
  (Server.status r.1 = 200 ∨ Server.status r.1 = 201 ∨ r.2 = db) ∧
  (∀ row, row ∈ Server.sales_data r.2 →
          row ∈ Server.sales_data db ∨ Server.s_user_id row = userId).
Proof.
  intros Hnd. cbv zeta.
  destruct (post_data_cases userId req_body)
    as [(resp & _ & ->)|(monthId & name & color & config & grouped & raw & ->)].
  { simpl. repeat split; auto. }
  unfold upsert. destruct (Server.find_month userId monthId db) as [row|] eqn:Hf.
  - apply find_month_Some in Hf as (Hin & Hu & _). simpl.
    split; [by apply others_update|]. split; [by rewrite row_ids_update|].
    split; [done|]. split; [auto|].
    intros x (y & -> & Hy)%list_elem_of_fmap.
    case_bool_decide as E; [right|by left]. simpl.
    by rewrite (same_id_same_row db y row Hnd Hy Hin E).
  - pose proof (others_insert userId monthId name color config grouped raw now db) as Ho.
    pose proof (row_ids_insert userId monthId name color config grouped raw now db Hnd)
      as Hi.
    unfold Server.insert_row in *. simpl in *.
    split; [done|]. split; [done|]. split; [done|]. split; [auto|].
    intros x [Hx|Hx]%elem_of_app; [by left|].
    apply list_elem_of_singleton in Hx as ->. by right.
Qed.

(** The id of a deleted record is never handed out again.  On a table
    whose sequence is at least every row id, an upload that creates a
    record (status 201) appends one row, of the caller, with the id one
    above the sequence, which no row of the table has, and moves the
    sequence to that id; an upload that updates or is refused, and every
    delete, leave the sequence where it was.  The sequence stays at least
    every row id, so the ids of new rows keep growing whatever is deleted
    in between.  The answer of the upload does not tell the new id: [run]
    reads [lastInsertRowid] after the database was saved, and the answer
    carries id 0. *)
Theorem row_ids_are_never_reused `{Runtime}
    (userId : Z) (req_body : JV) (now : Z) (deleter : Z) (dataId : option Z)
    (db : Server.DB) :
  seq_bounds db →
  let r := Server.post_data userId req_body now db in
  let d := Server.delete_data deleter dataId db in
  seq_bounds r.2 ∧ seq_bounds d.2 ∧
  Server.sales_seq d.2 = Server.sales_seq db ∧
  (if bool_decide (Server.status r.1 = 201) then
     (∃ row, Server.sales_data r.2 = (Server.sales_data db ++ [row])%list ∧
             Server.s_id row = Server.sales_seq db + 1 ∧
             Server.s_user_id row = userId) ∧
     Server.sales_seq r.2 = Server.sales_seq db + 1 ∧
     ((Server.sales_seq db + 1) ∉ row_ids db) ∧
     Server.body r.1 = VObj [("success", VBool true); ("id", VNum 0)]
   else Server.sales_seq r.2 = Server.sales_seq db).
Proof.
  intros Hb. cbv zeta. pose proof Hb as [H0 Hle].
  split; [|split; [|split]].
  - destruct (post_data_cases userId req_body)
      as [(resp & _ & ->)|(monthId & name & color & config & grouped & raw & ->)];
      [done|].
    unfold upsert. destruct (Server.find_month userId monthId db) as [row|].
    + split; [done|]. simpl. intros x (y & -> & Hy)%list_elem_of_fmap.
      case_bool_decide; simpl; by apply Hle.
    + unfold Server.insert_row, seq_bounds. simpl. rewrite next_id_bounded by done.
      split; [lia|]. intros x [Hx|Hx]%elem_of_app.
      * specialize (Hle x Hx). lia.
      * apply list_elem_of_singleton in Hx as ->. simpl. lia.
  - unfold Server.delete_data. destruct dataId as [id|]; [|done].
    destruct (Server.find_owned id deleter db); [|done].
    split; [done|]. simpl. intros x Hx. apply Hle.
    by apply list_elem_of_filter in Hx as [_ ?].
  - unfold Server.delete_data. destruct dataId as [id|]; [|done].
    by destruct (Server.find_owned id deleter db).
  - destruct (post_data_refused_or_upsert userId req_body)
      as [(resp & Hst & _ & ->)|(fs & stored & _ & _ & _ & _ & ->)].
    { simpl. rewrite bool_decide_eq_false_2; [done|]. by destruct Hst as [->| ->]. }
    unfold upsert. destruct (Server.find_month userId _ db) as [row|].
    + done.
    + unfold Server.insert_row. simpl. rewrite next_id_bounded by done.
      split; [eexists; split; [reflexivity|done]|]. split; [done|]. split; [|done].
      intros (x & E & Hx)%list_elem_of_fmap. specialize (Hle x Hx). lia.
Qed.

(** ** The listing of [GET /api/data] *)

Section Listing.
Context `{Runtime} `{Backend}.

Lemma insert_desc_Permutation (r : Server.SalesRow) (l : list Server.SalesRow) :
  Server.insert_desc r l ≡ₚ r :: l.
Proof.
  induction l as [|x l IH]; simpl; [done|].
  destruct (Server.s_created_at x <=? Server.s_created_at r); [done|].
  rewrite IH. apply Permutation_swap.
Qed.

Lemma order_Permutation (l : list Server.SalesRow) :
  Server.order_by_created_desc l ≡ₚ l.
Proof.
  unfold Server.order_by_created_desc.
  induction l as [|x l IH]; simpl; [done|].
  by rewrite insert_desc_Permutation, IH.
Qed.

Lemma insert_desc_Sorted (r : Server.SalesRow) (l : list Server.SalesRow) :
  Sorted newer_or_same l → Sorted newer_or_same (Server.insert_desc r l).
Proof.
  induction l as [|x l IH]; intros Hs; simpl.
  - by repeat constructor.
  - destruct (Server.s_created_at x <=? Server.s_created_at r) eqn:E.
    + apply Z.leb_le in E. constructor; [done|]. by constructor.
    + apply Z.leb_gt in E. apply Sorted_inv in Hs as [Hs Hhd].
      constructor; [by apply IH|].
      destruct l as [|y l]; simpl.
      * constructor. unfold newer_or_same. lia.
      * destruct (Server.s_created_at y <=? Server.s_created_at r).
        -- constructor. unfold newer_or_same. lia.
        -- constructor. by apply HdRel_inv in Hhd.
Qed.

Lemma order_Sorted (l : list Server.SalesRow) :
  Sorted newer_or_same (Server.order_by_created_desc l).
Proof.
  unfold Server.order_by_created_desc.
  induction l as [|x l IH]; simpl; [constructor|]. by apply insert_desc_Sorted.
Qed.

Lemma exc_mapM_all {A B : Type} (f : A → Exc B) (g : A → B) (l : list A) :
  Forall (λ x, f x = Ok (g x)) l → exc_mapM f l = Ok (g <$> l).
Proof.
  induction 1 as [|x l Hx _ IH]; [done|]. simpl. rewrite Hx. simpl. by rewrite IH.
Qed.

Lemma exc_mapM_Ok {A B : Type} (f : A → Exc B) (l : list A) (l' : list B) :
  exc_mapM f l = Ok l' → Forall (λ x, ∃ y, f x = Ok y) l.
Proof.
  revert l'. induction l as [|x l IH]; intros l'; [by constructor|]. simpl.
  destruct (f x) as [y|e] eqn:Hx; [|done]. simpl.
  destruct (exc_mapM f l) as [ys|e] eqn:Hl; [|done].
  intros _. constructor; [eauto|]. by eapply IH.
Qed.

Lemma readable_item (row : Server.SalesRow) :
  readable row → Server.listed row = Ok (item_of row).
Proof. intros [item E]. unfold item_of. by rewrite E. Qed.

Lemma get_data_readable (userId : Z) (db : Server.DB) :
  Forall readable (rows_of userId db) →
  Server.get_data userId db
  = listing (item_of <$> Server.order_by_created_desc (rows_of userId db)).
Proof.
  intros Hall. unfold Server.get_data. fold (rows_of userId db).
  rewrite (exc_mapM_all Server.listed item_of); [done|].
  rewrite order_Permutation. eapply Forall_impl; [exact Hall|].
  intros row. apply readable_item.
Qed.

Lemma get_data_unreadable (userId : Z) (db : Server.DB) :
  ¬ Forall readable (rows_of userId db) →
  Server.get_data userId db = Server.server_error.
Proof.
  intros Hnot. unfold Server.get_data. fold (rows_of userId db).
  destruct (exc_mapM Server.listed _) as [items|e] eqn:E; [|done].
  exfalso. apply Hnot. apply exc_mapM_Ok in E. by rewrite order_Permutation in E.
Qed.

Lemma readable_dec (rows : list Server.SalesRow) :
  Forall readable rows ∨ ¬ Forall readable rows.
Proof.
  induction rows as [|x l [IH|IH]].
  - left. constructor.
  - destruct (Server.listed x) as [item|e] eqn:E.
    + left. constructor; [by exists item|done].
    + right. intros [[item Hx] _]%Forall_cons. congruence.
  - right. by intros [_ ?]%Forall_cons.
Qed.

Lemma rows_of_via_others (userId other : Z) (db : Server.DB) :
  userId ≠ other →
  rows_of userId db
  = filter (λ r, Server.s_user_id r = userId) (rows_of_others other db).
Proof.
  intros Hne. unfold rows_of, rows_of_others. rewrite list_filter_filter.
  apply filter_same. intros x _. split; [|by intros [? _]].
  intros Hx. split; [done|]. congruence.
Qed.

End Listing.

(** [GET /api/data] lists the rows of the caller, newest first, and nothing
    else.  When the JSON columns of all rows of the caller can be read back,
    the answer is 200 with one item per row of the caller: the items are
    made, in order, of a rearrangement of exactly those rows that is sorted
    by creation time, latest first.  When one of them cannot be read, the
    answer is the server error.  Rows of other identities play no part in
    either case. *)
Theorem listing_holds_own_rows `{Runtime} `{Backend} (userId : Z) (db : Server.DB) :
  (Server.get_data userId db = Server.server_error ∧
   ¬ Forall readable (rows_of userId db))
  ∨
  (∃ rows items,
     Server.get_data userId db = listing items ∧
     rows ≡ₚ rows_of userId db ∧
     Sorted newer_or_same rows ∧
     Forall2 (λ row item, Server.listed row = Ok item) rows items ∧
     length items = length (rows_of userId db) ∧
     (∀ row, row ∈ rows ↔ row ∈ Server.sales_data db ∧ Server.s_user_id row = userId)).
Proof.
  destruct (readable_dec (rows_of userId db)) as [Hall|Hnot].
  2:{ left. split; [by apply get_data_unreadable|done]. }
  right. exists (Server.order_by_created_desc (rows_of userId db)),
    (item_of <$> Server.order_by_created_desc (rows_of userId db)).
  split; [by apply get_data_readable|].
  split; [apply order_Permutation|]. split; [apply order_Sorted|].
  split; [|split].
  - apply Forall2_fmap_r, Forall_Forall2_diag.
    rewrite order_Permutation. eapply Forall_impl; [exact Hall|].
    intros row. apply readable_item.
  - by rewrite length_fmap, order_Permutation.
  - intros row. rewrite order_Permutation. unfold rows_of.
    rewrite list_elem_of_filter. tauto.
Qed.

Section Private.
Context `{Runtime} `{Backend}.

Lemma post_data_others (userId : Z) (req_body : JV) (now : Z) (db : Server.DB) :
  NoDup (row_ids db) →
  rows_of_others userId (Server.post_data userId req_body now db).2
  = rows_of_others userId db.
Proof.
  intros Hnd.
  destruct (post_data_cases userId req_body)
    as [(resp & _ & ->)|(monthId & name & color & config & grouped & raw & ->)]; [done|].
  unfold upsert. destruct (Server.find_month userId monthId db) as [row|] eqn:Hf.
  - apply find_month_Some in Hf as (Hin & Hu & _). by apply others_update.
  - apply others_insert.
Qed.

Lemma delete_data_others (userId : Z) (dataId : option Z) (db : Server.DB) :
  NoDup (row_ids db) →
  rows_of_others userId (Server.delete_data userId dataId db).2
  = rows_of_others userId db.
Proof.
  intros Hnd. unfold Server.delete_data. destruct dataId as [id|]; [|done].
  destruct (Server.find_owned id userId db) as [row|] eqn:Hf; [|done].
  apply find_owned_Some in Hf as (Hin & Hid & Hu). by eapply others_delete.
Qed.

Lemma get_data_same_rows (userId : Z) (db db' : Server.DB) :
  rows_of userId db' = rows_of userId db →
  Server.get_data userId db' = Server.get_data userId db.
Proof. intros E. unfold Server.get_data. fold (rows_of userId db') (rows_of userId db). by rewrite E. Qed.

End Private.

(** Nobody can change what another identity is listed.  On a table whose
    row ids are distinct, after an upload or a delete by one identity,
    whatever the body or the id, [GET /api/data] answers every other
    identity exactly as before. *)
Theorem listing_is_private `{Runtime} `{Backend}
    (userId other : Z) (req_body : JV) (now : Z) (dataId : option Z) (db : Server.DB) :
  NoDup (row_ids db) →
  userId ≠ other →
  Server.get_data userId (Server.post_data other req_body now db).2
    = Server.get_data userId db ∧
  Server.get_data userId (Server.delete_data other dataId db).2
    = Server.get_data userId db.
Proof.
  intros Hnd Hne. split; apply get_data_same_rows.
  - rewrite !(rows_of_via_others userId other) by done. by rewrite post_data_others.
  - rewrite !(rows_of_via_others userId other) by done. by rewrite delete_data_others.
Qed.

Section Uploaded.
Context `{Runtime} `{Backend}.

Lemma stringify_or (x dflt : JV) :
  dflt ≠ VUndef →
  JSON_stringify (js_or x dflt) = JsonText (jsonify (js_or x dflt)).
Proof. intros Hd. unfold js_or. destruct (truthy x) eqn:E; [by destruct x|by destruct dflt]. Qed.

(** The route on a body with a record id, a name and a colour that can be
    stored. *)
Lemma post_data_accepted (userId : Z) (fs : list (string * JV)) (m n : string)
    (stored : JV) (now : Z) (db : Server.DB) :
  get_field fs "monthId" = VStr m → m ≠ "" →
  get_field fs "monthName" = VStr n → n ≠ "" →
  Server.bound_text (js_or (get_field fs "color") (VStr "#4A90A4")) = Ok stored →
  Server.post_data userId (VObj fs) now db
  = upsert userId m n stored
      (JsonText (jsonify (js_or (get_field fs "config") (VObj []))))
      (JsonText (jsonify (js_or (get_field fs "groupedData") (VArr []))))
      (JsonText (jsonify (js_or (get_field fs "rawData") (VArr [])))) now db.
Proof.
  intros Em Hm En Hn Ec. unfold Server.post_data, upsert. simpl. rewrite Em, En. simpl.
  rewrite (proj2 (eqb_empty_false m)), (proj2 (eqb_empty_false n)) by done. simpl.
  rewrite !stringify_or by done. rewrite Ec.
  by destruct (Server.find_month userId m db).
Qed.

Lemma listed_json (id userId : Z) (m n : string) (color config grouped raw : JV)
    (created updated : Z) :
  Server.listed (Server.mkSales id userId m n color (JsonText config) (JsonText grouped)
                                (JsonText raw) created updated)
  = Ok (VObj [("id", VNum id); ("monthId", VStr m); ("monthName", VStr n);
              ("color", color); ("config", config); ("groupedData", grouped);
              ("rawData", raw); ("createdAt", VStr (datetime created));
              ("updatedAt", VStr (datetime updated))]).
Proof. done. Qed.

Lemma rows_of_update (userId : Z) (id : Z) (name : string) (color : JV)
    (config grouped raw : Text) (now : Z) (db : Server.DB) :
  rows_of userId (Server.update_row id name color config grouped raw now db)
  = (λ r, if bool_decide (Server.s_id r = id)
          then Server.mkSales (Server.s_id r) (Server.s_user_id r) (Server.s_month_id r)
                 name color config grouped raw (Server.s_created_at r) now
          else r) <$> rows_of userId db.
Proof.
  unfold rows_of, Server.update_row. simpl.
  by rewrite filter_fmap_same by (intros x; by destruct (bool_decide _)).
Qed.

Lemma rows_of_insert (userId : Z) (monthId name : string) (color : JV)
    (config grouped raw : Text) (now : Z) (db : Server.DB) :
  rows_of userId (Server.insert_row userId monthId name color config grouped raw now db).2
  = (rows_of userId db
     ++ [Server.mkSales (Server.next_id db) userId monthId name color config grouped raw
                        now now])%list.
Proof.
  unfold rows_of, Server.insert_row. simpl.
  by rewrite filter_app, filter_cons, decide_True.
Qed.

End Uploaded.

(** What is uploaded is what is listed.  Take a body with a record id and a
    name (non-empty strings) and a colour that the column can store, and a
    caller whose rows can all be read back.  [GET /api/data] on the
    database after [POST /api/data] answers 200 with a listing that holds an
    item for the record: with the record id and the name of the body, the
    colour as it is stored (a string as it is, a number that fits 32 bits
    as its decimal text), the config and the two payloads as JSON (or the
    empty defaults), and the time of the upload as the time of the last
    update.  When the record was there, the upload is answered 200 with the
    id of that item.  When it is new, the upload is answered 201 with id 0,
    whereas the item is listed under the rowid the row took, one that no
    row had; its creation time is the time of the upload. *)
Theorem uploaded_record_is_listed `{Runtime} `{Backend}
    (userId : Z) (fs : list (string * JV)) (m n : string) (stored : JV) (now : Z)
    (db : Server.DB) :
  get_field fs "monthId" = VStr m → m ≠ "" →
  get_field fs "monthName" = VStr n → n ≠ "" →
  Server.bound_text (js_or (get_field fs "color") (VStr "#4A90A4")) = Ok stored →
  Forall readable (rows_of userId db) →
  let r := Server.post_data userId (VObj fs) now db in
  ∃ id created items,
    Server.get_data userId r.2 = listing items ∧
    VObj [("id", VNum id); ("monthId", VStr m); ("monthName", VStr n);
          ("color", stored);
          ("config", jsonify (js_or (get_field fs "config") (VObj [])));
          ("groupedData", jsonify (js_or (get_field fs "groupedData") (VArr [])));
          ("rawData", jsonify (js_or (get_field fs "rawData") (VArr [])));
          ("createdAt", VStr (datetime created));
          ("updatedAt", VStr (datetime now))] ∈ items ∧
    (r.1 = Server.mkResponse 200 (VObj [("success", VBool true); ("id", VNum id)])
     ∨
     r.1 = Server.mkResponse 201 (VObj [("success", VBool true); ("id", VNum 0)]) ∧
     created = now ∧ id = Server.next_id db ∧ (id ∉ row_ids db)) ∧
    (∀ c, js_or (get_field fs "color") (VStr "#4A90A4") = VStr c → stored = VStr c) ∧
    (∀ k, js_or (get_field fs "color") (VStr "#4A90A4") = VNum k →
          - 2 ^ 31 ≤ k < 2 ^ 31 → stored = VStr (pretty k)).
Proof.
  intros Em Hm En Hn Ec Hall. cbv zeta.
  assert ((∀ c, js_or (get_field fs "color") (VStr "#4A90A4") = VStr c → stored = VStr c) ∧
          (∀ k, js_or (get_field fs "color") (VStr "#4A90A4") = VNum k →
                - 2 ^ 31 ≤ k < 2 ^ 31 → stored = VStr (pretty k))) as Hcol.
  { split.
    - intros c E. rewrite E in Ec. simpl in Ec. by injection Ec.
    - intros k E [Hlo Hhi]. rewrite E in Ec. unfold Server.bound_text in Ec.
      rewrite (proj2 (Z.leb_le _ _) Hlo), (proj2 (Z.ltb_lt _ _) Hhi) in Ec.
      simpl in Ec. by injection Ec. }
  rewrite (post_data_accepted userId fs m n stored) by done. unfold upsert.
  destruct (Server.find_month userId m db) as [row|] eqn:Hf.
  - apply find_month_Some in Hf as (Hin & Hu & Hmonth). simpl.
    exists (Server.s_id row), (Server.s_created_at row).
    eexists.
    assert (Forall readable
              (rows_of userId
                 (Server.update_row (Server.s_id row) n stored
                    (JsonText (jsonify (js_or (get_field fs "config") (VObj []))))
                    (JsonText (jsonify (js_or (get_field fs "groupedData") (VArr []))))
                    (JsonText (jsonify (js_or (get_field fs "rawData") (VArr []))))
                    now db))) as Hall'.
    { rewrite rows_of_update. apply Forall_fmap. eapply Forall_impl; [exact Hall|].
      intros x Hx. simpl. case_bool_decide; [|done]. eexists. apply listed_json. }
    rewrite get_data_readable by done. split; [done|]. split; [|split; [by left|done]].
    apply list_elem_of_fmap.
    exists (Server.mkSales (Server.s_id row) (Server.s_user_id row) (Server.s_month_id row)
              n stored
              (JsonText (jsonify (js_or (get_field fs "config") (VObj []))))
              (JsonText (jsonify (js_or (get_field fs "groupedData") (VArr []))))
              (JsonText (jsonify (js_or (get_field fs "rawData") (VArr []))))
              (Server.s_created_at row) now).
    split; [unfold item_of; rewrite listed_json; by rewrite Hmonth|].
    rewrite order_Permutation, rows_of_update.
    apply list_elem_of_fmap. exists row. rewrite bool_decide_eq_true_2 by done.
    split; [done|]. apply list_elem_of_filter. by split.
  - destruct (Server.insert_row userId m n _ _ _ _ now db) as [id db'] eqn:Hins.
    exists (Server.next_id db), now,
      (item_of <$> Server.order_by_created_desc (rows_of userId db')).
    pose proof (rows_of_insert userId m n stored
                  (JsonText (jsonify (js_or (get_field fs "config") (VObj []))))
                  (JsonText (jsonify (js_or (get_field fs "groupedData") (VArr []))))
                  (JsonText (jsonify (js_or (get_field fs "rawData") (VArr []))))
                  now db) as Hrows.
    rewrite Hins in Hrows. simpl in Hrows.
    assert (id = 0) as -> by (by injection Hins).
    simpl.
    assert (Forall readable (rows_of userId db')) as Hall'.
    { rewrite Hrows. apply Forall_app. split; [done|].
      constructor; [|done]. eexists. apply listed_json. }
    rewrite get_data_readable by done. split; [done|]. split; [|split; [right|done]].
    + apply list_elem_of_fmap. eexists. split; [|rewrite order_Permutation, Hrows;
        apply elem_of_app; right; by left].
      unfold item_of. by rewrite listed_json.
    + split; [done|]. split; [done|]. split; [done|].
      intros (x & E & Hx%ids_below_next)%list_elem_of_fmap. lia.
Qed.

(** ** The months of a visitor: [StorageManager] *)

Section Storage.
Context `{Runtime}.

Lemma isAvailable_probed (a : App) :
  StorageManager.isAvailable a
  = (Ok true, set_localStorage (probed (localStorage a)) a).
Proof.
  unfold StorageManager.isAvailable, probed, PROBE_KEY. js_unfold. simpl.
  by rewrite delete_insert_eq.
Qed.

Lemma probed_other (ls : gmap string Text) (k : string) :
  k ≠ PROBE_KEY → probed ls !! k = ls !! k.
Proof. intros Hk. unfold probed. by rewrite lookup_delete_ne. Qed.

Lemma stored_months_probed (ls : gmap string Text) :
  stored_months (probed ls) = stored_months ls.
Proof. unfold stored_months. by rewrite probed_other. Qed.

Lemma loadData_stored (a : App) :
  StorageManager.loadData a
  = (Ok (stored_months (localStorage a)), set_localStorage (probed (localStorage a)) a).
Proof.
  unfold StorageManager.loadData. js_bind. rewrite isAvailable_probed. simpl.
  unfold stored_months.
  cbv beta iota zeta delta [mbind mret JS_bind JS_ret try_catch getItem get_app lift
                            console_error].
  simpl. rewrite probed_other by done.
  destruct (localStorage a !! STORAGE_KEY) as [t|]; [|done].
  destruct (text_empty t); [done|].
  destruct (JSON_parse t) as [data|e]; [|done]. simpl.
  by destruct (js_map _ data).
Qed.

Lemma saveData_store (data : JV) (a : App) :
  StorageManager.saveData data a
  = match js_map StorageManager.with_iso_string data with
    | Ok mapped =>
        (Ok true,
         set_localStorage (<[STORAGE_KEY := JSON_stringify mapped]> (probed (localStorage a))) a)
    | Throw _ => (Ok false, set_localStorage (probed (localStorage a)) a)
    end.
Proof.
  unfold StorageManager.saveData. js_bind. rewrite isAvailable_probed. simpl.
  cbv beta iota zeta delta [mbind mret JS_bind JS_ret try_catch setItem modify lift
                            console_error].
  by destruct (js_map _ data).
Qed.

Lemma clearData_store (a : App) :
  StorageManager.clearData a
  = (Ok tt, set_localStorage (delete STORAGE_KEY (probed (localStorage a))) a).
Proof.
  unfold StorageManager.clearData. js_bind. rewrite isAvailable_probed. simpl.
  unfold removeItem, modify. by simpl.
Qed.

Lemma stored_months_array (ls : gmap string Text) : ∃ l, stored_months ls = VArr l.
Proof.
  unfold stored_months. destruct (ls !! _) as [t|]; [|by exists []].
  destruct (text_empty t); [by exists []|].
  destruct (JSON_parse t) as [data|e]; simpl; [|by exists []].
  destruct (js_map _ data) as [r|e] eqn:Hm; [|by exists []].
  by apply js_map_array in Hm.
Qed.

Lemma get_set_field (fs : list (string * JV)) (k : string) (v : JV) :
  get_field (set_field fs k v) k = v.
Proof.
  induction fs as [|[k' x] fs IH]; simpl; [by rewrite String.eqb_refl|].
  destruct (String.eqb k' k) eqn:E; simpl; [by rewrite String.eqb_refl|].
  by rewrite E.
Qed.

Lemma set_set_field (fs : list (string * JV)) (k : string) (v w : JV) :
  set_field (set_field fs k v) k w = set_field fs k w.
Proof.
  induction fs as [|[k' x] fs IH]; simpl; [by rewrite String.eqb_refl|].
  destruct (String.eqb k' k) eqn:E; simpl; [by rewrite String.eqb_refl|].
  by rewrite E, IH.
Qed.

Lemma set_get_field (fs : list (string * JV)) (k : string) :
  get_field fs k ≠ VUndef → set_field fs k (get_field fs k) = fs.
Proof.
  induction fs as [|[k' x] fs IH]; simpl; [done|].
  destruct (String.eqb k' k) eqn:E.
  - by apply String.eqb_eq in E as ->.
  - intros Hne. by rewrite IH.
Qed.

Lemma others_json (fs : list (string * JV)) (k : string) :
  k ∉ fs.*1 →
  forallb (λ kv, String.eqb kv.1 k || is_json kv.2) fs = true →
  forallb (λ kv, is_json kv.2) fs = true.
Proof.
  induction fs as [|[k' x] fs IH]; simpl; [done|].
  intros Hk [Hx Hfs]%andb_true_iff.
  apply not_elem_of_cons in Hk as [Hne Hk].
  assert (String.eqb k' k = false) as E by (apply String.eqb_neq; congruence).
  rewrite E in Hx. simpl in Hx. rewrite Hx. simpl. by apply IH.
Qed.

Lemma set_field_json (fs : list (string * JV)) (k : string) (v : JV) :
  NoDup fs.*1 → is_json v = true →
  forallb (λ kv, String.eqb kv.1 k || is_json kv.2) fs = true →
  forallb (λ kv, is_json kv.2) (set_field fs k v) = true.
Proof.
  intros Hnd Hv. induction fs as [|[k' x] fs IH]; simpl; [by rewrite Hv|].
  rewrite fmap_cons in Hnd. apply NoDup_cons in Hnd as [Hk Hnd]. simpl in Hk.
  intros [Hx Hfs]%andb_true_iff.
  destruct (String.eqb k' k) eqn:E; simpl.
  - rewrite Hv. simpl. apply String.eqb_eq in E as ->. by apply (others_json fs k).
  - simpl in Hx. rewrite Hx. simpl. by apply IH.
Qed.

(** One month, written and read back. *)
Lemma storable_round_trip (d : JV) :
  storable d = true →
  ∃ d1, StorageManager.with_iso_string d = Ok d1 ∧
        LocalCacheManager.with_date (jsonify d1) = Ok d.
Proof.
  destruct d as [ | | | | | | |fs]; try done. unfold storable.
  intros [[Hnd%bool_decide_eq_true Hdate]%andb_true_iff Hjs]%andb_true_iff.
  destruct (get_field fs "importedAt") as [ | | | | |[t|]| | ] eqn:Hg; try done.
  apply bool_decide_eq_true in Hdate.
  exists (VObj (set_field fs "importedAt" (VStr (toISOString t)))). split.
  - unfold StorageManager.with_iso_string. simpl. by rewrite Hg.
  - rewrite jsonify_json by (simpl; by apply set_field_json).
    unfold LocalCacheManager.with_date. simpl.
    rewrite get_set_field, set_set_field. unfold new_Date. rewrite Hdate, <- Hg.
    rewrite set_get_field; [done|]. by rewrite Hg.
Qed.

Lemma storable_months (records : list JV) :
  forallb storable records = true →
  ∃ mapped, exc_mapM StorageManager.with_iso_string records = Ok mapped ∧
            exc_mapM LocalCacheManager.with_date (map jsonify mapped) = Ok records.
Proof.
  induction records as [|d records IH]; [by exists []|]. simpl.
  intros [Hd Hr]%andb_true_iff.
  destruct (IH Hr) as (mapped & Hm & Hback).
  destruct (storable_round_trip d Hd) as (d1 & Hd1 & Hback1).
  exists (d1 :: mapped). simpl. rewrite Hd1. simpl. rewrite Hm. simpl.
  split; [done|]. rewrite Hback1. simpl. by rewrite Hback.
Qed.

Lemma exc_mapM_throws {A B : Type} (f : A → Exc B) (l : list A) (x : A) :
  x ∈ l → (∀ y, f x ≠ Ok y) → ∃ e, exc_mapM f l = Throw e.
Proof.
  intros Hin Hx. induction l as [|z l IH]; [by apply not_elem_of_nil in Hin|].
  simpl. destruct (f z) as [y|e] eqn:Hz; [|by exists e]. simpl.
  apply elem_of_cons in Hin as [->|Hin]; [by destruct (Hx y)|].
  destruct (IH Hin) as [e ->]. by exists e.
Qed.

End Storage.

(** The months that [saveData] writes are the months that [loadData] reads.
    For a list of months, each an object with a valid [importedAt] date and
    JSON values otherwise, [saveData] returns [true], and [loadData] on the
    store it leaves returns exactly that list, dates included.  Of the other
    stored entries only the probe key of [isAvailable] is touched (it is
    removed); after [clearData], [loadData] returns the empty list. *)
Theorem saved_months_are_loaded `{Runtime} (records : list JV) (a : App) :
  forallb storable records = true →
  ∃ a1 a2 a3,
    StorageManager.saveData (VArr records) a = (Ok true, a1) ∧
    StorageManager.loadData a1 = (Ok (VArr records), a2) ∧
    (∀ k, k ≠ STORAGE_KEY → k ≠ PROBE_KEY → localStorage a2 !! k = localStorage a !! k) ∧
    token a2 = token a ∧ currentUser a2 = currentUser a ∧ syncStatus a2 = syncStatus a ∧
    StorageManager.clearData a2 = (Ok tt, a3) ∧
    (StorageManager.loadData a3).1 = Ok (VArr []).
Proof.
  intros Hst. destruct (storable_months records Hst) as (mapped & Hm & Hback).
  rewrite saveData_store. simpl. rewrite Hm. simpl.
  eexists _, _, _. split; [done|].
  rewrite loadData_stored. simpl. split.
  { f_equal. f_equal. unfold stored_months. rewrite lookup_insert_eq. simpl.
    by rewrite Hback. }
  simpl. split.
  { intros k H1 H2. rewrite probed_other by done.
    rewrite lookup_insert_ne by done. by apply probed_other. }
  split; [done|]. split; [done|]. split; [done|].
  rewrite clearData_store. split; [done|].
  rewrite loadData_stored. simpl. unfold stored_months.
  rewrite lookup_delete_eq. done.
Qed.

(** A list that cannot be written leaves the stored months alone.  When
    the data are not an array, or one of the months has no valid date under
    [importedAt] (a month as [getCachedData] gives it back, for instance,
    when the record was cached without that property), [saveData] returns
    [false] and the entry of the months is what it was: [loadData] returns
    the same months before and after. *)
Theorem unsaved_months_keep_the_stored_ones `{Runtime} (data : JV) (a : App) :
  (∀ l, data = VArr l →
        ∃ d, d ∈ l ∧ ∀ t, opt_prop d "importedAt" ≠ VDate (Some t)) →
  ∃ a',
    StorageManager.saveData data a = (Ok false, a') ∧
    localStorage a' !! STORAGE_KEY = localStorage a !! STORAGE_KEY ∧
    (StorageManager.loadData a').1 = (StorageManager.loadData a).1 ∧
    (∀ k, k ≠ PROBE_KEY → localStorage a' !! k = localStorage a !! k).
Proof.
  intros Hbad. rewrite saveData_store.
  assert (∃ e, js_map StorageManager.with_iso_string data = Throw e) as [e ->].
  { destruct data as [ | | | | | |l|]; try (by eexists).
    destruct (Hbad l eq_refl) as (d & Hin & Hd). simpl.
    destruct (exc_mapM_throws StorageManager.with_iso_string l d Hin) as [e ->];
      [|by exists e].
    intros y. unfold StorageManager.with_iso_string, opt_prop in *.
    destruct (prop d "importedAt") as [v|e]; [|done]. simpl.
    destruct v as [ | | | | |[t|]| | ]; try done. by destruct (Hd t). }
  eexists. split; [done|]. simpl.
  split; [by apply probed_other|]. split.
  - rewrite !loadData_stored. simpl. by rewrite stored_months_probed.
  - intros k Hk. by apply probed_other.
Qed.

(** ** The months on the page: [StateManager] *)

Ltac page_unfold :=
  cbv beta iota zeta delta
    [mbind mret Page_bind Page_ret browser get_months put_months page_try].

Lemma to_double_exact (z : Z) : Z.abs z ≤ 2 ^ 53 → to_double z = z.
Proof. intros Hz. unfold to_double. by rewrite (proj2 (Z.leb_le _ _) Hz). Qed.

(** The colours of the months.  With a colour index from 0 to below 2^53,
    the range in which adding one is exact, [getNextColor] returns the
    colour of the palette at the index modulo eight and moves the index by
    one.  The palette has eight distinct colours, so the colour comes back
    after exactly eight calls: two months get the same colour only when
    their indices differ by a multiple of eight.  At 2^53 the index no
    longer moves. *)
Theorem colours_cycle_through_palette (s : Months) (a : App) :
  0 ≤ colorIndex s < 2 ^ 53 →
  ∃ c,
    StateManager.getNextColor s a
      = (Ok (VStr c), mkMonths (monthsData s) (colorIndex s + 1), a) ∧
    COLOR_PALETTE !! Z.to_nat (colorIndex s `mod` 8) = Some c ∧
    (∀ j, 0 ≤ j → colorIndex s + j < 2 ^ 53 →
          (StateManager.getNextColor (mkMonths (monthsData s) (colorIndex s + j)) a).1.1
            = Ok (VStr c)
          ↔ j `mod` 8 = 0) ∧
    (StateManager.getNextColor (mkMonths (monthsData s) (2 ^ 53)) a).1.2
      = mkMonths (monthsData s) (2 ^ 53).
Proof.
  intros [Hi Hmax].
  assert (∀ i, 0 ≤ i < 2 ^ 53 →
            ∃ c, COLOR_PALETTE !! Z.to_nat (i `mod` 8) = Some c ∧
                 ∀ md, StateManager.getNextColor (mkMonths md i) a
                       = (Ok (VStr c), mkMonths md (i + 1), a)) as Hget.
  { intros i [H0 H1]. pose proof (Z.mod_pos_bound i 8 ltac:(lia)) as Hb.
    destruct (COLOR_PALETTE !! Z.to_nat (i `mod` 8)) as [c|] eqn:Hc.
    2:{ apply lookup_ge_None in Hc. simpl in Hc. lia. }
    exists c. split; [done|]. intros md.
    unfold StateManager.getNextColor. page_unfold. simpl colorIndex.
    change (Z.of_nat (length COLOR_PALETTE)) with 8.
    rewrite Z.rem_mod_nonneg by lia.
    assert ((i `mod` 8 <? 0) = false) as -> by (apply Z.ltb_ge; lia).
    rewrite to_double_exact by lia.
    by rewrite Hc. }
  destruct (Hget (colorIndex s) (conj Hi Hmax)) as (c & Hc & Hrun).
  exists c. split; [destruct s; apply Hrun|]. split; [done|].
  split; [|by vm_compute].
  intros j Hj Hjmax.
  destruct (Hget (colorIndex s + j) ltac:(lia)) as (c' & Hc' & Hrun').
  rewrite Hrun'. simpl.
  assert (NoDup COLOR_PALETTE) as Hnd by (apply (bool_decide_unpack _); by vm_compute).
  pose proof (Z.mod_pos_bound (colorIndex s) 8 ltac:(lia)).
  pose proof (Z.mod_pos_bound (colorIndex s + j) 8 ltac:(lia)).
  pose proof (Z.mod_pos_bound j 8 ltac:(lia)).
  split.
  - intros [= ->].
    pose proof (NoDup_lookup _ _ _ _ Hnd Hc Hc') as E.
    apply Z2Nat.inj in E; [|lia|lia].
    rewrite Z.add_mod in E by lia.
    destruct (decide (j `mod` 8 = 0)) as [|Hne]; [done|].
    exfalso.
    assert ((colorIndex s `mod` 8 + j `mod` 8) `mod` 8
            = if decide (colorIndex s `mod` 8 + j `mod` 8 < 8)
              then colorIndex s `mod` 8 + j `mod` 8
              else colorIndex s `mod` 8 + j `mod` 8 - 8) as E'.
    { case_decide.
      - apply Z.mod_small. lia.
      - symmetry. apply (Z.mod_unique_pos _ 8 1); lia. }
    rewrite E' in E. case_decide; lia.
  - intros Hz. f_equal. f_equal.
    assert ((colorIndex s + j) `mod` 8 = colorIndex s `mod` 8) as E.
    { rewrite Z.add_mod by lia. rewrite Hz, Z.add_0_r. by rewrite Z.mod_mod by lia. }
    rewrite E in Hc'. congruence.
Qed.

Section PageState.
Context `{Runtime}.

Lemma init_run (s : Months) (a : App) (saved : list JV) :
  stored_months (localStorage a) = VArr saved →
  StateManager.init s a
  = (Ok tt, months_after_init saved s, set_localStorage (probed (localStorage a)) a).
Proof.
  intros Hs. unfold StateManager.init. page_unfold.
  rewrite loadData_stored, Hs. simpl.
  by destruct saved as [|m saved].
Qed.

Lemma uploadData_returns (net : Net) (monthData : JV) (a : App) :
  ∃ b rest a',
    CloudSyncManager.uploadData net monthData a
    = (Ok (VObj (("success", VBool b) :: rest)), a').
Proof.
  destruct (isLoggedIn_state a) as [[] Hin].
  - destruct (onLine net) eqn:Hon.
    + destruct (reply net) as [data|] eqn:Hr.
      * destruct (prop data "success") as [s|e] eqn:Hs.
        -- destruct (truthy s) eqn:Ht.
           ++ rewrite (uploadData_accepted net monthData data s) by done. by eexists _, _, _.
           ++ rewrite (uploadData_rejected net monthData data s) by done. by eexists _, _, _.
        -- rewrite uploadData_caught by eauto. by eexists _, _, _.
      * rewrite uploadData_caught by eauto. by eexists _, _, _.
    + rewrite uploadData_offline by done. by eexists _, _, _.
  - rewrite uploadData_logged_out by done. by eexists _, _, _.
Qed.

Lemma deleteData_returns (net : Net) (monthId : JV) (a : App) :
  ∃ b rest a',
    CloudSyncManager.deleteData net monthId a
    = (Ok (VObj (("success", VBool b) :: rest)), a').
Proof.
  destruct (isLoggedIn_state a) as [[] Hin].
  - destruct (onLine net) eqn:Hon.
    + destruct (reply net) as [data|] eqn:Hr.
      * destruct (prop data "success") as [s|e] eqn:Hs.
        -- destruct (truthy s) eqn:Ht.
           ++ rewrite (deleteData_accepted net monthId data s) by done. by eexists _, _, _.
           ++ rewrite (deleteData_rejected net monthId data s) by done. by eexists _, _, _.
        -- rewrite deleteData_caught by eauto. by eexists _, _, _.
      * rewrite deleteData_caught by eauto. by eexists _, _, _.
    + rewrite deleteData_offline by done. by eexists _, _, _.
  - rewrite deleteData_logged_out by done. by eexists _, _, _.
Qed.

Lemma saveData_session (data : JV) (a : App) :
  ∃ saved a1,
    StorageManager.saveData data a = (Ok saved, a1) ∧
    token a1 = token a ∧ currentUser a1 = currentUser a ∧
    syncStatus a1 = syncStatus a ∧
    (∀ k, k ≠ STORAGE_KEY → k ≠ PROBE_KEY → localStorage a1 !! k = localStorage a !! k).
Proof.
  rewrite saveData_store. destruct (js_map _ data) as [mapped|e]; eexists _, _;
    (split; [done|]); simpl; repeat split; try done; intros k H1 H2.
  - rewrite lookup_insert_ne by done. by apply probed_other.
  - by apply probed_other.
Qed.

End PageState.

(** What a logout does to the store, entry by entry.  [handleLogout], with
    the call of [StateManager.init] that ends it, removes the two entries of
    the session, the pending-operation log, the cache entries of all
    identities (every key that starts with the cache prefix) and the probe
    key, which [isAvailable] writes and removes when [init] loads the saved
    months.  It leaves every other entry as it was: the months that a
    visitor saved without an account, under the key of [StorageManager], are
    still there after the logout.  [clearAllCache] alone removes the log and
    the cache entries and nothing else. *)
Theorem logout_removes_only_its_entries `{Runtime} (s : Months) (a : App) :
  (∃ s' a', handleLogout_page s a = (Ok tt, s', a') ∧
            (∀ k, localStorage a' !! k
                  = if removed_by_logout k || bool_decide (k = PROBE_KEY)
                    then None else localStorage a !! k) ∧
            localStorage a' !! STORAGE_KEY = localStorage a !! STORAGE_KEY) ∧
  (∃ a', LocalCacheManager.clearAllCache a = (Ok tt, a') ∧
         (∀ k, localStorage a' !! k
               = if bool_decide (k = LocalCacheManager.PENDING_OPS_KEY)
                    || String.prefix LocalCacheManager.CACHE_KEY_PREFIX k
                 then None else localStorage a !! k) ∧
         token a' = token a ∧ currentUser a' = currentUser a).
Proof.
  split.
  - destruct (handleLogout_state a) as [i Hout].
    destruct (stored_months_array (logged_out_store (currentUser a) (localStorage a)))
      as [saved Hs].
    assert (∀ k, probed (logged_out_store (currentUser a) (localStorage a)) !! k
                 = if removed_by_logout k || bool_decide (k = PROBE_KEY)
                   then None else localStorage a !! k) as Hlook.
    { intros k. case_bool_decide as Hk.
      - subst. rewrite orb_true_r. apply lookup_delete_eq.
      - rewrite orb_false_r, probed_other by done. apply logged_out_store_lookup. }
    eexists _, _. split.
    { unfold handleLogout_page. page_unfold. rewrite Hout. simpl.
      rewrite (init_run _ _ saved) by done. done. }
    simpl. split; [exact Hlook|]. by rewrite Hlook.
  - rewrite clearAllCache_swept. eexists. split; [done|]. simpl.
    split; [intros k; apply swept_lookup|done].
Qed.

(** What a logout leaves on the page.  [handleLogout] ends with
    [StateManager.init], which takes the months that the visitor saved
    without an account, and only when there are some: the months on the page
    after the logout are those saved months, with the colour index at their
    number, and when nothing is saved they are the months that were on the
    page before the logout, those of the account included.  The saved months
    themselves are not touched by the logout. *)
Theorem logout_reloads_the_saved_months `{Runtime} (s : Months) (a : App) :
  ∃ saved a1 a',
    StorageManager.loadData a = (Ok (VArr saved), a1) ∧
    handleLogout_page s a = (Ok tt, months_after_init saved s, a') ∧
    StateManager.init s a = (Ok tt, months_after_init saved s, a1) ∧
    token a' = VNull ∧ currentUser a' = VNull ∧
    (StorageManager.loadData a').1 = Ok (VArr saved).
Proof.
  destruct (stored_months_array (localStorage a)) as [saved Hs].
  destruct (handleLogout_state a) as [i Hout].
  assert (stored_months (logged_out_store (currentUser a) (localStorage a)) = VArr saved)
    as Hs'.
  { rewrite <- Hs. unfold stored_months. by rewrite logged_out_store_lookup. }
  exists saved. eexists _, _.
  split; [by rewrite loadData_stored, Hs|]. split.
  { unfold handleLogout_page. page_unfold. rewrite Hout. simpl.
    rewrite (init_run _ _ saved) by done. done. }
  split; [by apply init_run|]. simpl. split; [done|]. split; [done|].
  rewrite loadData_stored. simpl. by rewrite stored_months_probed, Hs'.
Qed.

Section CloudMonths.
Context `{Runtime}.

Lemma cacheData_returns (userId data : JV) (a : App) :
  ∃ a', LocalCacheManager.cacheData userId data a = (Ok tt, a').
Proof. rewrite cacheData_store. by eexists. Qed.

Lemma downloadAllData_returns (net : Net) (a : App) :
  ∃ fs a', CloudSyncManager.downloadAllData net a = (Ok (VObj fs), a').
Proof.
  destruct (isLoggedIn_state a) as [[] Hin].
  2:{ unfold CloudSyncManager.downloadAllData. js_bind. rewrite Hin. by eexists _, _. }
  destruct (onLine net) eqn:Hon.
  2:{ unfold CloudSyncManager.downloadAllData, CloudSyncManager.isOnline.
      js_bind. rewrite Hin, Hon. simpl. js_bind.
      rewrite setSyncStatus_painted, cached_or_from_cache. unfold from_cache.
      destruct (CloudSyncManager.has_items _); by eexists _, _. }
  assert (∀ msg b, ∃ fs, from_cache b msg = VObj fs) as Hfc.
  { intros msg b. unfold from_cache. destruct (CloudSyncManager.has_items _); by eexists. }
  destruct (reply net) as [result|] eqn:Hr.
  2:{ rewrite downloadAllData_caught by eauto.
      destruct (Hfc "网络错误" (cached (opt_prop (currentUser a) "id") (localStorage a)))
        as [fs ->]. by eexists _, _. }
  destruct (prop result "success") as [s|e] eqn:Hs.
  2:{ rewrite downloadAllData_caught by eauto.
      destruct (Hfc "网络错误" (cached (opt_prop (currentUser a) "id") (localStorage a)))
        as [fs ->]. by eexists _, _. }
  destruct (truthy s) eqn:Ht.
  2:{ rewrite (downloadAllData_rejected net result s) by done. by eexists _, _. }
  unfold CloudSyncManager.downloadAllData, CloudSyncManager.isOnline.
  js_bind. rewrite Hin, Hon. simpl. js_bind.
  rewrite setSyncStatus_painted. unfold fetch_json. rewrite Hr.
  destruct (prop_opt _ _ _ "data" Hs) as [_ Hd].
  cbv beta iota zeta delta [mbind mret JS_bind JS_ret try_catch lift].
  rewrite Hs, Ht. rewrite setSyncStatus_painted.
  unfold AuthManager.getCurrentUser.
  cbv beta iota zeta delta [mbind mret JS_bind JS_ret try_catch lift modify get_app].
  rewrite Hd.
  destruct (truthy (opt_prop (currentUser _) "id")).
  - match goal with |- context [LocalCacheManager.cacheData ?u ?d ?x] =>
      destruct (cacheData_returns u d x) as [a' ->] end.
    by eexists _, _.
  - by eexists _, _.
Qed.

Lemma pretty_N_go_nonempty (x : N) (s : string) : s ≠ "" → pretty_N_go x s ≠ "".
Proof.
  revert s. induction (N.lt_wf_0 x) as [x _ IH]. intros s Hs.
  destruct (decide (x = 0%N)) as [->|Hx]; [by rewrite pretty_N_go_0|].
  rewrite pretty_N_go_step by lia. apply IH; [|done].
  apply N.div_lt; lia.
Qed.

Lemma pretty_Z_nonempty (n : Z) : String.eqb (pretty n) "" = false.
Proof.
  apply eqb_empty_false. destruct n as [|p|p]; [done| |done].
  unfold pretty, pretty_Z, pretty, pretty_positive, pretty, pretty_N.
  rewrite decide_False by done.
  rewrite pretty_N_go_step by lia. by apply pretty_N_go_nonempty.
Qed.

(** The properties of an object after [JSON.stringify] and [JSON.parse]. *)
Lemma get_field_jsonify (fs : list (string * JV)) :
  NoDup fs.*1 →
  ∃ fs', jsonify (VObj fs) = VObj fs' ∧
         ∀ k, get_field fs' k
              = match get_field fs k with VUndef => VUndef | x => jsonify x end.
Proof.
  intros Hnd. induction fs as [|[k' x] fs IH]; [by exists []|].
  rewrite fmap_cons in Hnd. apply NoDup_cons in Hnd as [Hk Hnd]. simpl in Hk.
  destruct (IH Hnd) as (fs' & Hj & Hget). simpl in Hj. injection Hj as Hj.
  assert (∀ k, get_field fs k ≠ VUndef → k ∈ fs.*1) as Hkey.
  { clear. intros k. induction fs as [|[k1 x1] fs IH]; simpl; [done|].
    destruct (String.eqb k1 k) eqn:E.
    - apply String.eqb_eq in E as ->. intros _. left.
    - intros Hne. right. by apply IH. }
  assert (x = VUndef ∨ x ≠ VUndef) as [->|Hx] by (destruct x; auto).
  - exists fs'. simpl. rewrite Hj. split; [done|]. intros k.
    destruct (String.eqb k' k) eqn:E; [|apply Hget].
    apply String.eqb_eq in E as ->. rewrite Hget.
    destruct (get_field fs k) eqn:Hg; try done;
      exfalso; apply Hk, Hkey; by rewrite Hg.
  - exists ((k', jsonify x) :: fs'). split.
    + simpl. rewrite Hj. by destruct x.
    + intros k. simpl. destruct (String.eqb k' k); [by destruct x|apply Hget].
Qed.

Lemma from_cloud_month (now : Z) (item : JV) :
  nullish item = false →
  StateManager.from_cloud now item = Ok (month_of_item now item).
Proof.
  intros Hn. unfold month_of_item.
  destruct (StateManager.from_cloud now item) eqn:E; [done|].
  by destruct item.
Qed.

Lemma from_cloud_months (now : Z) (items : list JV) :
  forallb (λ item, negb (nullish item)) items = true →
  exc_mapM (StateManager.from_cloud now) items = Ok (month_of_item now <$> items).
Proof.
  intros Hall. apply exc_mapM_all. apply Forall_forall. intros item Hin.
  apply from_cloud_month.
  induction items as [|x l IH]; [by apply not_elem_of_nil in Hin|].
  simpl in Hall. apply andb_true_iff in Hall as [Hx Hl].
  apply elem_of_cons in Hin as [->|Hin]; [by apply negb_true_iff|by apply IH].
Qed.

End CloudMonths.

(** The months of the account replace the months on the page only when a
    download gives a list.  [initFromCloud] never throws.  Without a
    session it returns [false] and asks for nothing.  With a session it
    calls [downloadAllData] once; when the result carries no success flag it
    returns [false] and the months on the page stay what they were; when the
    result is a success with a list of items, none of them [null], the
    months on the page become the months made of those items, in order, and
    the colour index becomes their number.  A month made of an item of the
    service takes the row id, as a string, for its id, the name of the
    record (when it is not empty) for its name, and, as the item carries no
    [importedAt], the time of the download for its date. *)
Theorem cloud_months_replace_the_page `{Runtime} `{Backend}
    (net : Net) (s : Months) (a : App) :
  (AuthManager.isLoggedIn a = (Ok false, a) →
   StateManager.initFromCloud net s a = (Ok false, s, a)) ∧
  (AuthManager.isLoggedIn a = (Ok true, a) →
   ∃ result a1,
     CloudSyncManager.downloadAllData net a = (Ok result, a1) ∧
     (truthy (opt_prop result "success") = false →
      StateManager.initFromCloud net s a = (Ok false, s, a1)) ∧
     (∀ items,
        truthy (opt_prop result "success") = true →
        opt_prop result "data" = VArr items →
        forallb (λ item, negb (nullish item)) items = true →
        StateManager.initFromCloud net s a
        = (Ok true,
           mkMonths (VArr (month_of_item (now net) <$> items)) (Z.of_nat (length items)),
           a1))) ∧
  (∀ row item,
     Server.listed row = Ok item →
     ∃ rest,
       month_of_item (now net) (jsonify item)
       = VObj (("id", VStr (pretty (Server.s_id row)))
               :: ("month", js_or (VStr (Server.s_month_name row)) VUndef)
               :: ("color", js_or (jsonify (Server.s_color row)) (VStr "#E3F2FD"))
               :: ("importedAt", VDate (Some (now net)))
               :: rest)).
Proof.
  split; [|split].
  - intros Hout. unfold StateManager.initFromCloud. page_unfold. by rewrite Hout.
  - intros Hin. destruct (downloadAllData_returns net a) as (fs & a1 & Hd).
    exists (VObj fs), a1. split; [done|]. split.
    + intros Hno. unfold StateManager.initFromCloud. page_unfold. rewrite Hin. simpl.
      rewrite Hd. simpl. unfold opt_prop in Hno. simpl in Hno.
      rewrite Hno. cbv beta iota. by rewrite Hno.
    + intros items Hyes Hdata Hall.
      unfold StateManager.initFromCloud. page_unfold. rewrite Hin. simpl.
      rewrite Hd. simpl. unfold opt_prop in Hyes, Hdata. simpl in Hyes, Hdata.
      rewrite Hyes. cbv beta iota. rewrite Hdata. simpl.
      rewrite from_cloud_months by done. simpl. by rewrite length_fmap.
  - intros row item Hl. unfold Server.listed in Hl.
    destruct (Server.parse_or (Server.s_config row) _) as [config|]; [|done].
    destruct (Server.parse_or (Server.s_grouped_data row) _) as [grouped|]; [|done].
    destruct (Server.parse_or (Server.s_raw_data row) _) as [raw|]; [|done].
    simpl in Hl. injection Hl as <-.
    match goal with |- context [jsonify (VObj ?l)] =>
      destruct (get_field_jsonify l) as (fs' & -> & Hget) end.
    { apply (bool_decide_unpack _). by vm_compute. }
    eexists. unfold month_of_item, StateManager.from_cloud. simpl.
    rewrite !Hget. simpl.
    assert (js_or (js_or (VStr (pretty (Server.s_id row))) (VStr (Server.s_month_id row)))
                  (VStr (pretty (now net)))
            = VStr (pretty (Server.s_id row))) as ->.
    { unfold js_or. simpl. rewrite pretty_Z_nonempty. simpl.
      by rewrite pretty_Z_nonempty. }
    do 3 f_equal.
    apply (f_equal2 cons); [|reflexivity].
    f_equal. by destruct (Server.s_color row) as [ | | | | |[]| | ].
Qed.

(** A month that is added stays on the page, is saved for the visitor and,
    with a session, is sent to the service.  [addMonthData] appends the
    month to the months on the page and calls [saveData] with the longer
    list, whatever comes next.  Without a session that is all.  With a
    session it then calls [uploadData] once, with the record made of the id,
    the name, the colour, the config and the two payloads of the month, and
    it completes whatever the upload returns; when the network is
    unreachable, that record is what is appended to the pending-operation
    log. *)
Theorem added_month_stays_on_the_page `{Runtime}
    (net : Net) (monthData : JV) (months : list JV) (idx : Z) (a : App) :
  let s := mkMonths (VArr months) idx in
  let s' := mkMonths (VArr (months ++ [monthData])) idx in
  ∃ saved a1,
    StorageManager.saveData (VArr (months ++ [monthData])) a = (Ok saved, a1) ∧
    (AuthManager.isLoggedIn a = (Ok false, a) →
     StateManager.addMonthData net monthData s a = (Ok tt, s', a1)) ∧
    (AuthManager.isLoggedIn a = (Ok true, a) → nullish monthData = false →
     ∃ r a2,
       CloudSyncManager.uploadData net (cloud_record monthData) a1 = (Ok r, a2) ∧
       StateManager.addMonthData net monthData s a = (Ok tt, s', a2) ∧
       (onLine net = false →
        ∀ ops, LocalCacheManager.getPendingOperations a = (Ok (VArr ops), a) →
               syncStatus a2 = offline ∧
               LocalCacheManager.getPendingOperations a2
               = (Ok (VArr (map jsonify (ops ++ [upload_op net (cloud_record monthData)]))),
                  a2))).
Proof.
  cbv zeta. destruct (saveData_session (VArr (months ++ [monthData])) a)
    as (saved & a1 & Hsave & Htok & Huser & Hst & Hkeys).
  exists saved, a1. split; [done|]. split.
  - intros Hout. unfold StateManager.addMonthData. page_unfold. unfold lift.
    cbn [js_push monthsData colorIndex fst snd]. rewrite Hsave. cbn [fst snd].
    by rewrite (isLoggedIn_same a a1 false Htok Huser Hout).
  - intros Hin Hnn.
    pose proof (isLoggedIn_same a a1 true Htok Huser Hin) as Hin1.
    destruct (uploadData_returns net (cloud_record monthData) a1)
      as (b & rest & a2 & Hup).
    exists (VObj (("success", VBool b) :: rest)), a2. split; [done|]. split.
    + unfold StateManager.addMonthData. page_unfold. unfold lift.
      cbn [js_push monthsData colorIndex fst snd]. rewrite Hsave. cbn [fst snd].
      rewrite Hin1. cbn [fst snd negb].
      assert (∀ k, prop monthData k = Ok (opt_prop monthData k)) as Hp
        by (intros k; unfold opt_prop; by destruct monthData).
      rewrite !Hp. cbn [fst snd]. fold (cloud_record monthData). rewrite Hup. done.
    + intros Hoff ops Hops.
      rewrite uploadData_offline in Hup by done. injection Hup as _ _ <-.
      rewrite getPendingOperations_pending in Hops. injection Hops as Hops.
      assert (pending (localStorage a1) = VArr ops) as Hops1.
      { rewrite <- Hops. unfold pending. by rewrite Hkeys. }
      simpl. rewrite painted_syncStatus. split; [done|].
      rewrite getPendingOperations_pending. simpl.
      by rewrite (enqueued_array _ _ ops), pending_array_text.
Qed.

(** * The code on concrete inputs *)

#[local] Existing Instance example_runtime.

(** C1, the code at an input where it departs from the claim.  The log
    holds two uploads; the session is authenticated and the network
    reachable; the service accepts the first replayed upload and refuses the
    second.  The run counts one success and one failure, sets the status to
    [error], and clears the whole log: the refused upload is gone, where the
    claim keeps the log for a retry. *)
Theorem C1_partial_failure_clears_log :
  let before := session (log_of [queued_m1; queued_m2]) idle in
  let nets := λ i : nat, match i with O => reachable accepted | _ => reachable refused end in
  let run := CloudSyncManager.syncPendingOperations (reachable accepted) nets before in
  (LocalCacheManager.getPendingOperations before).1 = Ok (VArr [queued_m1; queued_m2]) ∧
  run.1 = Ok (CloudSyncManager.sync_result false 1 1) ∧
  syncStatus run.2 = error ∧
  (LocalCacheManager.getPendingOperations run.2).1 = Ok (VArr []) ∧
  localStorage run.2 !! LocalCacheManager.PENDING_OPS_KEY = None.
Proof. vm_compute. repeat split; reflexivity. Qed.

(** C2 fails: a log of one upload, replayed into a network error, comes
    back with two. *)
Lemma C2_counterexample :
  ¬ claim_C2 (session (log_of [queued_m1]) idle) (reachable accepted)
             (λ _, reachable NetworkError).
Proof.
  intros Hc.
  specialize (Hc [queued_m1]
                 [queued_m1;
                  VObj [("type", VStr "upload"); ("data", record_m1); ("timestamp", VNum 1000)]]).
  assert (2 ≤ 1)%nat as Hle; [|lia].
  apply Hc; vm_compute; reflexivity.
Qed.

Lemma C2_witness :
  AuthManager.isLoggedIn (session (log_of [queued_m1]) idle)
    = (Ok true, session (log_of [queued_m1]) idle) ∧
  localStorage (session (log_of [queued_m1]) idle) !! LocalCacheManager.PENDING_OPS_KEY
    = Some (JsonText (VArr [queued_m1])) ∧
  [queued_m1] ≠ [] ∧
  forallb is_json [queued_m1] = true ∧
  onLine (reachable accepted) = true ∧
  ∃ synced failed a1,
    CloudSyncManager.replay (λ _, reachable NetworkError) 0 [queued_m1] (0, 0)
      (painted syncing (session (log_of [queued_m1]) idle))
      = (Ok (synced, failed), a1) ∧
    LocalCacheManager.getPendingOperations a1
      = (Ok (VArr [queued_m1; upload_op (reachable NetworkError) record_m1]), a1) ∧
    1 ≤ failed.
Proof.
  split; [reflexivity|]. split; [reflexivity|]. split; [discriminate|].
  split; [reflexivity|]. split; [reflexivity|].
  destruct (C2_replay_appends_on_failure (H:=example_runtime)
              (session (log_of [queued_m1]) idle) (reachable accepted)
              (λ _, reachable NetworkError) [queued_m1]
              ltac:(reflexivity) ltac:(reflexivity) ltac:(discriminate)
              ltac:(reflexivity) ltac:(reflexivity))
    as (synced & failed & a1 & a' & Hloop & Hlog & _ & _ & Hfailed & _).
  exists synced, failed, a1. split; [exact Hloop|]. split; [exact Hlog|exact Hfailed].
Defined.

(** C3 fails: offline, the upload of Alice's record leaves her cache empty
    (and is answered with [success: false]). *)
Lemma C3_counterexample : ¬ claim_C3 (session ∅ idle) unreachable record_m1.
Proof.
  intros Hc.
  destruct (Hc ltac:(reflexivity) ltac:(reflexivity))
    as (res & ops & cache & _ & _ & _ & Hcache & (d & Hd & _) & _).
  vm_compute in Hcache. injection Hcache as <-.
  by apply not_elem_of_nil in Hd.
Qed.

Lemma C3_witness :
  AuthManager.isLoggedIn (session ∅ idle) = (Ok true, session ∅ idle) ∧
  onLine unreachable = false ∧
  LocalCacheManager.getPendingOperations (session ∅ idle) = (Ok (VArr []), session ∅ idle) ∧
  ∃ a',
    CloudSyncManager.uploadData unreachable record_m1 (session ∅ idle)
      = (Ok (VObj [("success", VBool false);
                   ("error", VStr "网络离线，数据已保存到本地")]), a') ∧
    syncStatus a' = offline ∧
    LocalCacheManager.getPendingOperations a'
      = (Ok (VArr (map jsonify [upload_op unreachable record_m1])), a').
Proof.
  split; [reflexivity|]. split; [reflexivity|]. split; [reflexivity|].
  destruct (C3_offline_upload_is_queued (H:=example_runtime) (session ∅ idle) unreachable record_m1 []
              ltac:(reflexivity) ltac:(reflexivity) ltac:(reflexivity))
    as (a' & Hrun & Hst & _ & Hlog & _).
  exists a'. split; [exact Hrun|]. split; [exact Hst|exact Hlog].
Defined.

(** C4 fails: the delete of a record the service does not have sets the
    status to [error] (and is answered with [success: false]). *)
Lemma C4_counterexample :
  ¬ claim_C4 (session ∅ idle) (reachable (Response not_found)) (VStr "m1").
Proof.
  intros Hc.
  destruct (Hc ltac:(reflexivity) ltac:(reflexivity) ltac:(reflexivity))
    as (res & _ & _ & Hst & _).
  by apply Hst.
Qed.

Lemma C4_witness :
  AuthManager.isLoggedIn (session ∅ idle) = (Ok true, session ∅ idle) ∧
  onLine (reachable (Response not_found)) = true ∧
  Server.find_owned 5 7 alice_db = None ∧
  ∃ a',
    CloudSyncManager.deleteData (reachable (Response not_found)) (VStr "m1") (session ∅ idle)
      = (Ok (VObj [("success", VBool false);
                   ("error", VStr "数据不存在或无权限删除")]), a') ∧
    syncStatus a' = error ∧
    localStorage a' = localStorage (session ∅ idle).
Proof.
  split; [reflexivity|]. split; [reflexivity|]. split; [reflexivity|].
  exact (proj2 (C4_delete_not_found_is_error (H:=example_runtime) (session ∅ idle)
                  (reachable (Response not_found)) (VStr "m1") 7 5 alice_db
                  ltac:(reflexivity) ltac:(reflexivity) ltac:(reflexivity) ltac:(reflexivity))).
Defined.

Lemma C5_witness :
  AuthManager.isLoggedIn (session cached_jan idle) = (Ok true, session cached_jan idle) ∧
  onLine unreachable = false ∧
  localStorage (session cached_jan idle) !! "sales_data_cache_7"
    = Some (JsonText (VArr [record_m1])) ∧
  ∃ a',
    CloudSyncManager.downloadAllData unreachable (session cached_jan idle)
      = (Ok (VObj [("success", VBool true); ("data", VArr [revived record_m1])]), a') ∧
    syncStatus a' = offline ∧
    localStorage a' = cached_jan.
Proof.
  split; [reflexivity|]. split; [reflexivity|]. split; [reflexivity|].
  destruct (C5_offline_fallback (H:=example_runtime) (session cached_jan idle) unreachable
              ltac:(reflexivity) ltac:(reflexivity))
    as (r & a' & Hrun & Hst & Hls & _ & _ & Hfull & _).
  exists a'. split; [|split; [exact Hst|exact Hls]].
  rewrite Hrun.
  by rewrite (Hfull record_m1 [] ltac:(reflexivity) ltac:(reflexivity) ltac:(reflexivity)).
Defined.

(** C7 fails: the session that a registration leaves (the service has
    answered the user under id 0) downloads one record and caches nothing;
    the cache of the identity still reads empty. *)
Lemma C7_counterexample :
  ¬ claim_C7 newcomer
      (reachable (Response (VObj [("success", VBool true); ("data", VArr [record_m1])])))
      [record_m1].
Proof.
  intros Hc.
  destruct (Hc ltac:(reflexivity) ltac:(reflexivity) ltac:(reflexivity) ltac:(reflexivity))
    as [_ Hcache].
  vm_compute in Hcache. discriminate Hcache.
Qed.

Lemma C7_witness :
  let listed := VObj [("success", VBool true); ("data", VArr [record_m1; record_m2])] in
  let stale := {[ "sales_data_cache_7" := JsonText (VArr [VObj [("monthId", VStr "old_local")]]) ]} in
  AuthManager.isLoggedIn (session stale idle) = (Ok true, session stale idle) ∧
  forallb is_record [record_m1; record_m2] = true ∧
  ∃ a',
    CloudSyncManager.downloadAllData (reachable (Response listed)) (session stale idle)
      = (Ok (VObj [("success", VBool true); ("data", VArr [record_m1; record_m2])]), a') ∧
    localStorage a' = {[ "sales_data_cache_7" := JsonText (VArr [record_m1; record_m2]) ]}.
Proof.
  cbv zeta. split; [reflexivity|]. split; [reflexivity|].
  destruct (C7_cloud_wins_on_download (H:=example_runtime)
              (session {[ "sales_data_cache_7" :=
                            JsonText (VArr [VObj [("monthId", VStr "old_local")]]) ]} idle)
              (reachable (Response (VObj [("success", VBool true);
                                          ("data", VArr [record_m1; record_m2])])))
              _ (VBool true) [record_m1; record_m2]
              ltac:(reflexivity) ltac:(reflexivity) ltac:(reflexivity) ltac:(reflexivity) ltac:(reflexivity) ltac:(reflexivity) ltac:(reflexivity))
    as (a' & Hrun & _ & Hif).
  exists a'. split; [exact Hrun|].
  pose proof (Hif : _ ∧ _) as [Hls _]. rewrite Hls. reflexivity.
Defined.

(** C8, the code at an input where it departs from the claim.  Alice is
    registered, Mallory is not.  A login with a password that is a string
    and does not match is answered like a login of an unknown user, 401 with
    the one generic message.  A login whose password is the number 123456
    is answered 401 for Mallory and 500 for Alice: [verifyPassword] hands
    the number to [bcrypt.compare], which throws, and only a registered name
    gets that far.  The two answers tell a registered name from an unknown
    one. *)
Theorem C8_login_tells_a_registered_name :
  let login := λ body, Server.post_login body 1000 alice_db in
  let generic := Server.mkResponse 401 (failure (VStr "用户名或密码错误")) in
  Server.find_user "alice" alice_db = Some (Server.mkUser 7 "alice" "secret1") ∧
  Server.find_user "mallory" alice_db = None ∧
  login (credentials (VStr "mallory") (VStr "secret2")) = generic ∧
  login (credentials (VStr "alice") (VStr "secret2")) = generic ∧
  login (credentials (VStr "mallory") (VNum 123456)) = generic ∧
  login (credentials (VStr "alice") (VNum 123456))
    = Server.mkResponse 500 (failure (VStr "服务器错误")) ∧
  login (credentials (VStr "alice") (VStr "secret1"))
    = Server.mkResponse 200
        (VObj [("success", VBool true); ("token", VStr "alice.7.1000");
               ("user", VObj [("id", VNum 7); ("username", VStr "alice")])]).
Proof. vm_compute. repeat split; reflexivity. Qed.

(** C9 fails: a session whose status is [error] is still in [error] after
    the logout. *)
Lemma C9_counterexample : ¬ claim_C9 (session (log_of [queued_m1]) error).
Proof.
  intros (a' & Hrun & _ & _ & _ & _ & Hst).
  vm_compute in Hrun. injection Hrun as <-. discriminate Hst.
Qed.

(** * The further properties on concrete inputs *)

#[local] Existing Instance example_writer.
#[local] Existing Instance example_backend.

(** Alice logs in from a browser nobody was logged in to. *)
Lemma login_outcomes_witness :
  truthy (opt_prop (AuthManager.validateUsername (VStr "alice")) "valid") = true ∧
  truthy (opt_prop (AuthManager.validatePassword (VStr "secret1")) "valid") = true ∧
  ∃ r a',
    AuthManager.login (reachable (Response login_reply)) (VStr "alice") (VStr "secret1")
      (visitor ∅) = (Ok r, a') ∧
    r = VObj [("success", VBool true)] ∧
    token a' = VStr "token-of-alice" ∧ currentUser a' = alice.
Proof.
  split; [reflexivity|]. split; [reflexivity|].
  destruct (login_outcomes (H:=example_runtime) (reachable (Response login_reply))
              (VStr "alice") (VStr "secret1") (visitor ∅)
              ltac:(reflexivity) ltac:(reflexivity))
    as (r & a' & Hrun & _ & _ & _ & Hr & Htok & Huser & _).
  exists r, a'. split; [exact Hrun|]. split; [exact Hr|]. split; [exact Htok|exact Huser].
Defined.

(** Alice registers; the service is reachable and accepts. *)
Lemma register_outcomes_witness :
  truthy (opt_prop (AuthManager.validateUsername (VStr "alice")) "valid") = true ∧
  truthy (opt_prop (AuthManager.validatePassword (VStr "secret1")) "valid") = true ∧
  ∃ r a',
    AuthManager.register (reachable (Response login_reply)) (VStr "alice") (VStr "secret1")
      (visitor ∅) = (Ok r, a') ∧
    r = VObj [("success", VBool true)] ∧
    AuthManager.isLoggedIn a' = (Ok true, a').
Proof.
  split; [reflexivity|]. split; [reflexivity|].
  destruct (register_outcomes (H:=example_runtime) (reachable (Response login_reply))
              (VStr "alice") (VStr "secret1") (visitor ∅)
              ltac:(reflexivity) ltac:(reflexivity))
    as (r & a' & Hrun & _ & _ & _ & Hr & _ & _ & _ & _ & Hin).
  exists r, a'. split; [exact Hrun|]. split; [exact Hr|exact Hin].
Defined.

(** Alice logs in, the page is loaded again, and /me answers with her
    identity. *)
Lemma session_survives_reload_witness :
  reply (reachable (Response login_reply)) = Response login_reply ∧
  opt_prop login_reply "token" = VStr "token-of-alice" ∧
  is_json (opt_prop login_reply "user") = true ∧
  ∃ a2,
    AuthManager.restoreSession (H0:=example_writer)
      (Answered true (Ok (VObj [("success", VBool true); ("user", alice)])))
      (reloaded (AuthManager.login (reachable (Response login_reply)) (VStr "alice")
                   (VStr "secret1") (visitor ∅)).2)
      = (Ok true, a2) ∧
    AuthManager.isLoggedIn a2 = (Ok true, a2).
Proof.
  split; [reflexivity|]. split; [reflexivity|]. split; [reflexivity|].
  destruct (session_survives_reload (H:=example_runtime) (H0:=example_writer)
              (reachable (Response login_reply)) (VStr "alice") (VStr "secret1")
              login_reply (VBool true) "token-of-alice"
              [("success", VBool true); ("user", alice)] (visitor ∅)
              ltac:(reflexivity) ltac:(reflexivity) ltac:(reflexivity) ltac:(reflexivity)
              ltac:(reflexivity) ltac:(reflexivity) ltac:(discriminate)
              ltac:(reflexivity) ltac:(reflexivity))
    as (a2 & Hrun & _ & _ & _ & Hin).
  exists a2. split; [exact Hrun|exact Hin].
Defined.

(** A visitor's browser holds one queued upload and comes online. *)
Lemma sync_logged_out_sends_nothing_witness :
  AuthManager.isLoggedIn (visitor (log_of [queued_m1]))
    = (Ok false, visitor (log_of [queued_m1])) ∧
  onLine (reachable accepted) = true ∧
  ∃ a',
    CloudSyncManager.syncPendingOperations (reachable accepted) (λ _, reachable accepted)
      (visitor (log_of [queued_m1]))
      = (Ok (CloudSyncManager.sync_result false 0 1), a') ∧
    localStorage a' = log_of [queued_m1] ∧
    syncStatus a' = error.
Proof.
  split; [reflexivity|]. split; [reflexivity|].
  destruct (sync_logged_out_sends_nothing (H:=example_runtime)
              (visitor (log_of [queued_m1])) (reachable accepted)
              (λ _, reachable accepted) [queued_m1]
              ltac:(reflexivity) ltac:(reflexivity) ltac:(discriminate) ltac:(reflexivity))
    as (a' & Hrun & Hls & _ & _ & _ & Hst & _).
  exists a'. split; [exact Hrun|]. split; [exact Hls|exact Hst].
Defined.

(** The stored log is the JSON text of an empty object. *)
Lemma sync_on_malformed_log_throws_witness :
  localStorage (session object_log idle)
    !! LocalCacheManager.PENDING_OPS_KEY = Some (JsonText (VObj [])) ∧
  onLine (reachable accepted) = true ∧
  not_a_list (VObj []) = true ∧
  ∃ e a',
    CloudSyncManager.syncPendingOperations (reachable accepted) (λ _, reachable accepted)
      (session object_log idle)
      = (Throw e, a') ∧
    syncStatus a' = syncing.
Proof.
  split; [reflexivity|]. split; [reflexivity|]. split; [reflexivity|].
  destruct (sync_on_malformed_log_throws (H:=example_runtime)
              (session object_log idle)
              (reachable accepted) (λ _, reachable accepted) (VObj [])
              ltac:(reflexivity) ltac:(reflexivity))
    as (Hthrow & _).
  destruct (Hthrow ltac:(reflexivity)) as (e & a' & Hrun & Hst & _).
  exists e, a'. split; [exact Hrun|exact Hst].
Defined.

(** Alice is online and the service refuses the download. *)
Lemma failed_download_keeps_cache_witness :
  AuthManager.isLoggedIn (session ∅ idle) = (Ok true, session ∅ idle) ∧
  onLine (reachable refused) = true ∧
  ∃ r a',
    CloudSyncManager.downloadAllData (reachable refused) (session ∅ idle) = (Ok r, a') ∧
    syncStatus a' = error ∧
    r = failure (VStr "服务器错误").
Proof.
  split; [reflexivity|]. split; [reflexivity|].
  destruct (failed_download_keeps_cache (H:=example_runtime) (reachable refused)
              (session ∅ idle) ltac:(reflexivity) ltac:(reflexivity)
              ltac:(intros result s Hr Hs; vm_compute in Hr; injection Hr as <-;
                    vm_compute in Hs; injection Hs as <-; reflexivity))
    as (r & a' & Hrun & Hst & _ & _ & Hr).
  exists r, a'. split; [exact Hrun|]. split; [exact Hst|exact Hr].
Defined.

(** Alice registers in an empty database and logs in afterwards. *)
Lemma registered_user_can_log_in_witness :
  Server.status
    (Server.post_register (credentials (VStr "alice") (VStr "secret1")) "secret1" 1000
       (0, empty_db)).1 = 201 ∧
  bcrypt_compare "secret1" "secret1" = true ∧
  Server.status
    (Server.post_login (credentials (VStr "alice") (VStr "secret1")) 2000
       (Server.post_register (credentials (VStr "alice") (VStr "secret1")) "secret1" 1000
          (0, empty_db)).2.2) = 200.
Proof.
  split; [reflexivity|]. split; [reflexivity|].
  destruct (registered_user_can_log_in (H:=example_runtime) "alice" "secret1" "wrong"
              "secret1" 1000 2000 (0, empty_db) ltac:(reflexivity) ltac:(reflexivity))
    as (Hlogin & _).
  exact (f_equal Server.status Hlogin).
Defined.

(** What the page lets through, the service registers. *)
Lemma checked_registration_is_not_refused_witness :
  truthy (opt_prop (AuthManager.validateUsername (VStr "alice")) "valid") = true ∧
  truthy (opt_prop (AuthManager.validatePassword (VStr "secret1")) "valid") = true ∧
  trim (trim "alice") = trim "alice" ∧
  Server.status
    (Server.post_register (login_request "alice" "secret1") "hash" 1000 (0, empty_db)).1
  = 201.
Proof.
  split; [reflexivity|]. split; [reflexivity|]. split; [reflexivity|].
  destruct (checked_registration_is_not_refused (H:=example_runtime) "alice" "secret1"
              "hash" 1000 (0, empty_db)
              ltac:(reflexivity) ltac:(reflexivity) ltac:(reflexivity))
    as [(_ & Hst & _)|(_ & Hst & _)].
  - discriminate Hst.
  - exact Hst.
Defined.

(** Alice deletes her month; Bob's stays. *)
Lemma delete_removes_one_owned_row_witness :
  NoDup (row_ids sales_db) ∧
  rows_of_others 7 (Server.delete_data 7 (Some 2) sales_db).2 = [bob_feb] ∧
  Server.status (Server.delete_data 7 (Some 2) (Server.delete_data 7 (Some 2) sales_db).2).1
  ≠ 200.
Proof.
  assert (NoDup (row_ids sales_db)) as Hnd by (by apply (bool_decide_unpack _)).
  split; [exact Hnd|].
  destruct (delete_removes_one_owned_row (H:=example_runtime) 7 (Some 2) sales_db Hnd)
    as (_ & _ & _ & Hothers & _ & _ & _ & Hagain).
  split; [exact Hothers|exact Hagain].
Defined.

(** Alice uploads a second month. *)
Lemma upload_touches_own_rows_only_witness :
  NoDup (row_ids sales_db) ∧
  rows_of_others 7 (Server.post_data 7 record_m2 2000 sales_db).2 = [bob_feb] ∧
  NoDup (row_ids (Server.post_data 7 record_m2 2000 sales_db).2).
Proof.
  assert (NoDup (row_ids sales_db)) as Hnd by (by apply (bool_decide_unpack _)).
  split; [exact Hnd|].
  destruct (upload_touches_own_rows_only (H:=example_runtime) 7 record_m2 2000 sales_db Hnd)
    as (Hothers & Hnd' & _).
  split; [exact Hothers|exact Hnd'].
Defined.

(** The upload of a new month takes the rowid after the sequence. *)
Lemma row_ids_are_never_reused_witness :
  seq_bounds sales_db ∧
  seq_bounds (Server.post_data 7 record_m2 2000 sales_db).2 ∧
  seq_bounds (Server.delete_data 7 (Some 2) sales_db).2.
Proof.
  assert (seq_bounds sales_db) as Hb.
  { split; [discriminate|]. intros row Hin.
    apply elem_of_cons in Hin as [->|Hin]; [discriminate|].
    apply elem_of_cons in Hin as [->|Hin]; [discriminate|].
    by apply not_elem_of_nil in Hin. }
  split; [exact Hb|].
  destruct (row_ids_are_never_reused (H:=example_runtime) 7 record_m2 2000 7 (Some 2)
              sales_db Hb)
    as (Hr & Hd & _).
  split; [exact Hr|exact Hd].
Defined.

(** What Bob uploads and deletes does not show in Alice's listing. *)
Lemma listing_is_private_witness :
  NoDup (row_ids sales_db) ∧ 7 ≠ 8 ∧
  Server.get_data 7 (Server.post_data 8 record_m1 2000 sales_db).2
    = Server.get_data 7 sales_db ∧
  Server.get_data 7 (Server.delete_data 8 (Some 1) sales_db).2
    = Server.get_data 7 sales_db.
Proof.
  assert (NoDup (row_ids sales_db)) as Hnd by (by apply (bool_decide_unpack _)).
  split; [exact Hnd|]. split; [discriminate|].
  exact (listing_is_private (H:=example_runtime) (H0:=example_backend) 7 8 record_m1 2000
           (Some 1) sales_db Hnd ltac:(discriminate)).
Defined.

(** Alice uploads February and finds it in her listing. *)
Lemma uploaded_record_is_listed_witness :
  get_field feb_in_colour_5 "monthId" = VStr "m2" ∧
  get_field feb_in_colour_5 "monthName" = VStr "Feb" ∧
  Server.bound_text (js_or (get_field feb_in_colour_5 "color") (VStr "#4A90A4"))
    = Ok (VStr "5") ∧
  Forall readable (rows_of 7 sales_db) ∧
  ∃ items,
    (Server.post_data 7 (VObj feb_in_colour_5) 2000 sales_db).1
      = Server.mkResponse 201 (VObj [("success", VBool true); ("id", VNum 0)]) ∧
    Server.get_data 7 (Server.post_data 7 (VObj feb_in_colour_5) 2000 sales_db).2
      = listing items ∧
    VObj [("id", VNum 3); ("monthId", VStr "m2"); ("monthName", VStr "Feb");
          ("color", VStr "5"); ("config", VObj []); ("groupedData", VArr []);
          ("rawData", VArr []); ("createdAt", VStr "2000"); ("updatedAt", VStr "2000")]
      ∈ items.
Proof.
  assert (Forall readable (rows_of 7 sales_db)) as Hread.
  { change (Forall readable [alice_jan]).
    apply Forall_cons_2; [|apply Forall_nil_2]. eexists. reflexivity. }
  split; [reflexivity|]. split; [reflexivity|]. split; [reflexivity|].
  split; [exact Hread|].
  destruct (uploaded_record_is_listed (H:=example_runtime) (H0:=example_backend) 7
              feb_in_colour_5 "m2" "Feb" (VStr "5") 2000 sales_db
              ltac:(reflexivity) ltac:(discriminate) ltac:(reflexivity) ltac:(discriminate)
              ltac:(reflexivity) Hread)
    as (id & created & items & Hlist & Hitem & [H200|(H201 & Hc & Hid & _)] & _).
  - vm_compute in H200. discriminate H200.
  - exists items. split; [exact H201|]. split; [exact Hlist|].
    rewrite Hc, Hid in Hitem. exact Hitem.
Defined.

(** One month, saved and loaded by a runtime that reads its date back. *)
Lemma saved_months_are_loaded_witness :
  forallb (storable (H:=clock_runtime)) [month_jan] = true ∧
  ∃ a1 a2,
    StorageManager.saveData (H:=clock_runtime) (VArr [month_jan]) (visitor ∅)
      = (Ok true, a1) ∧
    StorageManager.loadData (H:=clock_runtime) a1 = (Ok (VArr [month_jan]), a2).
Proof.
  split; [reflexivity|].
  destruct (saved_months_are_loaded (H:=clock_runtime) [month_jan] (visitor ∅)
              ltac:(reflexivity))
    as (a1 & a2 & a3 & Hsave & Hload & _).
  exists a1, a2. split; [exact Hsave|exact Hload].
Defined.

(** A month without a date is not saved. *)
Lemma unsaved_months_keep_the_stored_ones_witness :
  ∃ a',
    StorageManager.saveData (VArr [VObj [("id", VStr "m1")]]) (visitor ∅) = (Ok false, a') ∧
    localStorage a' !! STORAGE_KEY = localStorage (visitor ∅) !! STORAGE_KEY.
Proof.
  destruct (unsaved_months_keep_the_stored_ones (H:=example_runtime)
              (VArr [VObj [("id", VStr "m1")]]) (visitor ∅)
              ltac:(intros l Hl; injection Hl as <-; eexists; split;
                    [apply list_elem_of_here|intros t; discriminate]))
    as (a' & Hsave & Hkey & _).
  exists a'. split; [exact Hsave|exact Hkey].
Defined.

(** The tenth colour is the second of the palette. *)
Lemma colours_cycle_through_palette_witness :
  0 ≤ colorIndex (mkMonths (VArr []) 9) < 2 ^ 53 ∧
  ∃ c,
    StateManager.getNextColor (mkMonths (VArr []) 9) (visitor ∅)
      = (Ok (VStr c), mkMonths (VArr []) 10, visitor ∅) ∧
    COLOR_PALETTE !! 1%nat = Some c.
Proof.
  split; [split; [discriminate|reflexivity]|].
  destruct (colours_cycle_through_palette (mkMonths (VArr []) 9) (visitor ∅)
              ltac:(split; [discriminate|reflexivity]))
    as (c & Hrun & Hc & _).
  exists c. split; [exact Hrun|exact Hc].
Defined.
